(** * Policy distillation for DQN: [rl_algorithms/distillation/dqn_agent.py]

    A shallow embedding of the class [DistillationDQN] and the properties its
    specification states about it.  The Python methods become functions in a
    state-and-exception monad over a record holding the attributes of [self]
    together with the part of the outside world the methods act on (the
    environment, the file system, the random generator and a log of the calls
    made to collaborators). *)

From Stdlib Require Import ZArith List String Ascii Bool Lia QArith Reals Lra DecimalString DecimalZ.

From stdpp Require Import base gmap strings list.

Import ListNotations.

Open Scope Z_scope.

(** ** Python values used by the agent *)

(** The exceptions the modelled code can raise. *)
Inductive exn :=
| AssertionError
| ZeroDivisionError
| UnboundLocalError
| AttributeError
| TypeError
| IndexError
| FileExistsError
| FileNotFoundError
| NotADirectoryError
| IsADirectoryError.

(** [hyper_params.buffer_path] is a single path in student mode and a
    sequence of paths in the augmentation pass; Python iterates over a
    string character by character. *)
Inductive pypath :=
| PStr (s : string)
| PList (l : list string).

Fixpoint chars (s : string) : list string :=
  match s with
  | EmptyString => []
  | String c s' => String c EmptyString :: chars s'
  end.

Definition iter_path (p : pypath) : list string :=
  match p with
  | PStr s => chars s
  | PList l => l
  end.

(** [str(n)] / ["{}".format(n)] for an integer. *)
Definition str_of_Z (z : Z) : string := NilZero.string_of_int (Z.to_int z).

(** [range(n)] *)
Definition range (n : Z) : list Z := map Z.of_nat (seq 0 (Z.to_nat n)).

(** Truth value of an optional string ([None] and [""] are false). *)
Definition truthy (o : option string) : bool :=
  match o with
  | Some s => negb (String.eqb s "")
  | None => false
  end.

(** ** The numeric libraries (torch, numpy) as an interface *)

Class TorchAPI := {
  ndarray : Type;                      (* numpy arrays: states, actions, Q-vectors *)
  tensor : Type;                       (* torch tensors *)
  pyfloat : Type;                      (* Python / numpy floating-point scalars *)
  float_lit : Q -> pyfloat;            (* a decimal literal *)
  float_add : pyfloat -> pyfloat -> pyfloat;
  float_gt : pyfloat -> pyfloat -> bool;
  from_numpy : ndarray -> tensor;      (* torch.from_numpy(x) *)
  to_device : tensor -> tensor;        (* x.float().to(device) *)
  t_cuda : tensor -> tensor;           (* x.cuda(non_blocking=True) *)
  t_div : tensor -> pyfloat -> tensor; (* x / scalar *)
  F_softmax_dim1 : tensor -> tensor;
  F_log_softmax_dim1 : tensor -> tensor;
  F_kl_div_sum : tensor -> tensor -> tensor;
  t_mean : tensor -> tensor;
  t_item : tensor -> pyfloat;
  t_argmax_numpy : tensor -> ndarray;  (* x.argmax().detach().cpu().numpy() *)
  t_squeeze_numpy : tensor -> ndarray  (* x.squeeze().detach().cpu().numpy() *)
}.

(** ** Configuration records *)

Record Args := {
  teacher : bool;
  student : bool;
  add_expert_q : bool;
  test : bool;
  render : bool;
  log : bool;
  episode_num : Z;
  interim_test_num : Z;
  distillation_buffer_path : option string
}.

Record HyperParams := {
  hp_buffer_path : pypath;
  batch_size : Z;
  buffer_size : Z;
  epochs : Z
}.

Record LogCfg := {
  env_name : string;
  agent : string;
  curr_time : string
}.

(** [bool] summed as an integer, as in [teacher + student + ...]. *)
Definition int_of_bool (b : bool) : Z := if b then 1 else 0.

Definition mode_sum (a : Args) : Z :=
  int_of_bool (teacher a) + int_of_bool (student a)
  + int_of_bool (add_expert_q a) + int_of_bool (test a).

(** ** Paths and the file system *)

Fixpoint split_slash (s : string) (cur : string) : list string :=
  match s with
  | EmptyString => [cur]
  | String c s' =>
      if Ascii.eqb c "/"%char then cur :: split_slash s' EmptyString
      else split_slash s' (cur +:+ String c EmptyString)
  end.

(** The components of a path; empty components and ["."] are dropped, so
    ["./a//b/"] and ["a/b"] name the same place.  Paths are read from the
    working directory: a leading ["/"] is dropped like any empty component,
    so absolute paths are not told apart from relative ones. *)
Definition components (p : string) : list string :=
  List.filter (fun c => negb (String.eqb c "" || String.eqb c "."))
              (split_slash p EmptyString).

(** A string without the separator ["/"]. *)
Fixpoint no_slash (s : string) : bool :=
  match s with
  | EmptyString => true
  | String c s' => negb (Ascii.eqb c "/"%char) && no_slash s'
  end.

Fixpoint prefixes {A} (l : list A) : list (list A) :=
  match l with
  | [] => []
  | x :: l' => [x] :: map (cons x) (prefixes l')
  end.

Section WithTorch.

Context {T : TorchAPI}.

(** A pickled file holds a Python list; [None] entries are kept. *)
Definition pickled := list (option ndarray).

Inductive node :=
| Dir
| File (content : pickled).

Abbreviation filesystem := (gmap (list string) node).

Definition is_dir (fs : filesystem) (cs : list string) : bool :=
  match cs with
  | [] => true
  | _ => match fs !! cs with Some Dir => true | _ => false end
  end.

(** [os.path.exists(p)]; a ["/"] at the end of [p] is not looked at, also
    where [p] names a regular file. *)
Definition path_exists (fs : filesystem) (p : string) : bool :=
  match components p with
  | [] => true
  | cs => match fs !! cs with Some _ => true | None => false end
  end.

Definition parent (cs : list string) : list string := removelast cs.

(** [os.makedirs(p, exist_ok)] *)
Definition os_makedirs (fs : filesystem) (p : string) (exist_ok : bool)
  : exn + filesystem :=
  let cs := components p in
  if path_exists fs p then
    if exist_ok && is_dir fs cs then inr fs else inl FileExistsError
  else if forallb (fun q => match fs !! q with Some (File _) => false | _ => true end)
                  (prefixes cs)
  then inr (fold_left (fun m q => match m !! q with
                                  | Some _ => m
                                  | None => <[q := Dir]> m
                                  end) (prefixes cs) fs)
  else inl NotADirectoryError.

(** [os.mkdir(p)] *)
Definition os_mkdir (fs : filesystem) (p : string) : exn + filesystem :=
  let cs := components p in
  if path_exists fs p then inl FileExistsError
  else if is_dir fs (parent cs) then inr (<[cs := Dir]> fs)
  else inl FileNotFoundError.

(** [os.listdir(p)]: the names directly under [p]. *)
Definition os_listdir (fs : filesystem) (p : string) : exn + list string :=
  let cs := components p in
  if is_dir fs cs then
    inr (omap (fun kv : list string * node =>
                 match last (fst kv) with
                 | Some n => if decide (parent (fst kv) = cs) then Some n else None
                 | None => None
                 end) (map_to_list fs))
  else match fs !! cs with
       | Some _ => inl NotADirectoryError
       | None => inl FileNotFoundError
       end.

(** [open(p, "wb")] followed by [pickle.dump(content, f)] *)
Definition write_pickle (fs : filesystem) (p : string) (content : pickled)
  : exn + filesystem :=
  let cs := components p in
  match cs with
  | [] => inl IsADirectoryError
  | _ =>
      match fs !! cs with
      | Some Dir => inl IsADirectoryError
      | _ => if is_dir fs (parent cs) then inr (<[cs := File content]> fs)
             else inl FileNotFoundError
      end
  end.

(** [open(p, "rb")] followed by [pickle.load(f)] *)
Definition read_pickle (fs : filesystem) (p : string) : exn + pickled :=
  match components p with
  | [] => inl IsADirectoryError
  | cs => match fs !! cs with
          | Some (File c) => inr c
          | Some Dir => inl IsADirectoryError
          | None => inl FileNotFoundError
          end
  end.

(** The regular files directly under a directory. *)
Definition files_under (fs : filesystem) (p : string) : list (string * pickled) :=
  omap (fun kv : list string * node =>
          match last (fst kv), snd kv with
          | Some n, File c =>
              if decide (parent (fst kv) = components p) then Some (n, c) else None
          | _, _ => None
          end) (map_to_list fs).

(** ** Collaborators outside this class

    The environment, the learner (network and optimiser), the random
    generator and the state preprocessing of the base agent. *)

Class Collaborators := {
  Env : Type;
  Info : Type;
  Rng : Type;
  Learner : Type;
  LearnerCfg : Type;
  BaseState : Type;                    (* what [DQNAgent] keeps for itself *)
  env_reset : Env -> Env * ndarray;
  env_step : Env -> ndarray -> Env * (ndarray * pyfloat * bool * Info);
  action_space_sample : Env -> Env * ndarray;
  np_random_random : Rng -> Rng * pyfloat;
  cuda_is_available : bool;
  build_learner : LearnerCfg -> Learner;
  dqn : Learner -> tensor -> tensor;               (* learner.dqn(x) *)
  zero_grad : Learner -> Learner;                  (* dqn_optim.zero_grad() *)
  backward : (Learner -> tensor) -> Learner -> Learner;
                    (* loss.backward(), for the loss as a function of the
                       network's parameters *)
  optim_step : Learner -> Learner;                 (* dqn_optim.step() *)
  _preprocess_state : ndarray -> tensor
}.

Context {C : Collaborators}.

(** ** The distillation buffer *)

(** A Transition Sample as [step] builds it: [(curr_state, q_values)], where
    [q_values] is [None] when the caller left it out. *)
Definition sample : Type := ndarray * option ndarray.

(** Modelled from the spec: class [DistillationBuffer] of
    [rl_algorithms/common/buffer/distillation_buffer.py] is not among the
    sources.  The spec describes it as an append-only store of Transition
    Samples bound to a batch size and a storage path, whose cursor [idx] is
    the count of samples currently stored and advances by exactly one per
    collection step, with a read cursor that [reset_dataloader] resets, and
    batched reads.  Its attribute [buffer_size] is read by [train].  The
    constructor is called with a batch size, a path and a time stamp only, so
    the buffer itself knows no capacity: the capacity is the collection
    loop's guard. *)
Record DistillationBuffer := {
  db_batch_size : Z;
  db_buffer_path : pypath;
  db_curr_time : string;
  idx : Z;
  stored : list sample;
  db_buffer_size : Z;
  cursor : Z;
  passes : Z
}.

(** Modelled from the spec: the number of Transition Samples found under the
    buffer's storage path. *)
Definition dataset_len (fs : filesystem) (p : pypath) : Z :=
  match p with
  | PStr s => Z.of_nat (length (files_under fs s))
  | PList l => Z.of_nat (length (flat_map (files_under fs) l))
  end.

(** Modelled from the spec: [DistillationBuffer(batch_size, buffer_path, curr_time)],
    created empty ([idx = 0]). *)
Definition new_DistillationBuffer (fs : filesystem) (bs : Z) (p : pypath) (t : string)
  : DistillationBuffer :=
  {| db_batch_size := bs; db_buffer_path := p; db_curr_time := t;
     idx := 0; stored := []; db_buffer_size := dataset_len fs p;
     cursor := 0; passes := 0 |}.

(** Modelled from the spec: [memory.add(data)] appends one Transition Sample
    and advances [idx] by one. *)
Definition db_add (b : DistillationBuffer) (d : sample) : DistillationBuffer :=
  {| db_batch_size := db_batch_size b; db_buffer_path := db_buffer_path b;
     db_curr_time := db_curr_time b;
     idx := idx b + 1; stored := stored b ++ [d];
     db_buffer_size := db_buffer_size b; cursor := cursor b; passes := passes b |}.

(** Modelled from the spec: [memory.reset_dataloader()] puts the read cursor
    back to the start for a fresh shuffled pass. *)
Definition db_reset_dataloader (b : DistillationBuffer) : DistillationBuffer :=
  {| db_batch_size := db_batch_size b; db_buffer_path := db_buffer_path b;
     db_curr_time := db_curr_time b;
     idx := idx b; stored := stored b;
     db_buffer_size := db_buffer_size b; cursor := 0; passes := passes b + 1 |}.

(** Modelled from the spec: [memory.sample_for_diltillation()] reads the next
    batch of the current pass; which samples it holds is decided by the
    shuffle, given here by [batch_at]. *)
Definition db_sample (batch_at : DistillationBuffer -> tensor * tensor)
  (b : DistillationBuffer) : (tensor * tensor) * DistillationBuffer :=
  (batch_at b,
   {| db_batch_size := db_batch_size b; db_buffer_path := db_buffer_path b;
      db_curr_time := db_curr_time b;
      idx := idx b; stored := stored b;
      db_buffer_size := db_buffer_size b;
      cursor := cursor b + db_batch_size b; passes := passes b |}).

(** ** Calls to collaborators that leave a mark outside the agent *)

Inductive event :=
| EnvReset
| EnvRender
| EnvStep (action : ndarray)
| MemoryAdd (d : sample)
| ResetDataloader
| SampleBatch
| OptimZeroGrad
| LossBackward
| OptimStep
| SaveParams (steps : Z)
| SetWandb
| WandbTestScore (score : pyfloat)
| WandbLoss (loss avg_q : pyfloat)
| PrintTest (i_episode step : Z) (score : pyfloat)
| PrintCollect (i_episode step : Z) (score : pyfloat) (fill : Z)
| PrintSaved (path : pypath)
| PrintTotal (n_epochs train_steps : Z)
| PrintTraining (n_epoch steps : Z) (loss avg_q : pyfloat)
| ProgressOpen (total : Z)
| ProgressAdvance
| ProgressClose.

(** ** The agent and the world it runs in *)

Record Agent := {
  (* configuration *)
  args : Args;
  hyper_params : HyperParams;
  log_cfg : LogCfg;
  learner_cfg : LearnerCfg;
  env_info_name : string;
  (* attributes kept by the base agent *)
  i_episode : Z;
  epsilon : pyfloat;
  curr_state : ndarray;
  learner : Learner;
  base_state : BaseState;
  (* attributes defined by [DistillationDQN]; [None] while unset *)
  softmax_tau : option pyfloat;
  buffer_path : option pypath;
  memory : option DistillationBuffer;
  save_distillation_dir : option string;
  save_count : option Z;
  file_name_list : list (string * string);
  (* the world *)
  env : Env;
  rng : Rng;
  fs : filesystem;
  clock : string;                      (* time.strftime("%Y%m%d%H%M%S") *)
  trace : list event
}.

Definition set_curr_state (v : ndarray) (a : Agent) : Agent :=
  {| args := args a; hyper_params := hyper_params a; log_cfg := log_cfg a;
     learner_cfg := learner_cfg a; env_info_name := env_info_name a;
     i_episode := i_episode a; epsilon := epsilon a; curr_state := v;
     learner := learner a; base_state := base_state a;
     softmax_tau := softmax_tau a; buffer_path := buffer_path a;
     memory := memory a; save_distillation_dir := save_distillation_dir a;
     save_count := save_count a; file_name_list := file_name_list a;
     env := env a; rng := rng a; fs := fs a; clock := clock a; trace := trace a |}.

Definition set_learner (v : Learner) (a : Agent) : Agent :=
  {| args := args a; hyper_params := hyper_params a; log_cfg := log_cfg a;
     learner_cfg := learner_cfg a; env_info_name := env_info_name a;
     i_episode := i_episode a; epsilon := epsilon a; curr_state := curr_state a;
     learner := v; base_state := base_state a;
     softmax_tau := softmax_tau a; buffer_path := buffer_path a;
     memory := memory a; save_distillation_dir := save_distillation_dir a;
     save_count := save_count a; file_name_list := file_name_list a;
     env := env a; rng := rng a; fs := fs a; clock := clock a; trace := trace a |}.

Definition set_softmax_tau (v : option pyfloat) (a : Agent) : Agent :=
  {| args := args a; hyper_params := hyper_params a; log_cfg := log_cfg a;
     learner_cfg := learner_cfg a; env_info_name := env_info_name a;
     i_episode := i_episode a; epsilon := epsilon a; curr_state := curr_state a;
     learner := learner a; base_state := base_state a;
     softmax_tau := v; buffer_path := buffer_path a;
     memory := memory a; save_distillation_dir := save_distillation_dir a;
     save_count := save_count a; file_name_list := file_name_list a;
     env := env a; rng := rng a; fs := fs a; clock := clock a; trace := trace a |}.

Definition set_buffer_path (v : option pypath) (a : Agent) : Agent :=
  {| args := args a; hyper_params := hyper_params a; log_cfg := log_cfg a;
     learner_cfg := learner_cfg a; env_info_name := env_info_name a;
     i_episode := i_episode a; epsilon := epsilon a; curr_state := curr_state a;
     learner := learner a; base_state := base_state a;
     softmax_tau := softmax_tau a; buffer_path := v;
     memory := memory a; save_distillation_dir := save_distillation_dir a;
     save_count := save_count a; file_name_list := file_name_list a;
     env := env a; rng := rng a; fs := fs a; clock := clock a; trace := trace a |}.

Definition set_memory (v : option DistillationBuffer) (a : Agent) : Agent :=
  {| args := args a; hyper_params := hyper_params a; log_cfg := log_cfg a;
     learner_cfg := learner_cfg a; env_info_name := env_info_name a;
     i_episode := i_episode a; epsilon := epsilon a; curr_state := curr_state a;
     learner := learner a; base_state := base_state a;
     softmax_tau := softmax_tau a; buffer_path := buffer_path a;
     memory := v; save_distillation_dir := save_distillation_dir a;
     save_count := save_count a; file_name_list := file_name_list a;
     env := env a; rng := rng a; fs := fs a; clock := clock a; trace := trace a |}.

Definition set_save_distillation_dir (v : option string) (a : Agent) : Agent :=
  {| args := args a; hyper_params := hyper_params a; log_cfg := log_cfg a;
     learner_cfg := learner_cfg a; env_info_name := env_info_name a;
     i_episode := i_episode a; epsilon := epsilon a; curr_state := curr_state a;
     learner := learner a; base_state := base_state a;
     softmax_tau := softmax_tau a; buffer_path := buffer_path a;
     memory := memory a; save_distillation_dir := v;
     save_count := save_count a; file_name_list := file_name_list a;
     env := env a; rng := rng a; fs := fs a; clock := clock a; trace := trace a |}.

Definition set_save_count (v : option Z) (a : Agent) : Agent :=
  {| args := args a; hyper_params := hyper_params a; log_cfg := log_cfg a;
     learner_cfg := learner_cfg a; env_info_name := env_info_name a;
     i_episode := i_episode a; epsilon := epsilon a; curr_state := curr_state a;
     learner := learner a; base_state := base_state a;
     softmax_tau := softmax_tau a; buffer_path := buffer_path a;
     memory := memory a; save_distillation_dir := save_distillation_dir a;
     save_count := v; file_name_list := file_name_list a;
     env := env a; rng := rng a; fs := fs a; clock := clock a; trace := trace a |}.

Definition set_file_name_list (v : list (string * string)) (a : Agent) : Agent :=
  {| args := args a; hyper_params := hyper_params a; log_cfg := log_cfg a;
     learner_cfg := learner_cfg a; env_info_name := env_info_name a;
     i_episode := i_episode a; epsilon := epsilon a; curr_state := curr_state a;
     learner := learner a; base_state := base_state a;
     softmax_tau := softmax_tau a; buffer_path := buffer_path a;
     memory := memory a; save_distillation_dir := save_distillation_dir a;
     save_count := save_count a; file_name_list := v;
     env := env a; rng := rng a; fs := fs a; clock := clock a; trace := trace a |}.

Definition set_env (v : Env) (a : Agent) : Agent :=
  {| args := args a; hyper_params := hyper_params a; log_cfg := log_cfg a;
     learner_cfg := learner_cfg a; env_info_name := env_info_name a;
     i_episode := i_episode a; epsilon := epsilon a; curr_state := curr_state a;
     learner := learner a; base_state := base_state a;
     softmax_tau := softmax_tau a; buffer_path := buffer_path a;
     memory := memory a; save_distillation_dir := save_distillation_dir a;
     save_count := save_count a; file_name_list := file_name_list a;
     env := v; rng := rng a; fs := fs a; clock := clock a; trace := trace a |}.

Definition set_rng (v : Rng) (a : Agent) : Agent :=
  {| args := args a; hyper_params := hyper_params a; log_cfg := log_cfg a;
     learner_cfg := learner_cfg a; env_info_name := env_info_name a;
     i_episode := i_episode a; epsilon := epsilon a; curr_state := curr_state a;
     learner := learner a; base_state := base_state a;
     softmax_tau := softmax_tau a; buffer_path := buffer_path a;
     memory := memory a; save_distillation_dir := save_distillation_dir a;
     save_count := save_count a; file_name_list := file_name_list a;
     env := env a; rng := v; fs := fs a; clock := clock a; trace := trace a |}.

Definition set_fs (v : filesystem) (a : Agent) : Agent :=
  {| args := args a; hyper_params := hyper_params a; log_cfg := log_cfg a;
     learner_cfg := learner_cfg a; env_info_name := env_info_name a;
     i_episode := i_episode a; epsilon := epsilon a; curr_state := curr_state a;
     learner := learner a; base_state := base_state a;
     softmax_tau := softmax_tau a; buffer_path := buffer_path a;
     memory := memory a; save_distillation_dir := save_distillation_dir a;
     save_count := save_count a; file_name_list := file_name_list a;
     env := env a; rng := rng a; fs := v; clock := clock a; trace := trace a |}.

Definition set_trace (v : list event) (a : Agent) : Agent :=
  {| args := args a; hyper_params := hyper_params a; log_cfg := log_cfg a;
     learner_cfg := learner_cfg a; env_info_name := env_info_name a;
     i_episode := i_episode a; epsilon := epsilon a; curr_state := curr_state a;
     learner := learner a; base_state := base_state a;
     softmax_tau := softmax_tau a; buffer_path := buffer_path a;
     memory := memory a; save_distillation_dir := save_distillation_dir a;
     save_count := save_count a; file_name_list := file_name_list a;
     env := env a; rng := rng a; fs := fs a; clock := clock a; trace := v |}.

(** ** The monad of methods: state, exceptions and fuel for [while] loops *)

Inductive outcome (A : Type) :=
| Ret (a : A) (s : Agent)
| Raise (e : exn) (s : Agent)
| Diverge.

Arguments Ret {A} a s.

Arguments Raise {A} e s.

Arguments Diverge {A}.

Definition M (A : Type) : Type := Agent -> outcome A.

Definition ret {A} (a : A) : M A := fun s => Ret a s.

Definition bind {A B} (m : M A) (k : A -> M B) : M B :=
  fun s => match m s with
           | Ret a s' => k a s'
           | Raise e s' => Raise e s'
           | Diverge => Diverge
           end.

Definition raise {A} (e : exn) : M A := fun s => Raise e s.

Definition diverge {A} : M A := fun _ => Diverge.

Definition get : M Agent := fun s => Ret s s.

Definition modify (f : Agent -> Agent) : M unit := fun s => Ret tt (f s).

Notation "'let*' x ':=' m 'in' k" := (bind m (fun x => k))
  (at level 10, x name, m at level 100, k at level 200, only parsing).

Notation "'let*' ' p ':=' m 'in' k" := (bind m (fun x => match x with p => k end))
  (at level 10, p pattern, m at level 100, k at level 200, only parsing).

Notation "m ;;; k" := (bind m (fun _ => k))
  (at level 100, k at level 200, only parsing, right associativity).

Definition when (b : bool) (m : M unit) : M unit := if b then m else ret tt.

(** [assert b] *)
Definition py_assert (b : bool) : M unit :=
  if b then ret tt else raise AssertionError.

(** Reading an attribute that may be unset. *)
Definition attr {A} (f : Agent -> option A) : M A :=
  let* self := get in
  match f self with
  | Some v => ret v
  | None => raise AttributeError
  end.

Definition emit (e : event) : M unit :=
  modify (fun s => set_trace (trace s ++ [e]) s).

(** A file-system call: its result or its exception. *)
Definition fs_update (f : filesystem -> exn + filesystem) : M unit :=
  let* self := get in
  match f (fs self) with
  | inr fs' => modify (set_fs fs')
  | inl e => raise e
  end.

Definition fs_query {A} (f : filesystem -> exn + A) : M A :=
  let* self := get in
  match f (fs self) with
  | inr v => ret v
  | inl e => raise e
  end.

(** [for x in l: body], where the body says whether it hit [break]. *)
Fixpoint for_in {A} (l : list A) (body : A -> M bool) : M unit :=
  match l with
  | [] => ret tt
  | x :: l' => let* brk := body x in if brk then ret tt else for_in l' body
  end.

(** *** Calls on the environment, the generator and the buffer *)

Definition call_env_reset : M ndarray :=
  let* self := get in
  let '(e, st) := env_reset (env self) in
  modify (set_env e) ;;; emit EnvReset ;;; ret st.

Definition call_env_render : M unit := emit EnvRender.

Definition call_env_step (action : ndarray) : M (ndarray * pyfloat * bool * Info) :=
  let* self := get in
  let '(e, r) := env_step (env self) action in
  modify (set_env e) ;;; emit (EnvStep action) ;;; ret r.

Definition call_action_space_sample : M ndarray :=
  let* self := get in
  let '(e, a) := action_space_sample (env self) in
  modify (set_env e) ;;; ret a.

Definition call_np_random_random : M pyfloat :=
  let* self := get in
  let '(g, x) := np_random_random (rng self) in
  modify (set_rng g) ;;; ret x.

Definition memory_add (d : sample) : M unit :=
  let* b := attr memory in
  modify (set_memory (Some (db_add b d))) ;;; emit (MemoryAdd d).

Definition memory_reset_dataloader : M unit :=
  let* b := attr memory in
  modify (set_memory (Some (db_reset_dataloader b))) ;;; emit ResetDataloader.

(** [learner.save_params(steps)] writes a checkpoint tagged by the step count. *)
Definition learner_save_params (steps : Z) : M unit := emit (SaveParams steps).

(** [set_wandb()] opens the metrics sink. *)
Definition set_wandb : M unit := emit SetWandb.

(** Modelled from the spec: [tqdm] is not among the sources; the spec calls
    it progress reporting.  [for x in tqdm(l)] opens a progress bar over the
    [len(l)] items before the first one is taken, advances it each time the
    body has finished an item, and closes it when the items are exhausted. *)
Definition tqdm_open (total : Z) : M unit := emit (ProgressOpen total).

Definition tqdm_advance : M unit := emit ProgressAdvance.

Definition tqdm_close : M unit := emit ProgressClose.

(** ** Methods of the base class [DQNAgent], which this class extends *)

Class BaseAgent := {
  DQNAgent__initialize : M unit;
  DQNAgent_select_action : ndarray -> M ndarray;
  DQNAgent_step : ndarray -> M (ndarray * pyfloat * bool * Info);
  DQNAgent_train : M unit;
  (* the shuffled batch the data loader hands out next *)
  batch_at : DistillationBuffer -> tensor * tensor
}.

Context {B : BaseAgent}.

Definition memory_sample_for_diltillation : M (tensor * tensor) :=
  let* b := attr memory in
  let '(batch, b') := db_sample batch_at b in
  modify (set_memory (Some b')) ;;; emit SampleBatch ;;; ret batch.

(** ** class DistillationDQN(DQNAgent) *)

(** [_initialize] *)
Definition _initialize : M unit :=
  let* self := get in
  py_assert (mode_sum (args self) =? 1) ;;;
  if student (args self) || test (args self) then
    modify (set_softmax_tau (Some (float_lit (1 # 100)))) ;;;
    modify (set_learner (build_learner (learner_cfg self))) ;;;
    modify (set_buffer_path (Some (hp_buffer_path (hyper_params self)))) ;;;
    when (negb (student (args self)))
      (modify (set_buffer_path (Some (PStr
         (("./data/distillation_buffer/" +:+ env_name (log_cfg self) +:+ "/")
          +:+ (agent (log_cfg self) +:+ "/" +:+ curr_time (log_cfg self) +:+ "/"))))) ;;;
       when (truthy (distillation_buffer_path (args self)))
         (modify (set_buffer_path (Some (PStr
            ("./" +:+ default ""%string (distillation_buffer_path (args self))))))) ;;;
       let* path := attr buffer_path in
       match path with
       | PStr p => fs_update (fun fs => os_makedirs fs p true)
       | PList _ => raise TypeError
       end) ;;;
    let* path := attr buffer_path in
    let* self' := get in
    modify (set_memory (Some (new_DistillationBuffer (fs self')
              (batch_size (hyper_params self)) path (curr_time (log_cfg self)))))
  else
    DQNAgent__initialize ;;;
    let* self' := get in
    let dir := ("./data/distillation_buffer/" +:+ env_info_name self')
               +:+ ("/" +:+ clock self' +:+ "/") in
    modify (set_save_distillation_dir (Some dir)) ;;;
    fs_update (fun fs => os_makedirs fs dir false) ;;;
    modify (set_save_count (Some 0)).

(** What [select_action] returns: the action alone in teacher mode, the
    action and the Q-vector otherwise. *)
Inductive selected :=
| Act (a : ndarray)
| ActQ (a : ndarray) (q_values : ndarray).

(** [select_action] *)
Definition select_action (state : ndarray) (is_test : bool) : M selected :=
  let* self := get in
  if teacher (args self) then
    if is_test then
      let* a := DQNAgent_select_action state in ret (Act a)
    else
      let* dir := attr save_distillation_dir in
      let ep_dir := dir +:+ (str_of_Z (i_episode self) +:+ "/") in
      when (negb (path_exists (fs self) ep_dir))
        (fs_update (fun fs => os_mkdir fs ep_dir)) ;;;
      let* n := attr save_count in
      let current_ep_dir :=
        dir +:+ (str_of_Z (i_episode self) +:+ "/" +:+ str_of_Z n +:+ ".pkl") +:+ "" in
      fs_update (fun fs => write_pickle fs current_ep_dir [Some state]) ;;;
      modify (set_save_count (Some (n + 1))) ;;;
      let* a := DQNAgent_select_action state in ret (Act a)
  else
    modify (set_curr_state state) ;;;
    let state' := _preprocess_state state in
    let q_values := dqn (learner self) state' in
    let* explore := (if negb (test (args self))
                     then let* r := call_np_random_random in
                          ret (float_gt (epsilon self) r)
                     else ret false) in
    let* selected_action := (if explore then call_action_space_sample
                             else ret (t_argmax_numpy q_values)) in
    ret (ActQ selected_action (t_squeeze_numpy q_values)).

(** [step] *)
Definition step (action : ndarray) (q_values : option ndarray)
  : M (ndarray * pyfloat * bool * Info) :=
  let* self := get in
  if test (args self) && negb (teacher (args self)) && negb (student (args self)) then
    let* r := call_env_step action in
    let* self' := get in
    let data := (curr_state self', q_values) in
    memory_add data ;;;
    ret r
  else
    DQNAgent_step action.

(** [_test]: the two [while] loops, one per branch.  [fuel] bounds the
    number of iterations of one episode. *)
Fixpoint test_episode_teacher (fuel : nat) (state : ndarray) (done : bool)
  (score : pyfloat) (step_n : Z) : M (pyfloat * Z) :=
  if negb done then
    match fuel with
    | O => diverge
    | S fuel' =>
        let* self := get in
        when (render (args self)) call_env_render ;;;
        let* sel := select_action state true in
        let* action := match sel with
                       | Act a => ret a
                       | ActQ _ _ => raise TypeError
                       end in
        let* '(next_state, reward, done', _) := step action None in
        test_episode_teacher fuel' next_state done' (float_add score reward) (step_n + 1)
    end
  else ret (score, step_n).

(** The guard [not done and self.memory.idx != self.hyper_params.buffer_size];
    [and] does not look at the buffer when the episode is done. *)
Definition collect_guard (done : bool) : M bool :=
  if negb done then
    let* self := get in
    let* b := attr memory in
    ret (negb (idx b =? buffer_size (hyper_params self)))
  else ret false.

Fixpoint test_episode_collect (fuel : nat) (state : ndarray) (done : bool)
  (score : pyfloat) (step_n : Z) : M (pyfloat * Z) :=
  let* go := collect_guard done in
  if go then
    match fuel with
    | O => diverge
    | S fuel' =>
        let* self := get in
        when (render (args self)) call_env_render ;;;
        let* sel := select_action state true in
        let* '(action, q_value) := match sel with
                                   | ActQ a q => ret (a, q)
                                   | Act _ => raise TypeError
                                   end in
        let* '(next_state, reward, done', _) := step action (Some q_value) in
        test_episode_collect fuel' next_state done' (float_add score reward) (step_n + 1)
    end
  else ret (score, step_n).

(** The body of [for i_episode in range(test_num)] in the teacher branch;
    the result says whether the loop was left by [break]. *)
Definition teacher_episode (fuel : nat) (i_episode : Z) : M bool :=
  let* state := call_env_reset in
  let* '(score, step_n) :=
    test_episode_teacher fuel state false (float_lit 0) 0 in
  emit (PrintTest i_episode step_n score) ;;;
  ret false.

(** The body of [for i_episode in range(test_num)] in the collection branch. *)
Definition collect_episode (fuel : nat) (i_episode : Z) : M bool :=
  let* state := call_env_reset in
  let* '(score, step_n) :=
    test_episode_collect fuel state false (float_lit 0) 0 in
  let* b := attr memory in
  emit (PrintCollect i_episode step_n score (idx b)) ;;;
  let* self := get in
  when (log (args self)) (emit (WandbTestScore score)) ;;;
  let* b' := attr memory in
  if idx b' =? buffer_size (hyper_params self) then
    let* path := attr buffer_path in
    emit (PrintSaved path) ;;;
    ret true
  else ret false.

Definition _test (fuel : nat) (interim_test : bool) : M unit :=
  let* self := get in
  let test_num := if interim_test then interim_test_num (args self)
                  else episode_num (args self) in
  if teacher (args self) then
    for_in (range test_num) (teacher_episode fuel)
  else
    for_in (range test_num) (collect_episode fuel).

(** The loss of [update_distillation] as a function of the network: the
    target is computed from the stored Q-values alone. *)
Definition distillation_loss (tau : pyfloat) (states q_values : tensor)
  (l : Learner) : tensor :=
  let pred_q := dqn l states in
  let target := F_softmax_dim1 (t_div q_values tau) in
  let log_softmax_pred_q := F_log_softmax_dim1 pred_q in
  F_kl_div_sum log_softmax_pred_q target.

(** [update_distillation] *)
Definition update_distillation : M (pyfloat * pyfloat) :=
  let* '(states, q_values) := memory_sample_for_diltillation in
  let states := to_device states in
  let q_values := to_device q_values in
  let states := if cuda_is_available then t_cuda states else states in
  let q_values := if cuda_is_available then t_cuda q_values else q_values in
  let* self := get in
  let pred_q := dqn (learner self) states in
  let* tau := attr softmax_tau in
  let loss := distillation_loss tau states q_values (learner self) in
  modify (fun s => set_learner (zero_grad (learner s)) s) ;;;
  emit OptimZeroGrad ;;;
  modify (fun s => set_learner
            (backward (distillation_loss tau states q_values) (learner s)) s) ;;;
  emit LossBackward ;;;
  modify (fun s => set_learner (optim_step (learner s)) s) ;;;
  emit OptimStep ;;;
  ret (t_item loss, t_item (t_mean pred_q)).

(** [a // b] and [a % b] on integers. *)
Definition py_floordiv (a b : Z) : M Z :=
  if b =? 0 then raise ZeroDivisionError else ret (a / b).

Definition py_mod (a b : Z) : M Z :=
  if b =? 0 then raise ZeroDivisionError else ret (a mod b).

(** The body of [for steps in range(train_steps)] in [train]; returns
    [n_epoch]. *)
Fixpoint train_loop (iter_1 : Z) (l : list Z) (n_epoch : Z) : M Z :=
  match l with
  | [] => ret n_epoch
  | steps :: l' =>
      let* loss := update_distillation in
      let* self := get in
      when (log (args self)) (emit (WandbLoss (fst loss) (snd loss))) ;;;
      let* r := py_mod steps iter_1 in
      if r =? 0 then
        emit (PrintTraining n_epoch steps (fst loss) (snd loss)) ;;;
        learner_save_params steps ;;;
        memory_reset_dataloader ;;;
        train_loop iter_1 l' (n_epoch + 1)
      else train_loop iter_1 l' n_epoch
  end.

(** [train] *)
Definition train : M unit :=
  let* self := get in
  if student (args self) then
    memory_reset_dataloader ;;;
    let* b := attr memory in
    py_assert (batch_size (hyper_params self) <=? db_buffer_size b) ;;;
    when (log (args self)) set_wandb ;;;
    let* b := attr memory in
    let* iter_1 := py_floordiv (db_buffer_size b) (batch_size (hyper_params self)) in
    let train_steps := iter_1 * epochs (hyper_params self) in
    emit (PrintTotal (epochs (hyper_params self)) train_steps) ;;;
    let* n_epoch := train_loop iter_1 (range train_steps) 0 in
    match last (range train_steps) with
    | Some steps => learner_save_params steps
    | None => raise UnboundLocalError
    end
  else if add_expert_q (args self) then
    modify (set_file_name_list []) ;;;
    for_in (iter_path (hp_buffer_path (hyper_params self))) (fun _dir =>
      let* sub_dirs := fs_query (fun fs => os_listdir fs _dir) in
      for_in sub_dirs (fun _subdir =>
        let current_dir := "./" +:+ _dir +:+ "/" +:+ _subdir +:+ "/" in
        let* tmp := fs_query (fun fs => os_listdir fs current_dir) in
        modify (fun s => set_file_name_list
                  (file_name_list s ++ map (fun x => (current_dir, x)) tmp) s) ;;;
        ret false) ;;;
      ret false) ;;;
    let* self' := get in
    tqdm_open (Z.of_nat (length (file_name_list self'))) ;;;
    for_in (file_name_list self') (fun _dir =>
      let* content := fs_query (fun fs => read_pickle fs (fst _dir +:+ snd _dir)) in
      let* state := match content with
                    | Some st :: _ => ret st
                    | None :: _ => raise TypeError
                    | [] => raise IndexError
                    end in
      let torch_state := to_device (from_numpy state) in
      let* s := get in
      let pred_q := t_squeeze_numpy (dqn (learner s) torch_state) in
      let* out_dir := attr save_distillation_dir in
      fs_update (fun fs => write_pickle fs (out_dir +:+ snd _dir)
                             [Some state; Some pred_q]) ;;;
      tqdm_advance ;;;
      ret false) ;;;
    tqdm_close
  else if teacher (args self) then
    DQNAgent_train
  else ret tt.

(** * The vocabulary of the properties

    Observations on outcomes and traces, and the predicates the theorems
    below are stated with. *)

Definition final_state {A} (o : outcome A) : option Agent :=
  match o with
  | Ret _ s => Some s
  | Raise _ s => Some s
  | Diverge => None
  end.

(** The exception a method ends with, if it raises. *)
Definition raised {A} (o : outcome A) : option exn :=
  match o with
  | Raise e _ => Some e
  | _ => None
  end.

(** The value a method returns, if it returns. *)
Definition result {A} (o : outcome A) : option A :=
  match o with
  | Ret a _ => Some a
  | _ => None
  end.

(** What can be seen of the state a method returns in. *)
Definition returned {A X} (f : Agent -> X) (o : outcome A) : option X :=
  match o with
  | Ret _ s => Some (f s)
  | _ => None
  end.

(** Exactly one of the four mode flags is set. *)
Definition exactly_one_mode (a : Args) : Prop :=
  length (List.filter (fun b : bool => b)
            [teacher a; student a; test a; add_expert_q a]) = 1%nat.

(** The pure collection pass: [test] set, [teacher] and [student] clear. *)
Definition pure_collection (a : Args) : bool :=
  test a && negb (teacher a) && negb (student a).

(** The Q-vector the network computes for a state, as [select_action]
    returns it. *)
Definition q_vector (l : Learner) (state : ndarray) : ndarray :=
  t_squeeze_numpy (dqn l (_preprocess_state state)).

(** The agent after one collection step. *)
Definition after_collect_step (action : ndarray) (q_values : option ndarray)
  (b : DistillationBuffer) (ag : Agent) : Agent :=
  set_trace ((trace ag ++ [EnvStep action]) ++ [MemoryAdd (curr_state ag, q_values)])
    (set_memory (Some (db_add b (curr_state ag, q_values)))
       (set_env (fst (env_step (env ag) action)) ag)).

(** What the collection pass never changes. *)
Definition same_config (ag ag' : Agent) : Prop :=
  args ag' = args ag /\ hyper_params ag' = hyper_params ag
  /\ learner ag' = learner ag /\ softmax_tau ag' = softmax_tau ag
  /\ buffer_path ag' = buffer_path ag.

(** The agent at the end of one iteration of the collection loop. *)
Definition after_iteration (state : ndarray) (b : DistillationBuffer) (ag : Agent)
  : Agent :=
  let ag1 := if render (args ag) then set_trace (trace ag ++ [EnvRender]) ag else ag in
  after_collect_step (t_argmax_numpy (dqn (learner ag) (_preprocess_state state)))
    (Some (q_vector (learner ag) state)) b (set_curr_state state ag1).

(** The Transition Samples appended, in order. *)
Definition added (evs : list event) : list sample :=
  omap (fun e => match e with MemoryAdd d => Some d | _ => None end) evs.

Definition is_env_step (e : event) : bool :=
  match e with EnvStep _ => true | _ => false end.

Definition is_env_reset (e : event) : bool :=
  match e with EnvReset => true | _ => false end.

(** The number of environment steps taken. *)
Definition env_steps (evs : list event) : nat :=
  length (List.filter is_env_step evs).

(** The number of episodes started. *)
Definition env_resets (evs : list event) : nat :=
  length (List.filter is_env_reset evs).

(** Reports of the collection loop: no interaction with the environment or
    the buffer. *)
Definition is_report (e : event) : bool :=
  match e with
  | PrintCollect _ _ _ _ | WandbTestScore _ | PrintSaved _ => true
  | _ => false
  end.

(** A trace of the collection loop that respects the capacity [cap], read
    from fill level [i]: the environment is only reset, rendered or stepped
    below capacity, and each step is followed by its one append. *)
Inductive disciplined (cap : Z) : Z -> list event -> Prop :=
| disc_nil i : disciplined cap i []
| disc_reset i r :
    i < cap -> disciplined cap i r -> disciplined cap i (EnvReset :: r)
| disc_render i r :
    i < cap -> disciplined cap i r -> disciplined cap i (EnvRender :: r)
| disc_step i a d r :
    i < cap -> disciplined cap (i + 1) r ->
    disciplined cap i (EnvStep a :: MemoryAdd d :: r)
| disc_report i e r :
    is_report e = true -> disciplined cap i r -> disciplined cap i (e :: r).

(** What a stretch of the collection pass has done, from [ag] with buffer [b]
    to [ag'] with buffer [b'], emitting [evs]. *)
Definition collected (ag ag' : Agent) (b b' : DistillationBuffer)
  (evs : list event) : Prop :=
  same_config ag ag'
  /\ memory ag' = Some b'
  /\ trace ag' = trace ag ++ evs
  /\ stored b' = stored b ++ added evs
  /\ idx b' = idx b + Z.of_nat (length (added evs))
  /\ Forall (fun d : sample => snd d = Some (q_vector (learner ag) (fst d)))
            (added evs).

(** The events of one iteration of the loop body. *)
Definition iteration_events (state : ndarray) (ag : Agent) : list event :=
  (if render (args ag) then [EnvRender] else [])
  ++ [EnvStep (t_argmax_numpy (dqn (learner ag) (_preprocess_state state)));
      MemoryAdd (state, Some (q_vector (learner ag) state))].

(** The trace of a whole run: empty, or a first reset followed by a
    disciplined trace. *)
Definition run_trace (cap i : Z) (evs : list event) : Prop :=
  evs = [] \/ exists evs', evs = EnvReset :: evs' /\ disciplined cap i evs'.

(** The number of episodes [_test] is configured to run. *)
Definition test_num (interim_test : bool) (a : Args) : Z :=
  if interim_test then interim_test_num a else episode_num a.

(** The base step leaves the buffer alone, as the spec asks of the base
    agent ("no buffer interaction"). *)
Definition base_step_keeps_buffer : Prop :=
  forall action s s',
    final_state (DQNAgent_step action s) = Some s' ->
    memory s' = memory s /\ exists evs, trace s' = trace s ++ evs /\ added evs = [].

(** A batch as the training step uses it: cast, moved to the device. *)
Definition on_device (x : tensor) : tensor :=
  let x := to_device x in
  if cuda_is_available then t_cuda x else x.

(** The network after one training step on the loss [L]. *)
Definition trained_once (L : Learner -> tensor) (l : Learner) : Learner :=
  optim_step (backward L (zero_grad l)).

(** The agent after one call of [update_distillation]. *)
Definition after_update (tau : pyfloat) (b : DistillationBuffer) (ag : Agent)
  : Agent :=
  let states := on_device (fst (batch_at b)) in
  let q_values := on_device (snd (batch_at b)) in
  set_trace (trace ag ++ [SampleBatch; OptimZeroGrad; LossBackward; OptimStep])
    (set_learner (trained_once (distillation_loss tau states q_values) (learner ag))
       (set_memory (Some (snd (db_sample batch_at b))) ag)).

(** The step counts at which a checkpoint was written, in order. *)
Definition saved_steps (evs : list event) : list Z :=
  omap (fun e => match e with SaveParams s => Some s | _ => None end) evs.

Definition is_reset_dataloader (e : event) : bool :=
  match e with ResetDataloader => true | _ => false end.

Definition is_optim_step (e : event) : bool :=
  match e with OptimStep => true | _ => false end.

(** How often the data loader was reset. *)
Definition dataloader_resets (evs : list event) : nat :=
  length (List.filter is_reset_dataloader evs).

(** How many optimiser updates were made. *)
Definition optimizer_steps (evs : list event) : nat :=
  length (List.filter is_optim_step evs).

(** An epoch boundary: a step index divisible by [iter_1]. *)
Definition boundary (iter_1 steps : Z) : bool := steps mod iter_1 =? 0.

(** What the training loop keeps: the configuration, the temperature and the
    size of the buffer; the buffer stays in place. *)
Definition training (tau : pyfloat) (size : Z) (ag ag' : Agent) : Prop :=
  args ag' = args ag /\ hyper_params ag' = hyper_params ag
  /\ softmax_tau ag' = Some tau
  /\ exists b', memory ag' = Some b' /\ db_buffer_size b' = size.

(** A method keeps the temperature when every state it can end in, by
    returning or by raising, has the temperature it started with. *)
Definition keeps_tau {A} (m : M A) : Prop :=
  forall s s', final_state (m s) = Some s' -> softmax_tau s' = softmax_tau s.

(** The methods of the base agent keep the temperature, an attribute they
    do not know of. *)
Definition base_keeps_tau : Prop :=
  (forall st, keeps_tau (DQNAgent_select_action st))
  /\ (forall a, keeps_tau (DQNAgent_step a))
  /\ keeps_tau DQNAgent_train.

(** The report printed after an episode of the collection pass. *)
Definition is_print_collect (e : event) : bool :=
  match e with PrintCollect _ _ _ _ => true | _ => false end.

(** A method respects the relation [R] when, from every state, it ends (by
    returning or by raising) in a state related to the one it started in. *)
Definition stable (R : Agent -> Agent -> Prop) {A} (m : M A) : Prop :=
  forall s, exists s', final_state (m s) = Some s' /\ R s s'.

(** The calls a student training run makes: on the data loader, the
    optimiser, the checkpoints and the reports. *)
Definition is_training_event (e : event) : bool :=
  match e with
  | ResetDataloader | SampleBatch | OptimZeroGrad | LossBackward | OptimStep
  | SaveParams _ | SetWandb | WandbLoss _ _ | PrintTotal _ _
  | PrintTraining _ _ _ _ => true
  | _ => false
  end.

(** What a student training run leaves alone: the files this class reads and
    writes itself, the environment, the random generator, the samples stored
    in the buffer, its fill level, the temperature and the buffer's path; and
    the calls it makes are training calls only (the checkpoints are written
    by the learner's [save_params], which is one of these calls). *)
Definition untouched_by_training (s s' : Agent) : Prop :=
  fs s' = fs s /\ env s' = env s /\ rng s' = rng s
  /\ option_map stored (memory s') = option_map stored (memory s)
  /\ option_map idx (memory s') = option_map idx (memory s)
  /\ softmax_tau s' = softmax_tau s /\ buffer_path s' = buffer_path s
  /\ exists evs, trace s' = trace s ++ evs
                 /\ Forall (fun e => is_training_event e = true) evs.

(** What the enumeration of the augmentation pass leaves alone. *)
Definition same_files (s s' : Agent) : Prop :=
  fs s' = fs s /\ trace s' = trace s /\ learner s' = learner s
  /\ save_distillation_dir s' = save_distillation_dir s.

(** The Q-vector the augmentation pass attaches to a dumped state: the
    network is applied to the state as dumped, moved to the device. *)
Definition expert_q (l : Learner) (state : ndarray) : ndarray :=
  t_squeeze_numpy (dqn l (to_device (from_numpy state))).

(** The calls on the progress bar. *)
Definition is_progress (e : event) : bool :=
  match e with
  | ProgressOpen _ | ProgressAdvance | ProgressClose => true
  | _ => false
  end.

(** What the whole augmentation pass leaves alone: the only calls it makes
    are on the progress bar, it keeps the network, the environment, the
    generator and the buffer, and neither creates nor removes a directory;
    whatever it changes in the file system is a record that pairs a state
    with the network's Q-vector for it. *)
Definition files_only (s s' : Agent) : Prop :=
  (exists evs, trace s' = trace s ++ evs
               /\ Forall (fun e => is_progress e = true) evs)
  /\ learner s' = learner s /\ env s' = env s
  /\ rng s' = rng s /\ memory s' = memory s
  /\ save_distillation_dir s' = save_distillation_dir s
  /\ (forall cs, fs s' !! cs = Some Dir <-> fs s !! cs = Some Dir)
  /\ (forall cs, fs s' !! cs = fs s !! cs
                 \/ exists state,
                      fs s' !! cs
                      = Some (File [Some state; Some (expert_q (learner s) state)])).

(** The directory one level below a source root, as [train] spells it. *)
Definition episode_dir (root subdir : string) : string :=
  "./" +:+ root +:+ "/" +:+ subdir +:+ "/".

(** The directory a collection pass stores its buffer in, as [_initialize]
    computes it: the one given on the command line, or else one named after
    the environment, the agent and the time of the run. *)
Definition collection_buffer_path (ag : Agent) : string :=
  if truthy (distillation_buffer_path (args ag))
  then "./" +:+ default ""%string (distillation_buffer_path (args ag))
  else ("./data/distillation_buffer/" +:+ env_name (log_cfg ag) +:+ "/")
       +:+ (agent (log_cfg ag) +:+ "/" +:+ curr_time (log_cfg ag) +:+ "/").

(** The directory a teacher run dumps its states in, as [_initialize]
    computes it, once the base agent is initialised. *)
Definition teacher_dump_dir (ag : Agent) : string :=
  ("./data/distillation_buffer/" +:+ env_info_name ag)
  +:+ ("/" +:+ clock ag +:+ "/").

(** No regular file sits at the path [p] or at one of its ancestors. *)
Definition no_file_on_path (fs : filesystem) (p : string) : bool :=
  forallb (fun q => match fs !! q with Some (File _) => false | _ => true end)
          (prefixes (components p)).

(** Every entry of [fs] is still there, unchanged, in [fs']. *)
Definition extends (fs fs' : filesystem) : Prop :=
  forall cs n, fs !! cs = Some n -> fs' !! cs = Some n.

(** The directory of the episode [i] under the dump directory [dir], and the
    file of the record numbered [n] in it, as [select_action] spells them. *)
Definition episode_path (dir : string) (i : Z) : string :=
  dir +:+ (str_of_Z i +:+ "/").

Definition record_path (dir : string) (i n : Z) : string :=
  dir +:+ (str_of_Z i +:+ "/" +:+ str_of_Z n +:+ ".pkl") +:+ "".

(** The file system after [select_action] has dumped [state] as the record
    [n] of the episode [i] under [dir]: the episode's directory is made if it
    is missing, then the record is written. *)
Definition with_record (fs : filesystem) (dir : string) (i n : Z)
  (state : ndarray) : filesystem :=
  let fs1 := match fs !! components (episode_path dir i) with
             | Some _ => fs
             | None => <[components (episode_path dir i) := Dir]> fs
             end in
  <[components (record_path dir i n) := File [Some state]]> fs1.

End WithTorch.

Arguments Ret {T C A} a s.

Arguments Raise {T C A} e s.

Arguments Diverge {T C A}.

(** * An instance over the real numbers

    Tensors of floating-point numbers are read as scalars, vectors and
    matrices of real numbers, and the functions of [torch.nn.functional] as
    the functions they compute in exact arithmetic. *)

Module RealTensors.

Open Scope R_scope.

Inductive rtensor :=
| Scalar (x : R)
| Vector (v : list R)
| Matrix (rows : list (list R)).

Definition sum_list (v : list R) : R := fold_right Rplus 0 v.

(** [softmax] of one row: [exp(x_j) / sum_k exp(x_k)]. *)
Definition softmax_row (v : list R) : list R :=
  map (fun x => exp x / sum_list (map exp v)) v.

(** [log_softmax] of one row, as torch computes it: [x_j - log(sum_k exp(x_k))]. *)
Definition log_softmax_row (v : list R) : list R :=
  map (fun x => x - ln (sum_list (map exp v))) v.

(** The pointwise term of [F.kl_div(input, target)]:
    [target * (log(target) - input)], which is 0 where the target is 0. *)
Definition kl_pointwise (input target : R) : R :=
  target * (ln target - input).

Definition kl_row (input target : list R) : R :=
  sum_list (zip_with kl_pointwise input target).

Definition div_scalar (t : rtensor) (c : R) : rtensor :=
  match t with
  | Scalar x => Scalar (x / c)
  | Vector v => Vector (map (fun x => x / c) v)
  | Matrix m => Matrix (map (map (fun x => x / c)) m)
  end.

(** [dim=1] is the dimension of the columns of a matrix. *)
Definition softmax_dim1 (t : rtensor) : rtensor :=
  match t with
  | Matrix m => Matrix (map softmax_row m)
  | _ => t
  end.

Definition log_softmax_dim1 (t : rtensor) : rtensor :=
  match t with
  | Matrix m => Matrix (map log_softmax_row m)
  | _ => t
  end.

(** [reduction="sum"]: the pointwise terms are added up over the batch. *)
Definition kl_div_sum (input target : rtensor) : rtensor :=
  match input, target with
  | Matrix i, Matrix t => Scalar (sum_list (zip_with kl_row i t))
  | Vector i, Vector t => Scalar (kl_row i t)
  | Scalar i, Scalar t => Scalar (kl_pointwise i t)
  | _, _ => Scalar 0
  end.

Definition flatten (t : rtensor) : list R :=
  match t with
  | Scalar x => [x]
  | Vector v => v
  | Matrix m => concat m
  end.

Definition mean (t : rtensor) : rtensor :=
  Scalar (sum_list (flatten t) / INR (length (flatten t))).

Definition item (t : rtensor) : R :=
  match flatten t with
  | [x] => x
  | _ => 0
  end.

(** The index of the first greatest element of a list. *)
Fixpoint argmax_from (best : R) (best_i i : nat) (v : list R) : nat :=
  match v with
  | [] => best_i
  | x :: v' => if Rlt_dec best x then argmax_from x i (S i) v'
               else argmax_from best best_i (S i) v'
  end.

Definition argmax (t : rtensor) : rtensor :=
  match flatten t with
  | [] => Scalar 0
  | x :: v => Scalar (INR (argmax_from x 0 1 v))
  end.

(** [squeeze] drops the dimensions of size one. *)
Definition squeeze (t : rtensor) : rtensor :=
  match t with
  | Matrix [[x]] => Scalar x
  | Matrix [v] => Vector v
  | Matrix m => if forallb (fun r => Nat.eqb (length r) 1) m
                then Vector (concat m) else t
  | Vector [x] => Scalar x
  | _ => t
  end.

#[export] Instance RealTorch : TorchAPI := {|
  ndarray := rtensor;
  tensor := rtensor;
  pyfloat := R;
  float_lit := Q2R;
  float_add := Rplus;
  float_gt := fun x y => if Rgt_dec x y then true else false;
  from_numpy := fun x => x;
  to_device := fun x => x;
  t_cuda := fun x => x;
  t_div := div_scalar;
  F_softmax_dim1 := softmax_dim1;
  F_log_softmax_dim1 := log_softmax_dim1;
  F_kl_div_sum := kl_div_sum;
  t_mean := mean;
  t_item := item;
  t_argmax_numpy := argmax;
  t_squeeze_numpy := squeeze
|}.

(** *** The loss in the spec's words *)

(** Every row of [q'] is the row of [q] with one constant added to all its
    entries. *)
Definition shifted (q q' : list (list R)) : Prop :=
  Forall2 (fun r r' => exists c, r' = map (fun x => x + c) r) q q'.





End RealTensors.

(** * A small executable instance

    Arrays, tensors and the network's parameters are integers and floats are
    rationals; the environment counts its steps and ends an episode on the
    third one.  The methods can be run on it. *)

Module Toy.

#[export] Instance ToyTorch : TorchAPI := {|
  ndarray := Z;
  tensor := Z;
  pyfloat := Q;
  float_lit := fun q => q;
  float_add := Qplus;
  float_gt := fun x y => negb (Qle_bool x y);
  from_numpy := fun x => x;
  to_device := fun x => x;
  t_cuda := fun x => x;
  t_div := fun x _ => x;
  F_softmax_dim1 := fun x => x;
  F_log_softmax_dim1 := fun x => x;
  F_kl_div_sum := fun x y => x - y;
  t_mean := fun x => x;
  t_item := fun x => inject_Z x;
  t_argmax_numpy := fun x => x;
  t_squeeze_numpy := fun x => x
|}.

#[export] Instance ToyWorld : Collaborators := {|
  Env := Z;
  Info := unit;
  Rng := unit;
  Learner := Z;
  LearnerCfg := unit;
  BaseState := unit;
  env_reset := fun _ => (0, 0);
  env_step := fun e _ => (e + 1, (e + 1, 1%Q, 3 <=? e + 1, tt));
  action_space_sample := fun e => (e, 0);
  np_random_random := fun g => (g, 0%Q);
  cuda_is_available := false;
  build_learner := fun _ => 0;
  dqn := fun l x => x + l;
  zero_grad := fun l => l;
  backward := fun _ l => l;
  optim_step := fun l => l + 1;
  _preprocess_state := fun s => s
|}.

(** A base agent whose step only steps the environment. *)
#[export] Instance ToyBase : BaseAgent := {|
  DQNAgent__initialize := ret tt;
  DQNAgent_select_action := fun st => ret st;
  DQNAgent_step := fun a => call_env_step a;
  DQNAgent_train := ret tt;
  batch_at := fun _ => (0, 0)
|}.

Definition toy_args (t s a c : bool) : Args :=
  {| teacher := t; student := s; add_expert_q := a; test := c;
     render := false; log := false; episode_num := 3; interim_test_num := 1;
     distillation_buffer_path := None |}.

Definition toy_hyper_params (p : pypath) (bs cap ep : Z) : HyperParams :=
  {| hp_buffer_path := p; batch_size := bs; buffer_size := cap; epochs := ep |}.

Definition toy_agent (a : Args) (hp : HyperParams)
  (mem : option DistillationBuffer) (tau : option Q)
  (bp : option pypath) (out_dir : option string)
  (files : gmap (list string) node) : Agent :=
  {| args := a; hyper_params := hp;
     log_cfg := {| env_name := "Pong"; agent := "DistillationDQN";
                   curr_time := "201231_235959" |};
     learner_cfg := tt; env_info_name := "Pong";
     i_episode := 0; epsilon := 0%Q; curr_state := 0; learner := 0;
     base_state := tt;
     softmax_tau := tau; buffer_path := bp; memory := mem;
     save_distillation_dir := out_dir; save_count := None; file_name_list := [];
     env := 0; rng := tt; fs := files; clock := "20201231235959"; trace := [] |}.

Definition toy_buffer (size bs : Z) : DistillationBuffer :=
  {| db_batch_size := bs; db_buffer_path := PStr "./buffer/";
     db_curr_time := "201231_235959"; idx := 0; stored := [];
     db_buffer_size := size; cursor := 0; passes := 0 |}.

(** A collection run: three episodes of three steps, a buffer of four. *)
Definition collector : Agent :=
  toy_agent (toy_args false false false true)
    (toy_hyper_params (PStr "./buffer/") 2 4 3) (Some (toy_buffer 0 2))
    (Some (1 # 100)%Q) (Some (PStr "./buffer/")) None ∅.

(** A student run: a buffer of four samples, batches of two, three epochs. *)
Definition trainee : Agent :=
  toy_agent (toy_args false true false false)
    (toy_hyper_params (PStr "./buffer/") 2 4 3) (Some (toy_buffer 4 2))
    (Some (1 # 100)%Q) (Some (PStr "./buffer/")) None ∅.

(** A student run configured with no epoch at all. *)
Definition trainee_no_epochs : Agent :=
  toy_agent (toy_args false true false false)
    (toy_hyper_params (PStr "./buffer/") 2 4 0) (Some (toy_buffer 4 2))
    (Some (1 # 100)%Q) (Some (PStr "./buffer/")) None ∅.

(** An agent configured with both [teacher] and [student]. *)
Definition two_modes : Agent :=
  toy_agent (toy_args true true false false)
    (toy_hyper_params (PStr "./buffer/") 2 4 3) None None None None ∅.

(** Raw state records dumped by two teacher runs; each run numbers its
    records from 0. *)
Definition raw_dumps : gmap (list string) node :=
  <[ ["runB"; "0"; "0.pkl"]%string := File [Some 20] ]>
  (<[ ["runB"; "0"]%string := Dir ]>
  (<[ ["runB"]%string := Dir ]>
  (<[ ["runA"; "0"; "0.pkl"]%string := File [Some 10] ]>
  (<[ ["runA"; "0"]%string := Dir ]>
  (<[ ["runA"]%string := Dir ]> ∅))))).

Definition augmenter : Agent :=
  toy_agent (toy_args false false true false)
    (toy_hyper_params (PList ["runA"; "runB"]%string) 2 4 3)
    None None None None raw_dumps.

(** The records of one teacher run: two episodes, numbered on. *)
Definition raw_dumps_one_run : gmap (list string) node :=
  <[ ["runA"; "1"; "1.pkl"]%string := File [Some 11] ]>
  (<[ ["runA"; "1"]%string := Dir ]>
  (<[ ["runA"; "0"; "0.pkl"]%string := File [Some 10] ]>
  (<[ ["runA"; "0"]%string := Dir ]>
  (<[ ["runA"]%string := Dir ]> ∅)))).

Definition augmenter_one_run : Agent :=
  toy_agent (toy_args false false true false)
    (toy_hyper_params (PList ["runA"]%string) 2 4 3)
    None None None None raw_dumps_one_run.

Definition output_dir : string :=
  "./data/distillation_buffer/Pong/20201231235959/".

(** A student whose buffer holds one sample, less than a batch of two. *)
Definition trainee_small_buffer : Agent :=
  toy_agent (toy_args false true false false)
    (toy_hyper_params (PStr "./buffer/") 2 4 3) (Some (toy_buffer 1 2))
    (Some (1 # 100)%Q) (Some (PStr "./buffer/")) None ∅.

(** A student configured with a batch size of zero. *)
Definition trainee_zero_batch : Agent :=
  toy_agent (toy_args false true false false)
    (toy_hyper_params (PStr "./buffer/") 0 4 3) (Some (toy_buffer 4 0))
    (Some (1 # 100)%Q) (Some (PStr "./buffer/")) None ∅.

(** A buffer already filled to the capacity of four. *)
Definition full_buffer : DistillationBuffer :=
  {| db_batch_size := 2; db_buffer_path := PStr "./buffer/";
     db_curr_time := "201231_235959"; idx := 4;
     stored := [(0, Some 0); (1, Some 1); (2, Some 2); (0, Some 0)];
     db_buffer_size := 0; cursor := 0; passes := 0 |}.

Definition collector_full : Agent :=
  toy_agent (toy_args false false false true)
    (toy_hyper_params (PStr "./buffer/") 2 4 3) (Some full_buffer)
    (Some (1 # 100)%Q) (Some (PStr "./buffer/")) None ∅.

(** Agents as they are before [_initialize]. *)
Definition new_collector : Agent :=
  toy_agent (toy_args false false false true)
    (toy_hyper_params (PStr "./buffer/") 2 4 3) None None None None ∅.

Definition new_teacher : Agent :=
  toy_agent (toy_args true false false false)
    (toy_hyper_params (PStr "./buffer/") 2 4 3) None None None None ∅.

(** A collected buffer of two samples on disk. *)
Definition buffer_on_disk : gmap (list string) node :=
  <[ ["buffer"; "1.pkl"]%string := File [Some 1; Some 1] ]>
  (<[ ["buffer"; "0.pkl"]%string := File [Some 0; Some 0] ]>
  (<[ ["buffer"]%string := Dir ]> ∅)).

Definition new_trainee : Agent :=
  toy_agent (toy_args false true false false)
    (toy_hyper_params (PStr "./buffer/") 2 4 3) None None None None
    buffer_on_disk.

(** A teacher in training, initialised, with its dump directory made. *)
Definition dump_base : string :=
  "./data/distillation_buffer/Pong/20201231235959".

Definition dump_made : gmap (list string) node :=
  <[ ["data"; "distillation_buffer"; "Pong"; "20201231235959"]%string := Dir ]>
  (<[ ["data"; "distillation_buffer"; "Pong"]%string := Dir ]>
  (<[ ["data"; "distillation_buffer"]%string := Dir ]>
  (<[ ["data"]%string := Dir ]> ∅))).

Definition dumping_teacher : Agent :=
  set_save_count (Some 0)
    (toy_agent (toy_args true false false false)
       (toy_hyper_params (PStr "./buffer/") 2 4 3) None None None
       (Some output_dir) dump_made).

(** An augmentation pass one of whose source roots is missing. *)
Definition augmenter_missing_root : Agent :=
  toy_agent (toy_args false false true false)
    (toy_hyper_params (PList ["runA"; "runC"]%string) 2 4 3)
    None None None (Some output_dir) raw_dumps.

End Toy.

(** * An instance of the collaborators over the real numbers *)

Module RealToy.

Import RealTensors.

Open Scope R_scope.

(** A student that predicts the row [0, 1] and a buffer whose batches hold
    the teacher row [0, 1]. *)
#[export] Instance RealWorld : @Collaborators RealTorch := {|
  Env := unit;
  Info := unit;
  Rng := unit;
  Learner := unit;
  LearnerCfg := unit;
  BaseState := unit;
  env_reset := fun e => (e, Scalar 0);
  env_step := fun e _ => (e, (Scalar 0, 0, true, tt));
  action_space_sample := fun e => (e, Scalar 0);
  np_random_random := fun g => (g, 0);
  cuda_is_available := false;
  build_learner := fun c => c;
  dqn := fun _ _ => Matrix [[0; 1]];
  zero_grad := fun l => l;
  backward := fun _ l => l;
  optim_step := fun l => l;
  _preprocess_state := fun s => s
|}.




End RealToy.

(** * An instance with the cast to [float32]

    [x.float()] rounds every number of a batch to the nearest [float32]
    number; the arithmetic after the cast is read, as above, as exact. *)

Module Float32.

Import RealTensors.

Open Scope R_scope.

(** [floor(log2 |x|)], for [x] other than 0. *)
Definition exponent (x : R) : Z := Int_part (ln (Rabs x) / ln 2).

(** The nearest integer, the even one of the two when they are equally
    near. *)
Definition round_half_even (y : R) : Z :=
  let f := Int_part y in
  let d := y - IZR f in
  if Rlt_dec d (1 / 2) then f
  else if Rlt_dec (1 / 2) d then (f + 1)%Z
  else if Z.even f then f else (f + 1)%Z.

(** The distance between the [float32] numbers around [x]: a significand of
    24 bits, an exponent of -126 at least. *)
Definition ulp_f32 (x : R) : R := powerRZ 2 (Z.max (exponent x) (-126) - 23).

(** The [float32] number nearest to [x] (round to nearest, ties to even), for
    magnitudes in the finite range of [float32]. *)
Definition round_f32 (x : R) : R :=
  if Req_dec_T x 0 then 0
  else IZR (round_half_even (x / ulp_f32 x)) * ulp_f32 x.

(** [t.float()] *)
Definition cast_f32 (t : rtensor) : rtensor :=
  match t with
  | Scalar x => Scalar (round_f32 x)
  | Vector v => Vector (map round_f32 v)
  | Matrix m => Matrix (map (map round_f32) m)
  end.

Definition Float32Torch : TorchAPI := {|
  ndarray := rtensor;
  tensor := rtensor;
  pyfloat := R;
  float_lit := Q2R;
  float_add := Rplus;
  float_gt := fun x y => if Rgt_dec x y then true else false;
  from_numpy := fun x => x;
  to_device := cast_f32;
  t_cuda := fun x => x;
  t_div := div_scalar;
  F_softmax_dim1 := softmax_dim1;
  F_log_softmax_dim1 := log_softmax_dim1;
  F_kl_div_sum := kl_div_sum;
  t_mean := mean;
  t_item := item;
  t_argmax_numpy := argmax;
  t_squeeze_numpy := squeeze
|}.

#[local] Existing Instance Float32Torch.

(** A student that predicts the same value for both actions. *)
Definition CastWorld : @Collaborators Float32Torch := {|
  Env := unit;
  Info := unit;
  Rng := unit;
  Learner := unit;
  LearnerCfg := unit;
  BaseState := unit;
  env_reset := fun e => (e, Scalar 0);
  env_step := fun e _ => (e, (Scalar 0, 0, true, tt));
  action_space_sample := fun e => (e, Scalar 0);
  np_random_random := fun g => (g, 0);
  cuda_is_available := false;
  build_learner := fun c => c;
  dqn := fun _ _ => Matrix [[0; 0]];
  zero_grad := fun l => l;
  backward := fun _ l => l;
  optim_step := fun l => l;
  _preprocess_state := fun s => s
|}.

#[local] Existing Instance CastWorld.

(** The teacher's Q-vectors stored in a buffer, one row per sample. *)
Definition stored_rows (b : DistillationBuffer) : list (list R) :=
  omap (fun d : sample => match snd d with
                          | Some (Vector v) => Some v
                          | _ => None
                          end) (stored b).

(** A data loader that hands out the whole buffer as one batch. *)
Definition CastBase : @BaseAgent Float32Torch CastWorld := {|
  DQNAgent__initialize := ret tt;
  DQNAgent_select_action := fun st => ret st;
  DQNAgent_step := fun a => call_env_step a;
  DQNAgent_train := ret tt;
  batch_at := fun b => (Scalar 0, Matrix (stored_rows b))
|}.

#[local] Existing Instance CastBase.

(** A buffer that stores the teacher's Q-vectors [rows]. *)
Definition cast_buffer (rows : list (list R)) : DistillationBuffer :=
  {| db_batch_size := 1; db_buffer_path := PStr "./buffer/";
     db_curr_time := "201231_235959"; idx := Z.of_nat (length rows);
     stored := map (fun r => (Scalar 0, Some (Vector r))) rows;
     db_buffer_size := Z.of_nat (length rows); cursor := 0; passes := 0 |}.

(** A student, initialised, over such a buffer. *)
Definition cast_trainee (rows : list (list R)) : Agent :=
  {| args := Toy.toy_args false true false false;
     hyper_params := Toy.toy_hyper_params (PStr "./buffer/") 1 1 1;
     log_cfg := {| env_name := "Pong"; agent := "DistillationDQN";
                   curr_time := "201231_235959" |};
     learner_cfg := tt; env_info_name := "Pong";
     i_episode := 0; epsilon := 0; curr_state := Scalar 0; learner := tt;
     base_state := tt;
     softmax_tau := Some (Q2R (1 # 100)); buffer_path := Some (PStr "./buffer/");
     memory := Some (cast_buffer rows);
     save_distillation_dir := None; save_count := None; file_name_list := [];
     env := tt; rng := tt; fs := ∅; clock := "20201231235959"; trace := [] |}.

End Float32.

(** * Properties *)

Section Properties.
Context {T : TorchAPI} {C : Collaborators} {B : BaseAgent}.

(** ** Mode selection *)

Lemma mode_sum_exactly_one (a : Args) :
  mode_sum a = 1 <-> exactly_one_mode a.
Proof.
  unfold mode_sum, exactly_one_mode.
  destruct (teacher a), (student a), (add_expert_q a), (test a);
    simpl; split; intros H; try reflexivity; try discriminate H; try lia.
Qed.

(** C4: whenever the four mode flags are not exactly-one-true, [_initialize]
    raises the assertion error at once and leaves the agent and the world
    (in particular the file system) exactly as they were; with both
    [teacher] and [student] set this is the case.  When exactly one flag is
    set the assertion does not fire. *)
Theorem initialize_requires_exactly_one_mode (ag : Agent) :
  (~ exactly_one_mode (args ag) -> _initialize ag = Raise AssertionError ag)
  /\ (teacher (args ag) = true -> student (args ag) = true ->
      _initialize ag = Raise AssertionError ag
      /\ option_map fs (final_state (_initialize ag)) = Some (fs ag))
  /\ (exactly_one_mode (args ag) ->
      student (args ag) || test (args ag) = true ->
      forall s, _initialize ag <> Raise AssertionError s).
Proof.
  assert (Hfail : ~ exactly_one_mode (args ag) ->
                  _initialize ag = Raise AssertionError ag).
  { intros Hn. rewrite <- mode_sum_exactly_one in Hn.
    unfold _initialize, bind, get, py_assert.
    destruct (Z.eqb_spec (mode_sum (args ag)) 1) as [E|E]; [contradiction|].
    reflexivity. }
  split; [exact Hfail|]. split.
  - intros Ht Hs.
    assert (Hn : ~ exactly_one_mode (args ag)).
    { unfold exactly_one_mode. rewrite Ht, Hs. simpl.
      destruct (test (args ag)), (add_expert_q (args ag)); simpl; lia. }
    rewrite (Hfail Hn). split; reflexivity.
  - intros Hone Hst s.
    apply mode_sum_exactly_one in Hone.
    unfold _initialize, bind, get, py_assert.
    rewrite (proj2 (Z.eqb_eq _ _) Hone). unfold ret at 1.
    rewrite Hst.
    unfold modify, when, attr, bind, get, ret, raise, fs_update; simpl.
    destruct (student (args ag)); simpl.
    + discriminate.
    + destruct (truthy (distillation_buffer_path (args ag))); simpl;
        unfold modify, when, attr, bind, get, ret, raise, fs_update; simpl;
        match goal with |- context [os_makedirs ?f ?p ?b] =>
          unfold os_makedirs; destruct (path_exists f p) end;
        repeat match goal with
               | |- context [if ?c then _ else _] => destruct c; simpl
               end; discriminate.
Qed.

(** ** One interaction of the collection pass *)

Ltac run :=
  unfold memory_add, memory_reset_dataloader, memory_sample_for_diltillation,
    call_env_step, call_env_reset, call_env_render, call_action_space_sample,
    call_np_random_random, learner_save_params, set_wandb, emit, fs_update,
    fs_query, attr, py_assert, when, modify, get, raise, ret, bind; simpl.

Lemma step_collect (action : ndarray) (q_values : option ndarray)
  (b : DistillationBuffer) (ag : Agent) :
  pure_collection (args ag) = true ->
  memory ag = Some b ->
  step action q_values ag
  = Ret (snd (env_step (env ag) action)) (after_collect_step action q_values b ag).
Proof.
  intros Hm Hb. unfold step, after_collect_step, pure_collection in *.
  run. rewrite Hm.
  destruct (env_step (env ag) action) as [e r] eqn:E. run.
  rewrite Hb. reflexivity.
Qed.

Lemma step_delegates (action : ndarray) (q_values : option ndarray) (ag : Agent) :
  pure_collection (args ag) = false ->
  step action q_values ag = DQNAgent_step action ag.
Proof.
  intros Hm. unfold step, pure_collection in *. run. rewrite Hm. reflexivity.
Qed.

Lemma select_action_collect (state : ndarray) (is_test : bool) (ag : Agent) :
  teacher (args ag) = false ->
  test (args ag) = true ->
  select_action state is_test ag
  = Ret (ActQ (t_argmax_numpy (dqn (learner ag) (_preprocess_state state)))
              (q_vector (learner ag) state))
        (set_curr_state state ag).
Proof.
  intros Ht Hs. unfold select_action. run. rewrite Ht, Hs. reflexivity.
Qed.

(** ** The collection loop *)

Lemma same_config_trans a b c :
  same_config a b -> same_config b c -> same_config a c.
Proof.
  unfold same_config. intros (?&?&?&?&?) (?&?&?&?&?).
  repeat split; congruence.
Qed.

Lemma collect_guard_eval (done : bool) (b : DistillationBuffer) (ag : Agent) :
  memory ag = Some b ->
  collect_guard done ag
  = Ret (negb done && negb (idx b =? buffer_size (hyper_params ag))) ag.
Proof.
  intros Hb. unfold collect_guard. destruct done; simpl; [reflexivity|].
  run. rewrite Hb. reflexivity.
Qed.

Lemma test_episode_collect_stop fuel state done score n b ag :
  memory ag = Some b ->
  negb done && negb (idx b =? buffer_size (hyper_params ag)) = false ->
  test_episode_collect fuel state done score n ag = Ret (score, n) ag.
Proof.
  intros Hb Hg.
  destruct fuel; simpl; unfold bind at 1;
    rewrite (collect_guard_eval _ _ _ Hb), Hg; reflexivity.
Qed.

Lemma test_episode_collect_go fuel state score n b ag :
  pure_collection (args ag) = true ->
  memory ag = Some b ->
  idx b <> buffer_size (hyper_params ag) ->
  test_episode_collect (S fuel) state false score n ag
  = let a := t_argmax_numpy (dqn (learner ag) (_preprocess_state state)) in
    let '(next_state, reward, done', _) := snd (env_step (env ag) a) in
    test_episode_collect fuel next_state done' (float_add score reward) (n + 1)
      (after_iteration state b ag).
Proof.
  intros Hm Hb Hi.
  assert (Ht : teacher (args ag) = false /\ test (args ag) = true).
  { unfold pure_collection in Hm.
    destruct (test (args ag)), (teacher (args ag)); simpl in Hm;
      try discriminate; auto. }
  destruct Ht as [Ht Hs].
  cbn [test_episode_collect]. unfold bind at 1.
  rewrite (collect_guard_eval _ _ _ Hb). simpl negb.
  destruct (Z.eqb_spec (idx b) (buffer_size (hyper_params ag))) as [E|E];
    [contradiction|]. simpl.
  unfold after_iteration.
  set (ag1 := if render (args ag) then set_trace (trace ag ++ [EnvRender]) ag else ag).
  assert (H1 : args ag1 = args ag /\ learner ag1 = learner ag
               /\ memory ag1 = memory ag /\ env ag1 = env ag).
  { unfold ag1. destruct (render (args ag)); simpl; auto. }
  destruct H1 as (Ha1 & Hl1 & Hm1 & He1).
  unfold bind at 1, get at 1.
  assert (Hw : when (render (args ag)) call_env_render ag = Ret tt ag1).
  { unfold ag1. destruct (render (args ag)); reflexivity. }
  unfold bind at 1. rewrite Hw.
  unfold bind at 1.
  rewrite (select_action_collect state true ag1) by (rewrite Ha1; assumption).
  unfold bind at 1, ret at 1.
  unfold bind at 1.
  rewrite (step_collect _ _ b (set_curr_state state ag1))
    by (simpl; rewrite ?Ha1, ?Hm1; assumption).
  change (env (set_curr_state state ag1)) with (env ag1).
  rewrite He1, Hl1.
  destruct (env_step (env ag) _) as [e [[[ns rw] dn] inf]]. simpl.
  reflexivity.
Qed.

(** *** What a trace says *)

Lemma added_app (e1 e2 : list event) : added (e1 ++ e2) = added e1 ++ added e2.
Proof. unfold added. apply omap_app. Qed.

Lemma env_steps_app (e1 e2 : list event) :
  env_steps (e1 ++ e2) = (env_steps e1 + env_steps e2)%nat.
Proof. unfold env_steps. rewrite List.filter_app, length_app. reflexivity. Qed.

Lemma env_resets_app (e1 e2 : list event) :
  env_resets (e1 ++ e2) = (env_resets e1 + env_resets e2)%nat.
Proof. unfold env_resets. rewrite List.filter_app, length_app. reflexivity. Qed.

Lemma disciplined_level cap i j evs :
  disciplined cap i evs -> i = j -> disciplined cap j evs.
Proof. intros H <-. exact H. Qed.

Lemma added_cons_report e r : is_report e = true -> added (e :: r) = added r.
Proof. destruct e; simpl; intros H; try discriminate; reflexivity. Qed.

Lemma disciplined_app cap i e1 e2 :
  disciplined cap i e1 ->
  disciplined cap (i + Z.of_nat (length (added e1))) e2 ->
  disciplined cap i (e1 ++ e2).
Proof.
  induction 1 as [i|i r Hi Hr IH|i r Hi Hr IH|i a d r Hi Hr IH|i e r He Hr IH];
    intros H2.
  - simpl. eapply disciplined_level; [exact H2|simpl; lia].
  - simpl. apply disc_reset; auto.
  - simpl. apply disc_render; auto.
  - simpl. apply disc_step; auto. apply IH.
    eapply disciplined_level; [exact H2|].
    change (added (EnvStep a :: MemoryAdd d :: r)) with (d :: added r).
    simpl length. lia.
  - simpl. apply disc_report; auto. apply IH.
    rewrite (added_cons_report e r He) in H2. exact H2.
Qed.

Lemma disciplined_steps cap i evs :
  disciplined cap i evs -> env_steps evs = length (added evs).
Proof.
  induction 1 as [i|i r Hi Hr IH|i r Hi Hr IH|i a d r Hi Hr IH|i e r He Hr IH];
    simpl; auto.
  - unfold env_steps in *. simpl. rewrite IH. reflexivity.
  - destruct e; simpl in *; try discriminate; exact IH.
Qed.

Lemma disciplined_full_quiet cap i evs :
  disciplined cap i evs -> cap <= i -> Forall (fun e => is_report e = true) evs.
Proof.
  induction 1; intros Hle; try lia; constructor; auto.
Qed.

Lemma disciplined_after_fill cap i pre d post :
  disciplined cap i (pre ++ MemoryAdd d :: post) ->
  i + Z.of_nat (length (added pre)) + 1 = cap ->
  Forall (fun e => is_report e = true) post.
Proof.
  intros H. remember (pre ++ MemoryAdd d :: post) as evs eqn:E.
  revert pre E.
  induction H as [i|i r Hi Hr IH|i r Hi Hr IH|i a d0 r Hi Hr IH|i e r He Hr IH];
    intros pre E Hfull.
  - destruct pre; discriminate.
  - destruct pre as [|x pre]; simpl in E; [discriminate|].
    injection E as E1 E2. subst x r. simpl in Hfull. eauto.
  - destruct pre as [|x pre]; simpl in E; [discriminate|].
    injection E as E1 E2. subst x r. simpl in Hfull. eauto.
  - destruct pre as [|x pre]; simpl in E; [discriminate|].
    injection E as E1 E2. subst x.
    destruct pre as [|y pre]; simpl in E2.
    + injection E2 as E3 E4. subst d0 r. simpl in Hfull.
      eapply disciplined_full_quiet; [exact Hr|lia].
    + injection E2 as E3 E4. subst y r.
      apply (IH pre eq_refl).
      change (added (EnvStep a :: MemoryAdd d0 :: pre)) with (d0 :: added pre)
        in Hfull.
      simpl length in Hfull. lia.
  - destruct pre as [|x pre]; simpl in E.
    + injection E as E1 E2. subst e. discriminate.
    + injection E as E1 E2. subst x r.
      apply (IH pre eq_refl).
      rewrite (added_cons_report e pre He) in Hfull. exact Hfull.
Qed.

Lemma disciplined_step_below cap i pre a post :
  disciplined cap i (pre ++ EnvStep a :: post) ->
  i + Z.of_nat (length (added pre)) < cap.
Proof.
  intros H. remember (pre ++ EnvStep a :: post) as evs eqn:E.
  revert pre E.
  induction H as [i|i r Hi Hr IH|i r Hi Hr IH|i a0 d0 r Hi Hr IH|i e r He Hr IH];
    intros pre E.
  - destruct pre; discriminate.
  - destruct pre as [|x pre]; simpl in E; [discriminate|].
    injection E as E1 E2. subst x r. simpl. eauto.
  - destruct pre as [|x pre]; simpl in E; [discriminate|].
    injection E as E1 E2. subst x r. simpl. eauto.
  - destruct pre as [|x pre]; simpl in E.
    + simpl. lia.
    + injection E as E1 E2. subst x.
      destruct pre as [|y pre]; simpl in E2; [discriminate|].
      injection E2 as E3 E4. subst y r.
      change (added (EnvStep a0 :: MemoryAdd d0 :: pre)) with (d0 :: added pre).
      simpl length. specialize (IH pre eq_refl). lia.
  - destruct pre as [|x pre]; simpl in E.
    + injection E as E1 E2. subst e. discriminate.
    + injection E as E1 E2. subst x r. specialize (IH pre eq_refl).
      rewrite (added_cons_report e pre He). exact IH.
Qed.

(** *** One episode of the collection pass *)

Lemma collected_refl ag b : memory ag = Some b -> collected ag ag b b [].
Proof.
  intros Hb. unfold collected. simpl.
  rewrite !app_nil_r. repeat split; auto. lia.
Qed.

Lemma collected_trans ag1 ag2 ag3 b1 b2 b3 e1 e2 :
  collected ag1 ag2 b1 b2 e1 -> collected ag2 ag3 b2 b3 e2 ->
  collected ag1 ag3 b1 b3 (e1 ++ e2).
Proof.
  intros (Hc1 & Hm1 & Ht1 & Hs1 & Hi1 & Hq1) (Hc2 & Hm2 & Ht2 & Hs2 & Hi2 & Hq2).
  unfold collected. rewrite added_app, length_app.
  split; [eapply same_config_trans; eauto|].
  split; [assumption|].
  split; [rewrite Ht2, Ht1, app_assoc; reflexivity|].
  split; [rewrite Hs2, Hs1, app_assoc; reflexivity|].
  split; [lia|].
  apply Forall_app. split; [assumption|].
  destruct Hc1 as (_ & _ & Hl & _). rewrite <- Hl. exact Hq2.
Qed.

Lemma after_iteration_collected state b ag :
  memory ag = Some b ->
  collected ag (after_iteration state b ag) b
    (db_add b (state, Some (q_vector (learner ag) state)))
    (iteration_events state ag).
Proof.
  intros Hb. unfold collected, after_iteration, after_collect_step, iteration_events.
  destruct (render (args ag)); simpl;
    (split; [repeat split|]); (split; [reflexivity|]);
    (split; [rewrite <- ?app_assoc; reflexivity|]);
    (split; [reflexivity|]); (split; [lia|]);
    repeat constructor.
Qed.

Lemma iteration_events_disciplined cap i state ag r :
  i < cap -> disciplined cap (i + 1) r ->
  disciplined cap i (iteration_events state ag ++ r).
Proof.
  intros Hi Hr. unfold iteration_events.
  destruct (render (args ag)); simpl.
  - apply disc_render; [assumption|]. apply disc_step; assumption.
  - apply disc_step; assumption.
Qed.

Lemma after_iteration_args state b ag :
  args (after_iteration state b ag) = args ag
  /\ hyper_params (after_iteration state b ag) = hyper_params ag.
Proof.
  unfold after_iteration, after_collect_step.
  destruct (render (args ag)); simpl; auto.
Qed.

(** One episode of the collection pass returns as soon as its fuel exceeds
    the room left in the buffer, and respects the capacity. *)
Lemma test_episode_collect_spec (fuel : nat) :
  forall state done score n ag b,
    pure_collection (args ag) = true ->
    memory ag = Some b ->
    idx b <= buffer_size (hyper_params ag) ->
    (Z.to_nat (buffer_size (hyper_params ag) - idx b) < fuel)%nat ->
    exists r ag' b' evs,
      test_episode_collect fuel state done score n ag = Ret r ag'
      /\ collected ag ag' b b' evs
      /\ idx b' <= buffer_size (hyper_params ag)
      /\ disciplined (buffer_size (hyper_params ag)) (idx b) evs
      /\ env_resets evs = 0%nat.
Proof.
  induction fuel as [|fuel IH]; intros state done score n ag b Hm Hb Hle Hfuel.
  - lia.
  - destruct (negb done && negb (idx b =? buffer_size (hyper_params ag))) eqn:Hg.
    + apply andb_true_iff in Hg. destruct Hg as [Hd Hi].
      apply negb_true_iff in Hd. subst done.
      apply negb_true_iff in Hi. apply Z.eqb_neq in Hi.
      rewrite (test_episode_collect_go fuel state score n b ag Hm Hb Hi).
      cbv zeta.
      destruct (snd (env_step (env ag) _)) as [[[ns rw] dn] inf].
      pose proof (after_iteration_collected state b ag Hb) as Hc.
      pose proof (after_iteration_args state b ag) as [Ha Hh].
      set (ag1 := after_iteration state b ag) in *.
      set (b1 := db_add b (state, Some (q_vector (learner ag) state))) in *.
      assert (Hb1 : memory ag1 = Some b1) by (apply Hc).
      assert (Hi1 : idx b1 = idx b + 1) by reflexivity.
      destruct (IH ns dn (float_add score rw) (n + 1) ag1 b1)
        as (r & ag' & b' & evs & Hrun & Hc' & Hle' & Hdisc & Hres).
      * rewrite Ha. exact Hm.
      * exact Hb1.
      * rewrite Hh, Hi1. lia.
      * rewrite Hh, Hi1. lia.
      * exists r, ag', b', (iteration_events state ag ++ evs).
        split; [exact Hrun|].
        split; [eapply collected_trans; eauto|].
        split; [rewrite <- Hh; exact Hle'|].
        split.
        -- apply iteration_events_disciplined; [lia|].
           rewrite Hh, Hi1 in Hdisc. exact Hdisc.
        -- rewrite env_resets_app, Hres. unfold iteration_events.
           destruct (render (args ag)); reflexivity.
    + exists (score, n), ag, b, [].
      split; [apply (test_episode_collect_stop _ _ _ _ _ b); assumption|].
      split; [apply collected_refl; assumption|].
      split; [assumption|].
      split; [constructor|reflexivity].
Qed.

(** *** The whole collection run *)

Lemma added_cons_reset (l : list event) : added (EnvReset :: l) = added l.
Proof. reflexivity. Qed.

Lemma added_reports (l : list event) :
  Forall (fun e => is_report e = true) l -> added l = [].
Proof.
  induction 1 as [|x l Hx Hl IH]; [reflexivity|].
  rewrite (added_cons_report x l Hx). exact IH.
Qed.

Lemma env_resets_reports (l : list event) :
  Forall (fun e => is_report e = true) l -> env_resets l = 0%nat.
Proof.
  induction 1 as [|x l Hx Hl IH]; [reflexivity|].
  unfold env_resets in *. destruct x; simpl in *; try discriminate; exact IH.
Qed.

Lemma disciplined_reports cap i (l : list event) :
  Forall (fun e => is_report e = true) l -> disciplined cap i l.
Proof.
  induction 1 as [|x l Hx Hl IH]; [constructor|].
  apply disc_report; assumption.
Qed.

Lemma collect_episode_spec (fuel : nat) (i_episode : Z) ag b path :
  pure_collection (args ag) = true ->
  memory ag = Some b ->
  buffer_path ag = Some path ->
  idx b <= buffer_size (hyper_params ag) ->
  (Z.to_nat (buffer_size (hyper_params ag) - idx b) < fuel)%nat ->
  exists ag' b' evs,
    collect_episode fuel i_episode ag
    = Ret (idx b' =? buffer_size (hyper_params ag)) ag'
    /\ collected ag ag' b b' (EnvReset :: evs)
    /\ idx b' <= buffer_size (hyper_params ag)
    /\ disciplined (buffer_size (hyper_params ag)) (idx b) evs
    /\ env_resets evs = 0%nat.
Proof.
  intros Hm Hb Hpath Hle Hfuel.
  unfold collect_episode.
  set (ag0 := set_trace (trace ag ++ [EnvReset])
                (set_env (fst (env_reset (env ag))) ag)).
  assert (Hreset : call_env_reset ag = Ret (snd (env_reset (env ag))) ag0).
  { unfold call_env_reset, ag0. run.
    destruct (env_reset (env ag)) as [e st]. reflexivity. }
  unfold bind at 1. rewrite Hreset.
  assert (Hc0 : collected ag ag0 b b [EnvReset]).
  { unfold collected, ag0. simpl. rewrite app_nil_r.
    repeat split; auto. lia. }
  destruct (test_episode_collect_spec fuel (snd (env_reset (env ag))) false
              (float_lit 0) 0 ag0 b)
    as ([score n] & ag1 & b1 & evs & Hrun & Hc1 & Hle1 & Hdisc & Hres);
    try assumption.
  unfold bind at 1. rewrite Hrun.
  destruct Hc1 as (Hcfg & Hm1 & Ht1 & Hs1 & Hi1 & Hq1).
  assert (Hh : hyper_params ag1 = hyper_params ag) by (apply Hcfg).
  run. rewrite Hm1. simpl. rewrite ?Hm1.
  set (rep := PrintCollect i_episode n score (idx b1)).
  set (wb := if log (args ag1) then [WandbTestScore score] else @nil event).
  set (ag2 := if log (args ag1)
              then set_trace ((trace ag1 ++ [rep]) ++ [WandbTestScore score]) ag1
              else set_trace (trace ag1 ++ [rep]) ag1).
  assert (Hag2 : same_config ag1 ag2 /\ trace ag2 = trace ag1 ++ rep :: wb).
  { unfold ag2, wb. destruct (log (args ag1)); simpl;
      (split; [repeat split|rewrite <- ?app_assoc; reflexivity]). }
  destruct Hag2 as [Hcfg2 Ht2].
  assert (Hwb : Forall (fun e => is_report e = true) (rep :: wb)).
  { constructor; [reflexivity|].
    unfold wb. destruct (log (args ag1)); repeat constructor. }
  assert (Hrep : forall tail,
             Forall (fun e => is_report e = true) tail ->
             disciplined (buffer_size (hyper_params ag)) (idx b)
               (evs ++ rep :: wb ++ tail)).
  { intros tail Htail. apply disciplined_app; [exact Hdisc|].
    apply disciplined_reports.
    change (rep :: wb ++ tail) with ((rep :: wb) ++ tail).
    apply Forall_app. split; assumption. }
  assert (Hadd : forall tail,
             Forall (fun e => is_report e = true) tail ->
             added (evs ++ rep :: wb ++ tail) = added evs).
  { intros tail Htail. rewrite added_app.
    rewrite (added_reports (rep :: wb ++ tail)), app_nil_r; [reflexivity|].
    change (rep :: wb ++ tail) with ((rep :: wb) ++ tail).
    apply Forall_app. split; assumption. }
  assert (Hnores : forall tail,
             Forall (fun e => is_report e = true) tail ->
             env_resets (evs ++ rep :: wb ++ tail) = 0%nat).
  { intros tail Htail. rewrite env_resets_app, Hres. simpl.
    apply env_resets_reports.
    change (rep :: wb ++ tail) with ((rep :: wb) ++ tail).
    apply Forall_app. split; assumption. }
  rewrite Hh.
  destruct (idx b1 =? buffer_size (hyper_params ag)) eqn:Efull.
  - exists (set_trace (trace ag2 ++ [PrintSaved path]) ag2),
           b1, (evs ++ rep :: wb ++ [PrintSaved path]).
    assert (Htail : Forall (fun e => is_report e = true) [PrintSaved path])
      by (repeat constructor).
    assert (Hp1 : buffer_path ag1 = Some path).
    { destruct Hcfg as (_ & _ & _ & _ & Hp). rewrite Hp. exact Hpath. }
    split.
    { unfold ag2. destruct (log (args ag1)); simpl; rewrite ?Hm1; simpl;
        rewrite ?Hh, ?Efull; simpl; rewrite ?Hp1; reflexivity. }
    split.
    { unfold collected. rewrite added_cons_reset, (Hadd _ Htail).
      destruct Hc0 as (Hcfg0 & Hm0 & Ht0 & _).
      split.
      { eapply same_config_trans; [exact Hcfg0|].
        eapply same_config_trans; [exact Hcfg|].
        eapply same_config_trans; [exact Hcfg2|]. repeat split. }
      split; [unfold ag2; destruct (log (args ag1)); exact Hm1|].
      split.
      { simpl. rewrite Ht2, Ht1, Ht0.
        rewrite <- !app_assoc. simpl. rewrite ?app_nil_r. reflexivity. }
      split; [exact Hs1|]. split; [exact Hi1|].
      destruct Hcfg0 as (_ & _ & Hl0 & _). rewrite <- Hl0. exact Hq1. }
    split; [exact Hle1|].
    split; [apply Hrep; exact Htail|apply Hnores; exact Htail].
  - exists ag2, b1, (evs ++ rep :: wb ++ []).
    assert (Htail : Forall (fun e => is_report e = true) (@nil event))
      by constructor.
    split.
    { unfold ag2. destruct (log (args ag1)); simpl; rewrite ?Hm1; simpl;
        rewrite ?Hh, ?Efull; reflexivity. }
    split.
    { unfold collected. rewrite added_cons_reset, (Hadd _ Htail).
      destruct Hc0 as (Hcfg0 & Hm0 & Ht0 & _).
      split.
      { eapply same_config_trans; [exact Hcfg0|].
        eapply same_config_trans; [exact Hcfg|].
        eapply same_config_trans; [exact Hcfg2|]. repeat split. }
      split; [unfold ag2; destruct (log (args ag1)); exact Hm1|].
      split.
      { simpl. rewrite Ht2, Ht1, Ht0.
        rewrite <- !app_assoc. simpl. rewrite ?app_nil_r. reflexivity. }
      split; [exact Hs1|]. split; [exact Hi1|].
      destruct Hcfg0 as (_ & _ & Hl0 & _). rewrite <- Hl0. exact Hq1. }
    split; [exact Hle1|].
    split; [apply Hrep; exact Htail|apply Hnores; exact Htail].
Qed.

Lemma run_trace_disciplined cap i evs :
  i < cap -> run_trace cap i evs -> disciplined cap i evs.
Proof.
  intros Hi [->|(evs' & -> & H)]; [constructor|].
  apply disc_reset; assumption.
Qed.

Lemma same_config_pure ag ag' :
  same_config ag ag' ->
  pure_collection (args ag') = pure_collection (args ag)
  /\ hyper_params ag' = hyper_params ag.
Proof. intros (Ha & Hh & _). rewrite Ha. auto. Qed.

Lemma collect_run_spec (fuel : nat) (l : list Z) (path : pypath) :
  forall ag b,
    pure_collection (args ag) = true ->
    memory ag = Some b ->
    buffer_path ag = Some path ->
    idx b <= buffer_size (hyper_params ag) ->
    (Z.to_nat (buffer_size (hyper_params ag) - idx b) < fuel)%nat ->
    exists ag' b' evs,
      for_in l (collect_episode fuel) ag = Ret tt ag'
      /\ collected ag ag' b b' evs
      /\ idx b' <= buffer_size (hyper_params ag)
      /\ run_trace (buffer_size (hyper_params ag)) (idx b) evs
      /\ (idx b' = buffer_size (hyper_params ag) \/ env_resets evs = length l).
Proof.
  induction l as [|i l IH]; intros ag b Hm Hb Hpath Hle Hfuel.
  - exists ag, b, []. split; [reflexivity|].
    split; [apply collected_refl; assumption|].
    split; [assumption|]. split; [left; reflexivity|right; reflexivity].
  - destruct (collect_episode_spec fuel i ag b path Hm Hb Hpath Hle Hfuel)
      as (ag1 & b1 & evs1 & Hrun & Hc1 & Hle1 & Hd1 & Hr1).
    cbn [for_in]. unfold bind at 1. rewrite Hrun.
    assert (Hi1 : idx b1 = idx b + Z.of_nat (length (added evs1))).
    { destruct Hc1 as (_ & _ & _ & _ & Hi & _).
      rewrite added_cons_reset in Hi. exact Hi. }
    destruct (Z.eqb_spec (idx b1) (buffer_size (hyper_params ag))) as [E|E].
    + exists ag1, b1, (EnvReset :: evs1).
      split; [reflexivity|]. split; [assumption|]. split; [assumption|].
      split; [right; exists evs1; auto|left; assumption].
    + destruct (same_config_pure ag ag1) as [Hp Hh]; [apply Hc1|].
      destruct (IH ag1 b1) as (ag2 & b2 & evs2 & Hrun2 & Hc2 & Hle2 & Hd2 & Hr2).
      * rewrite Hp. assumption.
      * apply Hc1.
      * destruct Hc1 as ((_ & _ & _ & _ & Hbp) & _). rewrite Hbp. exact Hpath.
      * rewrite Hh. assumption.
      * rewrite Hh. lia.
      * rewrite Hh in *.
        exists ag2, b2, ((EnvReset :: evs1) ++ evs2).
        split; [exact Hrun2|].
        split; [eapply collected_trans; eauto|].
        split; [assumption|].
        split.
        -- right. exists (evs1 ++ evs2). split; [reflexivity|].
           apply disciplined_app; [assumption|].
           rewrite <- Hi1. apply run_trace_disciplined; [lia|assumption].
        -- destruct Hr2 as [Hr2|Hr2]; [left; assumption|right].
           rewrite env_resets_app, Hr2.
           change (env_resets (EnvReset :: evs1)) with (S (env_resets evs1)).
           rewrite Hr1. reflexivity.
Qed.

Lemma run_trace_steps cap i evs :
  run_trace cap i evs -> env_steps evs = length (added evs).
Proof.
  intros [->|(evs' & -> & H)]; [reflexivity|].
  rewrite added_cons_reset. apply (disciplined_steps cap i evs' H).
Qed.

Lemma run_trace_after_fill cap i pre d post :
  run_trace cap i (pre ++ MemoryAdd d :: post) ->
  i + Z.of_nat (length (added pre)) + 1 = cap ->
  Forall (fun e => is_report e = true) post.
Proof.
  intros [E|(evs' & E & H)] Hfull.
  - destruct pre; discriminate.
  - destruct pre as [|x pre]; simpl in E; [discriminate|].
    injection E as E1 E2. subst x evs'.
    rewrite added_cons_reset in Hfull.
    exact (disciplined_after_fill cap i pre d post H Hfull).
Qed.

Lemma run_trace_step_below cap i pre a post :
  run_trace cap i (pre ++ EnvStep a :: post) ->
  i + Z.of_nat (length (added pre)) < cap.
Proof.
  intros [E|(evs' & E & H)].
  - destruct pre; discriminate.
  - destruct pre as [|x pre]; simpl in E; [discriminate|].
    injection E as E1 E2. subst x evs'.
    rewrite added_cons_reset.
    exact (disciplined_step_below cap i pre a post H).
Qed.

(** C1: a collection run (pure test mode) started on an empty buffer with a
    non-negative [buffer_size] returns, given fuel beyond [buffer_size] for
    each episode; the Transition Samples appended are as many as the
    environment steps taken, which is [min(buffer_size, steps taken)]; no
    step is taken at or above capacity; after the append that fills the
    buffer nothing but the reports of the loop follows (no render, step,
    append or reset, whatever is left of the episode or of the configured
    episodes); and a run that ends below capacity has started all the
    configured episodes. *)
Theorem collection_run_fills_buffer (fuel : nat) (interim_test : bool)
  (ag : Agent) (b : DistillationBuffer) (path : pypath) :
  pure_collection (args ag) = true ->
  memory ag = Some b ->
  buffer_path ag = Some path ->
  idx b = 0 ->
  stored b = [] ->
  0 <= buffer_size (hyper_params ag) ->
  (Z.to_nat (buffer_size (hyper_params ag)) < fuel)%nat ->
  exists ag' b' evs,
    _test fuel interim_test ag = Ret tt ag'
    /\ memory ag' = Some b'
    /\ trace ag' = trace ag ++ evs
    /\ stored b' = added evs
    /\ idx b' = Z.of_nat (length (stored b'))
    /\ length (stored b') = env_steps evs
    /\ Z.of_nat (length (stored b'))
       = Z.min (buffer_size (hyper_params ag)) (Z.of_nat (env_steps evs))
    /\ (forall pre a post, evs = pre ++ EnvStep a :: post ->
        Z.of_nat (length (added pre)) < buffer_size (hyper_params ag))
    /\ (forall pre d post, evs = pre ++ MemoryAdd d :: post ->
        Z.of_nat (length (added pre)) + 1 = buffer_size (hyper_params ag) ->
        Forall (fun e => is_report e = true) post)
    /\ (idx b' = buffer_size (hyper_params ag)
        \/ env_resets evs = length (range (test_num interim_test (args ag)))).
Proof.
  intros Hm Hb Hpath Hi Hs Hcap Hfuel.
  assert (Ht : teacher (args ag) = false).
  { unfold pure_collection in Hm.
    destruct (test (args ag)), (teacher (args ag)); simpl in Hm;
      try discriminate; reflexivity. }
  destruct (collect_run_spec fuel (range (test_num interim_test (args ag))) path
              ag b)
    as (ag' & b' & evs & Hrun & Hc & Hle & Htr & Hall); try assumption.
  { rewrite Hi. lia. }
  { rewrite Hi. replace (buffer_size (hyper_params ag) - 0)
      with (buffer_size (hyper_params ag)) by lia. assumption. }
  destruct Hc as (Hcfg & Hm' & Ht' & Hs' & Hi' & Hq).
  rewrite Hs in Hs'. simpl in Hs'. rewrite Hi in Hi', Htr. simpl in Hi'.
  exists ag', b', evs.
  split.
  { unfold _test, bind, get. rewrite Ht. exact Hrun. }
  split; [assumption|]. split; [assumption|]. split; [assumption|].
  pose proof (run_trace_steps _ _ _ Htr) as Hsteps.
  split; [rewrite Hs'; lia|].
  split; [rewrite Hs'; auto|].
  split; [rewrite Hs', Hsteps; lia|].
  split.
  { intros pre a post E. rewrite E in Htr.
    pose proof (run_trace_step_below _ _ _ _ _ Htr). lia. }
  split; [|exact Hall].
  intros pre d post E Hfull. rewrite E in Htr.
  apply (run_trace_after_fill _ 0 pre d post Htr). lia.
Qed.

(** ** No staleness of the stored Q-vectors *)

(** C5: in collection mode [select_action] caches the state it is given and
    returns the Q-vector the network computes for that very state; the
    [step] that follows appends exactly that state paired with exactly that
    Q-vector; and every Transition Sample appended by a collection run pairs
    a state with the Q-vector of the network for it. *)
Theorem collection_q_vector_is_fresh (fuel : nat) (interim_test : bool)
  (state : ndarray) (ag : Agent) (b : DistillationBuffer) (path : pypath) :
  pure_collection (args ag) = true ->
  memory ag = Some b ->
  buffer_path ag = Some path ->
  idx b <= buffer_size (hyper_params ag) ->
  (Z.to_nat (buffer_size (hyper_params ag) - idx b) < fuel)%nat ->
  (exists a ag1,
      select_action state true ag = Ret (ActQ a (q_vector (learner ag) state)) ag1
      /\ curr_state ag1 = state
      /\ learner ag1 = learner ag
      /\ exists r ag2 b2,
          step a (Some (q_vector (learner ag) state)) ag1 = Ret r ag2
          /\ memory ag2 = Some b2
          /\ stored b2 = stored b ++ [(state, Some (q_vector (learner ag) state))]
          /\ idx b2 = idx b + 1)
  /\ (exists ag' b' evs,
      _test fuel interim_test ag = Ret tt ag'
      /\ memory ag' = Some b'
      /\ trace ag' = trace ag ++ evs
      /\ stored b' = stored b ++ added evs
      /\ learner ag' = learner ag
      /\ Forall (fun d : sample => snd d = Some (q_vector (learner ag) (fst d)))
                (added evs)).
Proof.
  intros Hm Hb Hpath Hle Hfuel.
  assert (Hts : teacher (args ag) = false /\ test (args ag) = true).
  { unfold pure_collection in Hm.
    destruct (test (args ag)), (teacher (args ag)); simpl in Hm;
      try discriminate; auto. }
  destruct Hts as [Ht Hs].
  split.
  - eexists _, _. split; [apply select_action_collect; assumption|].
    split; [reflexivity|]. split; [reflexivity|].
    eexists _, _, _. split.
    + apply (step_collect _ _ b); [exact Hm|exact Hb].
    + split; [reflexivity|]. split; reflexivity.
  - destruct (collect_run_spec fuel (range (test_num interim_test (args ag)))
                path ag b)
      as (ag' & b' & evs & Hrun & Hc & _); try assumption.
    destruct Hc as ((_ & _ & Hl & _) & Hm' & Ht' & Hs' & _ & Hq).
    exists ag', b', evs.
    split; [unfold _test, bind, get; rewrite Ht; exact Hrun|].
    repeat (split; [assumption|]). assumption.
Qed.

(** ** The environment step *)

(** C8: in a pure collection pass [step] steps the environment once, appends
    exactly one Transition Sample [(curr_state, q_values)] and returns the
    environment's tuple as it is; in every other mode it is the base step,
    which (as long as the base step itself leaves the buffer alone) does not
    touch the buffer. *)
Theorem step_collects_or_delegates (action : ndarray) (q_values : option ndarray)
  (ag : Agent) :
  (pure_collection (args ag) = true ->
   forall b, memory ag = Some b ->
   exists ag' b',
     step action q_values ag = Ret (snd (env_step (env ag) action)) ag'
     /\ env ag' = fst (env_step (env ag) action)
     /\ memory ag' = Some b'
     /\ stored b' = stored b ++ [(curr_state ag, q_values)]
     /\ idx b' = idx b + 1
     /\ trace ag' = trace ag ++ [EnvStep action; MemoryAdd (curr_state ag, q_values)])
  /\ (pure_collection (args ag) = false ->
      step action q_values ag = DQNAgent_step action ag
      /\ (base_step_keeps_buffer ->
          forall s', final_state (step action q_values ag) = Some s' ->
                     memory s' = memory ag
                     /\ exists evs, trace s' = trace ag ++ evs /\ added evs = [])).
Proof.
  split.
  - intros Hm b Hb.
    exists (after_collect_step action q_values b ag),
           (db_add b (curr_state ag, q_values)).
    split; [apply step_collect; assumption|].
    unfold after_collect_step. simpl.
    repeat (split; [reflexivity|]). rewrite <- app_assoc. reflexivity.
  - intros Hm. rewrite (step_delegates action q_values ag Hm).
    split; [reflexivity|]. intros Hbase s' Hs'. exact (Hbase action ag s' Hs').
Qed.

(** ** The distillation training step *)

Lemma update_distillation_eval (tau : pyfloat) (b : DistillationBuffer)
  (ag : Agent) :
  memory ag = Some b ->
  softmax_tau ag = Some tau ->
  update_distillation ag
  = Ret (t_item (distillation_loss tau (on_device (fst (batch_at b)))
                   (on_device (snd (batch_at b))) (learner ag)),
         t_item (t_mean (dqn (learner ag) (on_device (fst (batch_at b))))))
        (after_update tau b ag).
Proof.
  intros Hb Htau.
  unfold update_distillation, after_update, trained_once, on_device. run.
  rewrite Hb. unfold db_sample. simpl.
  destruct (batch_at b) as [s q]. simpl. rewrite Htau. simpl.
  rewrite <- !app_assoc. reflexivity.
Qed.

(** ** The student's training loop *)

Lemma saved_steps_app e1 e2 : saved_steps (e1 ++ e2) = saved_steps e1 ++ saved_steps e2.
Proof. unfold saved_steps. apply omap_app. Qed.

Lemma dataloader_resets_app e1 e2 :
  dataloader_resets (e1 ++ e2) = (dataloader_resets e1 + dataloader_resets e2)%nat.
Proof. unfold dataloader_resets. rewrite List.filter_app, length_app. reflexivity. Qed.

Lemma optimizer_steps_app e1 e2 :
  optimizer_steps (e1 ++ e2) = (optimizer_steps e1 + optimizer_steps e2)%nat.
Proof. unfold optimizer_steps. rewrite List.filter_app, length_app. reflexivity. Qed.

Lemma train_body (iter_1 steps n : Z) (tau : pyfloat) (b : DistillationBuffer)
  (ag : Agent) :
  memory ag = Some b ->
  softmax_tau ag = Some tau ->
  iter_1 <> 0 ->
  exists ag1 evs,
    (forall l, train_loop iter_1 (steps :: l) n ag
               = train_loop iter_1 l
                   (if boundary iter_1 steps then n + 1 else n) ag1)
    /\ training tau (db_buffer_size b) ag ag1
    /\ trace ag1 = trace ag ++ evs
    /\ saved_steps evs = (if boundary iter_1 steps then [steps] else [])
    /\ dataloader_resets evs = (if boundary iter_1 steps then 1 else 0)%nat
    /\ optimizer_steps evs = 1%nat.
Proof.
  intros Hb Htau Hiter.
  pose proof (update_distillation_eval tau b ag Hb Htau) as Hupd.
  set (loss := (t_item _, t_item _)) in Hupd.
  set (ag0 := after_update tau b ag) in *.
  set (wl := if log (args ag) then [WandbLoss (fst loss) (snd loss)] else @nil event).
  set (ag1 := if log (args ag)
              then set_trace (trace ag0 ++ [WandbLoss (fst loss) (snd loss)]) ag0
              else ag0).
  set (b0 := snd (db_sample batch_at b)).
  assert (H1 : args ag1 = args ag /\ hyper_params ag1 = hyper_params ag
               /\ softmax_tau ag1 = Some tau /\ memory ag1 = Some b0
               /\ trace ag1 = trace ag
                    ++ [SampleBatch; OptimZeroGrad; LossBackward; OptimStep] ++ wl).
  { unfold ag1, wl, ag0, after_update. destruct (log (args ag)); simpl;
      rewrite <- ?app_assoc, ?app_nil_r; repeat split; auto. }
  destruct H1 as (Ha1 & Hh1 & Ht1 & Hm1 & Htr1).
  assert (Hhead : forall l,
             train_loop iter_1 (steps :: l) n ag
             = bind (py_mod steps iter_1)
                 (fun r =>
                    if r =? 0 then
                      bind (emit (PrintTraining n steps (fst loss) (snd loss)))
                        (fun _ => bind (learner_save_params steps)
                           (fun _ => bind memory_reset_dataloader
                              (fun _ => train_loop iter_1 l (n + 1))))
                    else train_loop iter_1 l n) ag1).
  { intros l. cbn [train_loop]. unfold bind at 1. rewrite Hupd.
    unfold bind at 1, get at 1.
    change (args ag0) with (args ag).
    unfold ag1. destruct (log (args ag)); reflexivity. }
  assert (Hmod : py_mod steps iter_1 ag1 = Ret (steps mod iter_1) ag1).
  { unfold py_mod. destruct (Z.eqb_spec iter_1 0); [contradiction|reflexivity]. }
  unfold boundary.
  destruct (steps mod iter_1 =? 0) eqn:Ebd.
  - set (ag2 := set_trace
                  (((trace ag1 ++ [PrintTraining n steps (fst loss) (snd loss)])
                    ++ [SaveParams steps]) ++ [ResetDataloader])
                  (set_memory (Some (db_reset_dataloader b0)) ag1)).
    exists ag2, ([SampleBatch; OptimZeroGrad; LossBackward; OptimStep] ++ wl
                 ++ [PrintTraining n steps (fst loss) (snd loss);
                     SaveParams steps; ResetDataloader]).
    split.
    { intros l. rewrite Hhead. unfold bind at 1. rewrite Hmod, Ebd.
      unfold ag2. run. rewrite Hm1. reflexivity. }
    split.
    { unfold training, ag2. simpl. repeat split; auto.
      exists (db_reset_dataloader b0). split; reflexivity. }
    split.
    { unfold ag2. simpl. rewrite Htr1. rewrite <- !app_assoc. reflexivity. }
    unfold wl. destruct (log (args ag)); repeat split; reflexivity.
  - exists ag1, ([SampleBatch; OptimZeroGrad; LossBackward; OptimStep] ++ wl).
    split.
    { intros l. rewrite Hhead. unfold bind at 1. rewrite Hmod, Ebd. reflexivity. }
    split.
    { unfold training. repeat split; auto. exists b0. split; auto. }
    split; [exact Htr1|].
    unfold wl. destruct (log (args ag)); repeat split; reflexivity.
Qed.

Lemma training_trans tau size a b c :
  training tau size a b -> training tau size b c -> training tau size a c.
Proof.
  unfold training. intros (?&?&?&?) (?&?&?&?). repeat split; try congruence; auto.
Qed.

Lemma train_loop_spec (iter_1 : Z) (tau : pyfloat) (size : Z) (l : list Z) :
  iter_1 <> 0 ->
  forall n ag,
    (exists b, memory ag = Some b /\ db_buffer_size b = size) ->
    softmax_tau ag = Some tau ->
    exists ag' evs,
      train_loop iter_1 l n ag
      = Ret (n + Z.of_nat (length (List.filter (boundary iter_1) l))) ag'
      /\ training tau size ag ag'
      /\ trace ag' = trace ag ++ evs
      /\ saved_steps evs = List.filter (boundary iter_1) l
      /\ dataloader_resets evs = length (List.filter (boundary iter_1) l)
      /\ optimizer_steps evs = length l.
Proof.
  intros Hiter. induction l as [|steps l IH]; intros n ag (b & Hb & Hsize) Htau.
  - exists ag, []. simpl. rewrite app_nil_r.
    replace (n + Z.of_nat 0) with n by lia.
    split; [reflexivity|].
    split; [unfold training; eauto 10|].
    repeat split; reflexivity.
  - destruct (train_body iter_1 steps n tau b ag Hb Htau Hiter)
      as (ag1 & evs1 & Hhead & Htr1 & Ht1 & Hs1 & Hr1 & Ho1).
    rewrite Hsize in Htr1.
    destruct Htr1 as (Ha1 & Hh1 & Htau1 & Hmem1).
    destruct (IH (if boundary iter_1 steps then n + 1 else n) ag1 Hmem1 Htau1)
      as (ag2 & evs2 & Hrun & Htr2 & Ht2 & Hs2 & Hr2 & Ho2).
    exists ag2, (evs1 ++ evs2).
    split.
    { rewrite Hhead, Hrun. f_equal. simpl.
      destruct (boundary iter_1 steps); simpl length; lia. }
    split.
    { eapply training_trans; [|exact Htr2]. repeat split; auto. }
    split; [rewrite Ht2, Ht1, app_assoc; reflexivity|].
    rewrite saved_steps_app, dataloader_resets_app, optimizer_steps_app.
    rewrite Hs1, Hs2, Hr1, Hr2, Ho1, Ho2. simpl.
    destruct (boundary iter_1 steps); repeat split; reflexivity.
Qed.

(** *** The epoch boundaries among [range(iter_1 * epochs)] *)

Lemma filter_none {A} (f : A -> bool) (l : list A) :
  Forall (fun x => f x = false) l -> List.filter f l = [].
Proof.
  induction 1 as [|x l Hx Hl IH]; [reflexivity|]. simpl. rewrite Hx. exact IH.
Qed.

Lemma boundary_block (m e : nat) :
  (0 < m)%nat ->
  List.filter (boundary (Z.of_nat m)) (map Z.of_nat (seq (m * e) m))
  = [Z.of_nat (m * e)].
Proof.
  intros Hm. destruct m as [|m']; [lia|].
  cbn [seq map List.filter].
  assert (H0 : boundary (Z.of_nat (S m')) (Z.of_nat (S m' * e)) = true).
  { unfold boundary. apply Z.eqb_eq. rewrite Nat2Z.inj_mul.
    rewrite Z.mul_comm. apply Z_mod_mult. }
  rewrite H0. f_equal. apply filter_none.
  apply List.Forall_forall. intros x Hx.
  apply in_map_iff in Hx. destruct Hx as (k & <- & Hk).
  apply in_seq in Hk.
  unfold boundary. apply Z.eqb_neq.
  replace (Z.of_nat k)
    with (Z.of_nat (k - S m' * e) + Z.of_nat e * Z.of_nat (S m')) by lia.
  rewrite Z_mod_plus_full. rewrite Z.mod_small; lia.
Qed.

Lemma boundaries_nat (m e : nat) :
  (0 < m)%nat ->
  List.filter (boundary (Z.of_nat m)) (map Z.of_nat (seq 0 (m * e)))
  = map (fun k => Z.of_nat (m * k)) (seq 0 e).
Proof.
  intros Hm. induction e as [|e IH].
  - rewrite Nat.mul_0_r. reflexivity.
  - replace (m * S e)%nat with (m * e + m)%nat by lia.
    rewrite seq_app, map_app, List.filter_app, IH.
    rewrite Nat.add_0_l, boundary_block by assumption.
    rewrite seq_S, map_app. reflexivity.
Qed.

Lemma boundaries (iter_1 n_epochs : Z) :
  0 < iter_1 -> 0 <= n_epochs ->
  List.filter (boundary iter_1) (range (iter_1 * n_epochs))
  = map (fun k => iter_1 * k) (range n_epochs).
Proof.
  intros Hi He. unfold range.
  rewrite Z2Nat.inj_mul by lia.
  rewrite <- (Z2Nat.id iter_1) at 1 by lia.
  rewrite boundaries_nat by lia.
  rewrite map_map. apply map_ext. intros k.
  rewrite Nat2Z.inj_mul, Z2Nat.id by lia. reflexivity.
Qed.

Lemma length_range (n : Z) : length (range n) = Z.to_nat n.
Proof. unfold range. rewrite length_map, length_seq. reflexivity. Qed.

Lemma last_range (n : Z) : 0 < n -> last (range n) = Some (n - 1).
Proof.
  intros Hn. unfold range.
  replace (Z.to_nat n) with (S (Z.to_nat (n - 1))) by lia.
  rewrite seq_S, map_app. simpl. rewrite last_snoc. f_equal. lia.
Qed.

(** *** A whole student training run *)

Lemma train_student_spec (ag : Agent) (b : DistillationBuffer) (tau : pyfloat) :
  student (args ag) = true ->
  memory ag = Some b ->
  softmax_tau ag = Some tau ->
  0 < batch_size (hyper_params ag) <= db_buffer_size b ->
  0 < epochs (hyper_params ag) ->
  let iter_1 := db_buffer_size b / batch_size (hyper_params ag) in
  let train_steps := iter_1 * epochs (hyper_params ag) in
  exists ag' evs,
    train ag = Ret tt ag'
    /\ trace ag' = trace ag ++ evs
    /\ saved_steps evs
       = List.filter (boundary iter_1) (range train_steps) ++ [train_steps - 1]
    /\ dataloader_resets evs
       = S (length (List.filter (boundary iter_1) (range train_steps)))
    /\ optimizer_steps evs = Z.to_nat train_steps
    /\ exists rest, evs = ResetDataloader :: rest.
Proof.
  intros Hst Hb Htau Hbs Hep iter_1 train_steps.
  assert (Hiter : 0 < iter_1) by (apply Z.div_str_pos; lia).
  assert (Hsteps : 0 < train_steps) by (unfold train_steps; lia).
  set (wb := if log (args ag) then [SetWandb] else @nil event).
  set (pre := [ResetDataloader] ++ wb
              ++ [PrintTotal (epochs (hyper_params ag)) train_steps]).
  set (ag3 := set_trace (trace ag ++ pre)
                (set_memory (Some (db_reset_dataloader b)) ag)).
  assert (Hhead : train ag
                  = bind (train_loop iter_1 (range train_steps) 0)
                      (fun _ =>
                         match last (range train_steps) with
                         | Some steps => learner_save_params steps
                         | None => raise UnboundLocalError
                         end) ag3).
  { unfold train. unfold bind at 1, get at 1. rewrite Hst.
    unfold ag3, pre, wb. run. rewrite Hb. simpl.
    destruct (Z.leb_spec (batch_size (hyper_params ag)) (db_buffer_size b)) as [_|?];
      [|lia].
    unfold py_floordiv.
    destruct (log (args ag)); simpl;
      (destruct (Z.eqb_spec (batch_size (hyper_params ag)) 0) as [?|_]; [lia|]);
      simpl; rewrite <- ?app_assoc; reflexivity. }
  destruct (train_loop_spec iter_1 tau (db_buffer_size b) (range train_steps)
              ltac:(lia) 0 ag3)
    as (ag4 & evs & Hrun & Htr & Ht & Hs & Hr & Ho).
  { exists (db_reset_dataloader b). split; reflexivity. }
  { exact Htau. }
  exists (set_trace (trace ag4 ++ [SaveParams (train_steps - 1)]) ag4),
         (pre ++ evs ++ [SaveParams (train_steps - 1)]).
  split.
  { rewrite Hhead. unfold bind at 1. rewrite Hrun.
    rewrite (last_range _ Hsteps). reflexivity. }
  split.
  { simpl. rewrite Ht. unfold ag3, pre. simpl. rewrite <- !app_assoc.
    simpl. rewrite <- ?app_assoc. reflexivity. }
  rewrite !saved_steps_app, !dataloader_resets_app, !optimizer_steps_app.
  rewrite Hs, Hr, Ho, length_range.
  change (dataloader_resets [SaveParams (train_steps - 1)]) with 0%nat.
  change (optimizer_steps [SaveParams (train_steps - 1)]) with 0%nat.
  unfold pre, wb. destruct (log (args ag)); simpl;
    rewrite ?app_nil_r; repeat split; try reflexivity; try lia; eauto.
Qed.

(** C3: in a student training run with [0 < batch_size <= buffer_size] and
    at least one epoch, [iterations_per_epoch = buffer_size // batch_size]
    and [train_steps = iterations_per_epoch * epochs] optimiser steps are
    made; a checkpoint is written at every step index divisible by
    [iterations_per_epoch], and one more after the loop, tagged with the
    last step index; with 4, 2 and 3 the loop runs 6 steps and the
    checkpoints are those of steps 0, 2, 4 and then 5. *)
Theorem train_checkpoints (ag : Agent) (b : DistillationBuffer) (tau : pyfloat) :
  student (args ag) = true ->
  memory ag = Some b ->
  softmax_tau ag = Some tau ->
  0 < batch_size (hyper_params ag) <= db_buffer_size b ->
  0 < epochs (hyper_params ag) ->
  let iterations_per_epoch := db_buffer_size b / batch_size (hyper_params ag) in
  let train_steps := iterations_per_epoch * epochs (hyper_params ag) in
  exists ag' evs,
    train ag = Ret tt ag'
    /\ trace ag' = trace ag ++ evs
    /\ optimizer_steps evs = Z.to_nat train_steps
    /\ saved_steps evs
       = List.filter (fun steps => steps mod iterations_per_epoch =? 0)
           (range train_steps) ++ [train_steps - 1]
    /\ (db_buffer_size b = 4 -> batch_size (hyper_params ag) = 2 ->
        epochs (hyper_params ag) = 3 ->
        iterations_per_epoch = 2 /\ train_steps = 6
        /\ optimizer_steps evs = 6%nat /\ saved_steps evs = [0; 2; 4; 5]).
Proof.
  intros Hst Hb Htau Hbs Hep iter_1 train_steps.
  destruct (train_student_spec ag b tau Hst Hb Htau Hbs Hep)
    as (ag' & evs & Hrun & Ht & Hs & _ & Ho & _).
  fold iter_1 in Hs, Ho. fold train_steps in Hs, Ho.
  exists ag', evs.
  split; [exact Hrun|]. split; [exact Ht|]. split; [exact Ho|].
  split; [exact Hs|].
  intros E4 E2 E3.
  assert (Ei : iter_1 = 2) by (unfold iter_1; rewrite E4, E2; reflexivity).
  assert (Et : train_steps = 6) by (unfold train_steps; rewrite Ei, E3; reflexivity).
  rewrite Hs, Ho, Ei, Et. repeat split; reflexivity.
Qed.

(** C2, as the code has it: in a student training run with
    [0 < batch_size <= buffer_size] and at least one epoch the data loader is
    reset [epochs + 1] times: once before the loop, and once at each of the
    [epochs] step indices divisible by [iterations_per_epoch], the first of
    which is step 0. *)
Theorem train_dataloader_resets (ag : Agent) (b : DistillationBuffer)
  (tau : pyfloat) :
  student (args ag) = true ->
  memory ag = Some b ->
  softmax_tau ag = Some tau ->
  0 < batch_size (hyper_params ag) <= db_buffer_size b ->
  0 < epochs (hyper_params ag) ->
  let iterations_per_epoch := db_buffer_size b / batch_size (hyper_params ag) in
  let train_steps := iterations_per_epoch * epochs (hyper_params ag) in
  exists ag' rest,
    train ag = Ret tt ag'
    /\ trace ag' = trace ag ++ ResetDataloader :: rest
    /\ dataloader_resets rest
       = length (List.filter (fun steps => steps mod iterations_per_epoch =? 0)
                   (range train_steps))
    /\ dataloader_resets rest = Z.to_nat (epochs (hyper_params ag))
    /\ dataloader_resets (ResetDataloader :: rest)
       = Z.to_nat (epochs (hyper_params ag) + 1).
Proof.
  intros Hst Hb Htau Hbs Hep iter_1 train_steps.
  destruct (train_student_spec ag b tau Hst Hb Htau Hbs Hep)
    as (ag' & evs & Hrun & Ht & _ & Hr & _ & rest & ->).
  fold iter_1 in Hr. fold train_steps in Hr.
  assert (Hiter : 0 < iter_1) by (apply Z.div_str_pos; lia).
  change (dataloader_resets (ResetDataloader :: rest))
    with (S (dataloader_resets rest)) in *.
  injection Hr as Hr.
  assert (Hn : length (List.filter (boundary iter_1) (range train_steps))
               = Z.to_nat (epochs (hyper_params ag))).
  { unfold train_steps. rewrite boundaries by lia.
    rewrite length_map, length_range. reflexivity. }
  exists ag', rest.
  split; [exact Hrun|]. split; [exact Ht|]. split; [exact Hr|].
  split; [rewrite Hr; exact Hn|].
  unfold dataloader_resets in *. simpl. rewrite Hr, Hn. lia.
Qed.

(** ** The softmax temperature is never changed *)

Lemma keeps_ret {A} (a : A) : keeps_tau (ret a).
Proof. intros s s' H. injection H as <-. reflexivity. Qed.

Lemma keeps_raise {A} (e : exn) : keeps_tau (raise (A:=A) e).
Proof. intros s s' H. injection H as <-. reflexivity. Qed.

Lemma keeps_diverge {A} : keeps_tau (diverge (A:=A)).
Proof. intros s s' H. discriminate. Qed.

Lemma keeps_get : keeps_tau get.
Proof. intros s s' H. injection H as <-. reflexivity. Qed.

Lemma keeps_modify (f : Agent -> Agent) :
  (forall s, softmax_tau (f s) = softmax_tau s) -> keeps_tau (modify f).
Proof. intros Hf s s' H. injection H as <-. apply Hf. Qed.

Lemma keeps_bind {A X} (m : M A) (k : A -> M X) :
  keeps_tau m -> (forall a, keeps_tau (k a)) -> keeps_tau (bind m k).
Proof.
  intros Hm Hk s s' H. unfold bind in H.
  destruct (m s) as [a s1|e s1|] eqn:E.
  - rewrite (Hk a s1 s' H). apply Hm. rewrite E. reflexivity.
  - injection H as <-. apply Hm. rewrite E. reflexivity.
  - discriminate.
Qed.

Lemma keeps_for_in {A} (l : list A) (body : A -> M bool) :
  (forall x, keeps_tau (body x)) -> keeps_tau (for_in l body).
Proof.
  intros Hb. induction l as [|x l IH]; simpl.
  - apply keeps_ret.
  - apply keeps_bind; [apply Hb|]. intros [|]; [apply keeps_ret|exact IH].
Qed.

Ltac keeps_step :=
  first
    [ apply keeps_ret | apply keeps_raise | apply keeps_diverge | apply keeps_get
    | apply keeps_modify; intros; reflexivity
    | apply keeps_for_in; intros
    | apply keeps_bind; [|intros]
    | match goal with
      | |- keeps_tau (if ?c then _ else _) => destruct c
      | |- keeps_tau (match ?x with _ => _ end) => destruct x
      | |- keeps_tau (when ?c _) => unfold when
      end ].

Ltac keeps :=
  unfold memory_add, memory_reset_dataloader, memory_sample_for_diltillation,
    call_env_step, call_env_reset, call_env_render, call_action_space_sample,
    call_np_random_random, learner_save_params, set_wandb, emit, fs_update,
    fs_query, attr, py_assert, py_mod, py_floordiv, when;
  repeat keeps_step.

Lemma keeps_call_env_step action : keeps_tau (call_env_step action).
Proof. unfold call_env_step. keeps. Qed.

Lemma call_env_step_keeps_buffer action s s' :
  final_state (call_env_step action s) = Some s' ->
  memory s' = memory s /\ trace s' = trace s ++ [EnvStep action].
Proof.
  unfold call_env_step. run.
  destruct (env_step (env s) action) as [e r]. simpl.
  intros H. injection H as <-. split; reflexivity.
Qed.

Section KeepsTau.

Hypothesis Hbase : base_keeps_tau.

Lemma keeps_select_action state is_test : keeps_tau (select_action state is_test).
Proof.
  destruct Hbase as (Hsel & _ & _).
  unfold select_action. keeps; apply Hsel.
Qed.

Lemma keeps_step action q_values : keeps_tau (step action q_values).
Proof.
  destruct Hbase as (_ & Hstep & _).
  unfold step. keeps. apply Hstep.
Qed.

Lemma keeps_test_episode_teacher fuel :
  forall state done score n,
    keeps_tau (test_episode_teacher fuel state done score n).
Proof.
  induction fuel as [|fuel IH]; intros state done score n; simpl.
  - destruct done; keeps.
  - destruct done; simpl; [keeps|].
    apply keeps_bind; [keeps|]. intros self.
    apply keeps_bind; [keeps|]. intros _.
    apply keeps_bind; [apply keeps_select_action|]. intros sel.
    apply keeps_bind; [keeps|]. intros action.
    apply keeps_bind; [apply keeps_step|]. intros [[[ns rw] dn] inf].
    apply IH.
Qed.

Lemma keeps_collect_guard done : keeps_tau (collect_guard done).
Proof. unfold collect_guard. keeps. Qed.

Lemma keeps_test_episode_collect fuel :
  forall state done score n,
    keeps_tau (test_episode_collect fuel state done score n).
Proof.
  induction fuel as [|fuel IH]; intros state done score n; simpl.
  - apply keeps_bind; [apply keeps_collect_guard|]. intros [|]; keeps.
  - apply keeps_bind; [apply keeps_collect_guard|]. intros [|]; [|keeps].
    apply keeps_bind; [keeps|]. intros self.
    apply keeps_bind; [keeps|]. intros _.
    apply keeps_bind; [apply keeps_select_action|]. intros sel.
    apply keeps_bind; [keeps|]. intros [action q].
    apply keeps_bind; [apply keeps_step|]. intros [[[ns rw] dn] inf].
    apply IH.
Qed.

Lemma keeps_test fuel interim_test : keeps_tau (_test fuel interim_test).
Proof.
  unfold _test. apply keeps_bind; [keeps|]. intros self.
  destruct (teacher (args self)); apply keeps_for_in; intros i.
  - unfold teacher_episode.
    apply keeps_bind; [keeps|]. intros st.
    apply keeps_bind; [apply keeps_test_episode_teacher|]. intros [sc n]. keeps.
  - unfold collect_episode.
    apply keeps_bind; [keeps|]. intros st.
    apply keeps_bind; [apply keeps_test_episode_collect|]. intros [sc n]. keeps.
Qed.

Lemma keeps_update_distillation : keeps_tau update_distillation.
Proof. unfold update_distillation. keeps. Qed.

Lemma keeps_train_loop iter_1 l : forall n, keeps_tau (train_loop iter_1 l n).
Proof.
  induction l as [|steps l IH]; intros n; simpl.
  - keeps.
  - apply keeps_bind; [apply keeps_update_distillation|]. intros loss.
    apply keeps_bind; [keeps|]. intros self.
    apply keeps_bind; [keeps|]. intros _.
    apply keeps_bind; [keeps|]. intros r.
    destruct (r =? 0); [|apply IH].
    apply keeps_bind; [keeps|]. intros _.
    apply keeps_bind; [keeps|]. intros _.
    apply keeps_bind; [keeps|]. intros _. apply IH.
Qed.

Lemma keeps_train : keeps_tau train.
Proof.
  destruct Hbase as (_ & _ & Htrain).
  unfold train. apply keeps_bind; [keeps|]. intros self.
  destruct (student (args self)).
  - apply keeps_bind; [keeps|]. intros _.
    apply keeps_bind; [keeps|]. intros b.
    apply keeps_bind; [keeps|]. intros _.
    apply keeps_bind; [keeps|]. intros _.
    apply keeps_bind; [keeps|]. intros b'.
    apply keeps_bind; [keeps|]. intros iter_1.
    apply keeps_bind; [keeps|]. intros _.
    apply keeps_bind; [apply keeps_train_loop|]. intros n. keeps.
  - destruct (add_expert_q (args self)); [keeps|].
    destruct (teacher (args self)); [exact Htrain|keeps].
Qed.

End KeepsTau.

(** [_initialize] in student or test mode ends, whether it returns or a
    file-system call raises, with the temperature set to the literal 0.01. *)
Lemma initialize_sets_tau (ag : Agent) :
  mode_sum (args ag) = 1 ->
  student (args ag) || test (args ag) = true ->
  exists s', final_state (_initialize ag) = Some s'
             /\ softmax_tau s' = Some (float_lit (1 # 100)).
Proof.
  intros Hone Hst.
  unfold _initialize, bind, get, py_assert.
  rewrite (proj2 (Z.eqb_eq _ _) Hone). unfold ret at 1. rewrite Hst.
  run. destruct (student (args ag)); simpl.
  - eexists. split; reflexivity.
  - destruct (truthy (distillation_buffer_path (args ag))); simpl;
      match goal with |- context [os_makedirs ?f ?p ?b] =>
        destruct (os_makedirs f p b) end;
      simpl; eexists; split; reflexivity.
Qed.

(** ** Student training: configurations that cannot train *)

Lemma range_nonpos (n : Z) : n <= 0 -> range n = [].
Proof. intros Hn. unfold range. replace (Z.to_nat n) with 0%nat by lia. reflexivity. Qed.

(** X1: A buffer smaller than one batch: the assertion fails, but only after
    the data loader has been reset once; the metrics sink is not opened, no
    batch is drawn, the network is not touched, no checkpoint is written. *)
Theorem train_rejects_small_buffer (ag : Agent) (b : DistillationBuffer) :
  student (args ag) = true ->
  memory ag = Some b ->
  db_buffer_size b < batch_size (hyper_params ag) ->
  train ag
  = Raise AssertionError
      (set_trace (trace ag ++ [ResetDataloader])
         (set_memory (Some (db_reset_dataloader b)) ag)).
Proof.
  intros Hst Hb Hlt. unfold train. unfold bind at 1, get at 1. rewrite Hst.
  run. rewrite Hb. simpl.
  destruct (Z.leb_spec (batch_size (hyper_params ag)) (db_buffer_size b)); [lia|].
  reflexivity.
Qed.

(** X2: A batch size of zero passes the assertion (for a buffer size that is not
    negative) and fails at the division, after the metrics sink has been
    opened when logging is on. *)
Theorem train_zero_batch_size (ag : Agent) (b : DistillationBuffer) :
  student (args ag) = true ->
  memory ag = Some b ->
  batch_size (hyper_params ag) = 0 ->
  0 <= db_buffer_size b ->
  exists s',
    train ag = Raise ZeroDivisionError s'
    /\ trace s' = trace ag
                  ++ ResetDataloader :: (if log (args ag) then [SetWandb] else [])
    /\ learner s' = learner ag.
Proof.
  intros Hst Hb Hz Hsize. unfold train. unfold bind at 1, get at 1. rewrite Hst.
  run. rewrite Hb. simpl. rewrite Hz.
  destruct (Z.leb_spec 0 (db_buffer_size b)); [|lia].
  unfold py_floordiv.
  destruct (log (args ag)); simpl; eexists; (split; [reflexivity|]);
    simpl; rewrite <- ?app_assoc; split; reflexivity.
Qed.

(** X3: When [iterations_per_epoch * epochs] is not positive (no epoch, or a
    negative batch size or epoch count) the loop body never runs: no batch
    is drawn, no optimiser step is made, and the checkpoint after the loop
    fails on the loop variable, which was never bound. *)
Theorem train_without_steps (ag : Agent) (b : DistillationBuffer) :
  student (args ag) = true ->
  memory ag = Some b ->
  batch_size (hyper_params ag) <> 0 ->
  batch_size (hyper_params ag) <= db_buffer_size b ->
  db_buffer_size b / batch_size (hyper_params ag) * epochs (hyper_params ag) <= 0 ->
  exists s' evs,
    train ag = Raise UnboundLocalError s'
    /\ trace s' = trace ag ++ evs
    /\ optimizer_steps evs = 0%nat
    /\ saved_steps evs = []
    /\ dataloader_resets evs = 1%nat
    /\ learner s' = learner ag.
Proof.
  intros Hst Hb Hnz Hle Hsteps. unfold train. unfold bind at 1, get at 1.
  rewrite Hst. run. rewrite Hb. simpl.
  destruct (Z.leb_spec (batch_size (hyper_params ag)) (db_buffer_size b)); [|lia].
  unfold py_floordiv.
  destruct (Z.eqb_spec (batch_size (hyper_params ag)) 0) as [?|_]; [contradiction|].
  destruct (log (args ag)); simpl; rewrite (range_nonpos _ Hsteps); simpl;
    eexists; eexists; (split; [reflexivity|]); simpl;
    (split; [rewrite <- ?app_assoc; reflexivity|]);
    repeat split; reflexivity.
Qed.

(** ** A collection run on a buffer that is already full *)

Lemma range_pos (n : Z) : 0 < n -> exists rest, range n = 0 :: rest.
Proof.
  intros Hn. unfold range.
  replace (Z.to_nat n) with (S (Z.to_nat (n - 1))) by lia.
  simpl. eexists. reflexivity.
Qed.

(** X4: When the buffer is full before the run starts, the guard at the head of
    the [while] loop stops the first episode at once: the environment is
    reset once, no step is taken, nothing is appended, the reports are
    printed and the run ends, whatever number of episodes is configured.
    With no episode configured nothing happens at all. *)
Theorem collection_on_full_buffer (fuel : nat) (interim_test : bool)
  (ag : Agent) (b : DistillationBuffer) (path : pypath) :
  pure_collection (args ag) = true ->
  memory ag = Some b ->
  buffer_path ag = Some path ->
  idx b = buffer_size (hyper_params ag) ->
  (0 < fuel)%nat ->
  (test_num interim_test (args ag) <= 0 -> _test fuel interim_test ag = Ret tt ag)
  /\ (0 < test_num interim_test (args ag) ->
      exists ag' b' reports,
        _test fuel interim_test ag = Ret tt ag'
        /\ trace ag' = trace ag ++ EnvReset :: reports
        /\ Forall (fun e => is_report e = true) reports
        /\ memory ag' = Some b'
        /\ stored b' = stored b
        /\ idx b' = idx b).
Proof.
  intros Hm Hb Hpath Hfull Hfuel.
  assert (Ht : teacher (args ag) = false).
  { unfold pure_collection in Hm.
    destruct (test (args ag)), (teacher (args ag)); simpl in Hm;
      try discriminate; reflexivity. }
  assert (Hhead : _test fuel interim_test ag
                  = for_in (range (test_num interim_test (args ag)))
                      (collect_episode fuel) ag).
  { unfold _test, bind, get. rewrite Ht. reflexivity. }
  split.
  - intros Hn. rewrite Hhead, (range_nonpos _ Hn). reflexivity.
  - intros Hn. destruct (range_pos _ Hn) as (rest & Hr).
    destruct (collect_episode_spec fuel 0 ag b path Hm Hb Hpath)
      as (ag1 & b1 & evs & Hrun & Hc & Hle & Hd & _); [lia|lia|].
    destruct Hc as (_ & Hm1 & Ht1 & Hs1 & Hi1 & _).
    rewrite added_cons_reset in Hs1, Hi1.
    pose proof (disciplined_full_quiet _ _ _ Hd ltac:(lia)) as Hq.
    rewrite (added_reports _ Hq) in Hs1, Hi1. simpl in Hi1.
    rewrite app_nil_r in Hs1.
    assert (Hidx : idx b1 = idx b) by lia.
    exists ag1, b1, evs.
    split.
    { rewrite Hhead, Hr. cbn [for_in]. unfold bind at 1. rewrite Hrun.
      rewrite Hidx, Hfull, Z.eqb_refl. reflexivity. }
    repeat split; assumption.
Qed.

(** ** What the collection loop reports *)

Lemma iteration_events_no_report state ag :
  Forall (fun e => is_report e = false) (iteration_events state ag).
Proof.
  unfold iteration_events. destruct (render (args ag)); repeat constructor.
Qed.

(** The step counter of an episode advances with the buffer's fill level,
    and an episode itself reports nothing. *)
Lemma test_episode_collect_count (fuel : nat) :
  forall state done score n ag b,
    pure_collection (args ag) = true ->
    memory ag = Some b ->
    idx b <= buffer_size (hyper_params ag) ->
    (Z.to_nat (buffer_size (hyper_params ag) - idx b) < fuel)%nat ->
    exists score' n' ag' b' evs,
      test_episode_collect fuel state done score n ag = Ret (score', n') ag'
      /\ collected ag ag' b b' evs
      /\ n' - n = idx b' - idx b
      /\ Forall (fun e => is_report e = false) evs.
Proof.
  induction fuel as [|fuel IH]; intros state done score n ag b Hm Hb Hle Hfuel.
  - lia.
  - destruct (negb done && negb (idx b =? buffer_size (hyper_params ag))) eqn:Hg.
    + apply andb_true_iff in Hg. destruct Hg as [Hd Hi].
      apply negb_true_iff in Hd. subst done.
      apply negb_true_iff in Hi. apply Z.eqb_neq in Hi.
      rewrite (test_episode_collect_go fuel state score n b ag Hm Hb Hi).
      cbv zeta.
      destruct (snd (env_step (env ag) _)) as [[[ns rw] dn] inf].
      pose proof (after_iteration_collected state b ag Hb) as Hc.
      pose proof (after_iteration_args state b ag) as [Ha Hh].
      set (ag1 := after_iteration state b ag) in *.
      set (b1 := db_add b (state, Some (q_vector (learner ag) state))) in *.
      assert (Hb1 : memory ag1 = Some b1) by (apply Hc).
      assert (Hi1 : idx b1 = idx b + 1) by reflexivity.
      destruct (IH ns dn (float_add score rw) (n + 1) ag1 b1)
        as (score' & n' & ag' & b' & evs & Hrun & Hc' & Hn' & Hq).
      * rewrite Ha. exact Hm.
      * exact Hb1.
      * rewrite Hh, Hi1. lia.
      * rewrite Hh, Hi1. lia.
      * exists score', n', ag', b', (iteration_events state ag ++ evs).
        split; [exact Hrun|].
        split; [eapply collected_trans; eauto|].
        split; [lia|].
        apply Forall_app. split; [apply iteration_events_no_report|exact Hq].
    + exists score, n, ag, b, [].
      split; [apply (test_episode_collect_stop _ _ _ _ _ b); assumption|].
      split; [apply collected_refl; assumption|].
      split; [lia|constructor].
Qed.

Lemma no_report_no_print (evs : list event) :
  Forall (fun e => is_report e = false) evs ->
  List.filter is_print_collect evs = [].
Proof.
  induction 1 as [|e l He Hl IH]; [reflexivity|].
  destruct e; simpl in *; try discriminate; exact IH.
Qed.

(** X5: After each episode the loop reports the episode's index, its number of
    steps, which is the number of samples the episode appended, and the fill
    level, which is the buffer's [idx]; it reports them once. *)
Theorem collect_episode_reports_fill (fuel : nat) (i_episode : Z) (ag : Agent)
  (b : DistillationBuffer) (path : pypath) :
  pure_collection (args ag) = true ->
  memory ag = Some b ->
  buffer_path ag = Some path ->
  idx b <= buffer_size (hyper_params ag) ->
  (Z.to_nat (buffer_size (hyper_params ag) - idx b) < fuel)%nat ->
  exists brk ag' b' evs score,
    collect_episode fuel i_episode ag = Ret brk ag'
    /\ trace ag' = trace ag ++ evs
    /\ memory ag' = Some b'
    /\ idx b' - idx b = Z.of_nat (length (added evs))
    /\ List.filter is_print_collect evs
       = [PrintCollect i_episode (idx b' - idx b) score (idx b')].
Proof.
  intros Hm Hb Hpath Hle Hfuel.
  set (ag0 := set_trace (trace ag ++ [EnvReset])
                (set_env (fst (env_reset (env ag))) ag)).
  assert (Hreset : call_env_reset ag = Ret (snd (env_reset (env ag))) ag0).
  { unfold call_env_reset, ag0. run.
    destruct (env_reset (env ag)) as [e st]. reflexivity. }
  destruct (test_episode_collect_count fuel (snd (env_reset (env ag))) false
              (float_lit 0) 0 ag0 b)
    as (score & n & ag1 & b1 & evs1 & Hrun & Hc1 & Hn & Hq); try assumption.
  destruct Hc1 as (Hcfg & Hm1 & Ht1 & Hs1 & Hi1 & _).
  assert (Hn' : n = idx b1 - idx b) by lia.
  assert (Hp1 : buffer_path ag1 = Some path).
  { destruct Hcfg as (_ & _ & _ & _ & Hp). rewrite Hp. exact Hpath. }
  pose proof (no_report_no_print _ Hq) as Hnoprint.
  unfold collect_episode. unfold bind at 1. rewrite Hreset.
  unfold bind at 1. rewrite Hrun.
  run. rewrite Hm1. simpl. rewrite ?Hm1.
  destruct (log (args ag1)); simpl; rewrite ?Hm1; simpl;
    destruct (idx b1 =? buffer_size (hyper_params ag1)); simpl;
    rewrite ?Hp1; simpl;
    eexists _, _, b1, _, score;
    (split; [reflexivity|]); simpl; rewrite Ht1; unfold ag0; simpl;
    (split; [rewrite <- !app_assoc; simpl; reflexivity|]);
    (split; [exact Hm1|]);
    rewrite added_cons_reset, added_app, length_app;
    match goal with
    | |- context [List.filter is_print_collect (EnvReset :: ?l)] =>
        change (List.filter is_print_collect (EnvReset :: l))
          with (List.filter is_print_collect l)
    end;
    rewrite List.filter_app, Hnoprint; simpl;
    rewrite <- Hn'; (split; [lia|reflexivity]).
Qed.

(** ** Methods that respect a relation on states *)

Section Stable.
Variable R : Agent -> Agent -> Prop.
Hypothesis R_refl : forall s, R s s.
Hypothesis R_trans : forall a b c, R a b -> R b c -> R a c.

Lemma stable_ret {A} (a : A) : stable R (ret a).
Proof. intros s. exists s. split; [reflexivity|apply R_refl]. Qed.

Lemma stable_raise {A} (e : exn) : stable R (raise (A:=A) e).
Proof. intros s. exists s. split; [reflexivity|apply R_refl]. Qed.

Lemma stable_get : stable R get.
Proof. intros s. exists s. split; [reflexivity|apply R_refl]. Qed.

Lemma stable_modify (f : Agent -> Agent) :
  (forall s, R s (f s)) -> stable R (modify f).
Proof. intros Hf s. exists (f s). split; [reflexivity|apply Hf]. Qed.

Lemma stable_bind {A X} (m : M A) (k : A -> M X) :
  stable R m -> (forall a, stable R (k a)) -> stable R (bind m k).
Proof.
  intros Hm Hk s. destruct (Hm s) as (s1 & E1 & R1). unfold bind.
  destruct (m s) as [a s2|e s2|]; simpl in E1; [| |discriminate];
    injection E1 as ->.
  - destruct (Hk a s1) as (s' & E' & R'). exists s'. split; [exact E'|].
    exact (R_trans _ _ _ R1 R').
  - exists s1. split; [reflexivity|exact R1].
Qed.

Lemma stable_for_in {A} (l : list A) (body : A -> M bool) :
  (forall x, stable R (body x)) -> stable R (for_in l body).
Proof.
  intros Hb. induction l as [|x l IH]; simpl.
  - apply stable_ret.
  - apply stable_bind; [apply Hb|]. intros [|]; [apply stable_ret|exact IH].
Qed.

(** A loop whose body never asks to leave it, and one of whose rounds raises
    whenever it is reached in a state related to the first one, raises. *)
Lemma for_in_raises {A} (l : list A) (body : A -> M bool) (x : A) (s0 : Agent) :
  (forall y, stable R (body y)) ->
  (forall y s b s', body y s = Ret b s' -> b = false) ->
  In x l ->
  (forall s, R s0 s -> exists e s', body x s = Raise e s') ->
  forall s, R s0 s ->
  exists e s', for_in l body s = Raise e s' /\ R s0 s'.
Proof.
  intros Hst Hnobreak Hin Hx. induction l as [|y l IH]; [destruct Hin|].
  intros s Hs. simpl. unfold bind.
  destruct (Hst y s) as (s1 & E1 & R1).
  destruct (body y s) as [b s2|e s2|] eqn:E; simpl in E1; [| |discriminate];
    injection E1 as ->.
  - rewrite (Hnobreak _ _ _ _ E).
    destruct Hin as [->|Hin].
    + destruct (Hx s Hs) as (e & s' & E'). congruence.
    + apply (IH Hin). exact (R_trans _ _ _ Hs R1).
  - exists e, s1. split; [reflexivity|exact (R_trans _ _ _ Hs R1)].
Qed.

End Stable.

(** ** A student training run leaves everything but the student alone *)

Lemma untouched_refl s : untouched_by_training s s.
Proof.
  unfold untouched_by_training. repeat (split; [reflexivity|]).
  exists []. split; [symmetry; apply app_nil_r|constructor].
Qed.

Lemma untouched_trans a b c :
  untouched_by_training a b -> untouched_by_training b c ->
  untouched_by_training a c.
Proof.
  intros (F1 & E1 & G1 & S1 & I1 & T1 & P1 & l1 & L1 & A1)
         (F2 & E2 & G2 & S2 & I2 & T2 & P2 & l2 & L2 & A2).
  unfold untouched_by_training.
  repeat (split; [congruence|]).
  exists (l1 ++ l2). split; [rewrite L2, L1; symmetry; apply app_assoc|].
  apply Forall_app. split; assumption.
Qed.

Lemma untouched_emit (e : event) :
  is_training_event e = true -> stable untouched_by_training (emit e).
Proof.
  intros He. apply stable_modify. intros s.
  unfold untouched_by_training. simpl. repeat (split; [reflexivity|]).
  exists [e]. split; [reflexivity|]. constructor; [exact He|constructor].
Qed.

Lemma untouched_set_learner (f : Agent -> Learner) :
  stable untouched_by_training (modify (fun s => set_learner (f s) s)).
Proof.
  apply stable_modify. intros s.
  unfold untouched_by_training. simpl. repeat (split; [reflexivity|]).
  exists []. split; [symmetry; apply app_nil_r|constructor].
Qed.

Lemma untouched_attr {A} (f : Agent -> option A) :
  stable untouched_by_training (attr f).
Proof.
  unfold attr. apply stable_bind;
    [apply untouched_trans|apply stable_get, untouched_refl|].
  intros self. destruct (f self);
    [apply stable_ret|apply stable_raise]; apply untouched_refl.
Qed.

Lemma untouched_reset_dataloader :
  stable untouched_by_training memory_reset_dataloader.
Proof.
  intros s. unfold memory_reset_dataloader, attr, bind, get.
  destruct (memory s) as [b|] eqn:Hm; simpl.
  - eexists. split; [reflexivity|].
    unfold untouched_by_training. simpl. rewrite Hm. simpl.
    repeat (split; [reflexivity|]).
    exists [ResetDataloader]. split; [reflexivity|].
    constructor; [reflexivity|constructor].
  - exists s. split; [reflexivity|apply untouched_refl].
Qed.

Lemma untouched_sample :
  stable untouched_by_training memory_sample_for_diltillation.
Proof.
  intros s. unfold memory_sample_for_diltillation, attr, bind, get.
  destruct (memory s) as [b|] eqn:Hm; simpl.
  - eexists. split; [reflexivity|].
    unfold untouched_by_training. simpl. rewrite Hm. simpl.
    repeat (split; [reflexivity|]).
    exists [SampleBatch]. split; [reflexivity|].
    constructor; [reflexivity|constructor].
  - exists s. split; [reflexivity|apply untouched_refl].
Qed.

Ltac untouched :=
  repeat first
    [ apply untouched_reset_dataloader
    | apply untouched_sample
    | apply untouched_attr
    | apply untouched_set_learner
    | apply untouched_emit; reflexivity
    | apply stable_ret; apply untouched_refl
    | apply stable_raise; apply untouched_refl
    | apply stable_get; apply untouched_refl
    | apply stable_bind; [apply untouched_trans| |intros]
    | match goal with
      | |- stable _ (if ?c then _ else _) => destruct c
      | |- stable _ (match ?x with _ => _ end) => destruct x
      end ].

Lemma untouched_update_distillation :
  stable untouched_by_training update_distillation.
Proof. unfold update_distillation. untouched. Qed.

Lemma untouched_train_loop (iter_1 : Z) (l : list Z) :
  forall n, stable untouched_by_training (train_loop iter_1 l n).
Proof.
  induction l as [|steps l IH]; intros n; simpl.
  - untouched.
  - unfold when, py_mod, learner_save_params.
    apply stable_bind;
      [apply untouched_trans|apply untouched_update_distillation|intros loss].
    untouched; apply IH.
Qed.

Lemma train_student_untouched (ag : Agent) :
  student (args ag) = true ->
  exists ag', final_state (train ag) = Some ag'
              /\ untouched_by_training ag ag'.
Proof.
  intros Hs. unfold train. unfold bind at 1. unfold get at 1. rewrite Hs.
  refine ((_ : stable untouched_by_training _) ag).
  unfold py_assert, when, set_wandb, py_floordiv, learner_save_params.
  untouched. apply untouched_train_loop.
Qed.

(** X6: A student training run always ends, normally or with an exception, and
    whichever way it ends it has made no file-system call of its own and has
    left the environment, the random generator, the stored samples, the fill
    level of the buffer, the temperature and the buffer's path as they were;
    the only calls it made are calls on the data loader, the optimiser, the
    learner's [save_params] and the reports. *)
Theorem student_training_frame (ag : Agent) :
  student (args ag) = true ->
  exists ag', final_state (train ag) = Some ag'
              /\ fs ag' = fs ag /\ env ag' = env ag /\ rng ag' = rng ag
              /\ option_map stored (memory ag') = option_map stored (memory ag)
              /\ option_map idx (memory ag') = option_map idx (memory ag)
              /\ softmax_tau ag' = softmax_tau ag
              /\ buffer_path ag' = buffer_path ag
              /\ exists evs, trace ag' = trace ag ++ evs
                   /\ Forall (fun e => is_training_event e = true) evs.
Proof.
  intros Hs. destruct (train_student_untouched ag Hs) as (ag' & E & H).
  exists ag'. split; [exact E|exact H].
Qed.

(** ** The augmentation pass *)

Lemma same_files_refl s : same_files s s.
Proof. unfold same_files. repeat split; reflexivity. Qed.

Lemma same_files_trans a b c : same_files a b -> same_files b c -> same_files a c.
Proof. unfold same_files. intros (?&?&?&?) (?&?&?&?). repeat split; congruence. Qed.

Lemma same_files_set_file_name_list (f : Agent -> list (string * string)) :
  stable same_files (modify (fun s => set_file_name_list (f s) s)).
Proof.
  apply stable_modify. intros s. unfold same_files. simpl.
  repeat split; reflexivity.
Qed.

Lemma files_only_refl s : files_only s s.
Proof.
  unfold files_only.
  split; [exists []; split; [symmetry; apply app_nil_r|constructor]|].
  repeat (split; [reflexivity|]).
  intros cs. left. reflexivity.
Qed.

Lemma files_only_trans a b c : files_only a b -> files_only b c -> files_only a c.
Proof.
  unfold files_only.
  intros ((l1 & L1 & P1)&Hl&?&?&?&?&D1&W1) ((l2 & L2 & P2)&?&?&?&?&?&D2&W2).
  split.
  { exists (l1 ++ l2). split; [rewrite L2, L1; symmetry; apply app_assoc|].
    apply Forall_app. split; assumption. }
  repeat (split; [congruence|]). split; intros cs.
  - rewrite D2. apply D1.
  - destruct (W2 cs) as [E2|(st & E2)].
    + rewrite E2. apply W1.
    + right. exists st. rewrite E2, Hl. reflexivity.
Qed.

Lemma files_only_set_file_name_list (f : Agent -> list (string * string)) :
  stable files_only (modify (fun s => set_file_name_list (f s) s)).
Proof.
  apply stable_modify. intros s. unfold files_only. simpl.
  split; [exists []; split; [symmetry; apply app_nil_r|constructor]|].
  repeat (split; [reflexivity|]).
  intros cs. left. reflexivity.
Qed.

Lemma files_only_progress (e : event) :
  is_progress e = true -> stable files_only (emit e).
Proof.
  intros He. apply stable_modify. intros s. unfold files_only. simpl.
  split; [exists [e]; split; [reflexivity|constructor; [exact He|constructor]]|].
  repeat (split; [reflexivity|]).
  intros cs. left. reflexivity.
Qed.

Lemma files_only_write_record (state : ndarray) (name : string) :
  stable files_only
    (bind get (fun s =>
       bind (attr save_distillation_dir) (fun out_dir =>
         bind (fs_update (fun fs =>
                 write_pickle fs (out_dir +:+ name)
                   [Some state; Some (expert_q (learner s) state)]))
              (fun _ => bind tqdm_advance (fun _ => ret false))))).
Proof.
  intros s. unfold tqdm_advance, emit, modify, fs_update, attr, bind, get.
  destruct (save_distillation_dir s) as [out_dir|]; simpl;
    [|exists s; split; [reflexivity|apply files_only_refl]].
  destruct (write_pickle (fs s) (out_dir +:+ name) _) as [e|fs'] eqn:E; simpl.
  - exists s. split; [reflexivity|apply files_only_refl].
  - eexists. split; [reflexivity|].
    unfold files_only. simpl.
    split; [exists [ProgressAdvance]; split;
              [reflexivity|constructor; [reflexivity|constructor]]|].
    repeat (split; [reflexivity|]).
    unfold write_pickle in E.
    destruct (components (out_dir +:+ name)) as [|c cs'] eqn:Ec; [discriminate|].
    match type of E with
    | context [File ?content] =>
        assert (Hfs' : fs' = <[c :: cs' := File content]> (fs s)
                       /\ fs s !! (c :: cs') <> Some Dir)
    end.
    { destruct (fs s !! (c :: cs')) as [[|x]|];
        try discriminate;
        destruct (is_dir (fs s) (parent (c :: cs'))); try discriminate;
        injection E as <-; split; (reflexivity || discriminate). }
    destruct Hfs' as [-> Hnd]. split; intros cs.
    + destruct (decide (cs = c :: cs')) as [->|Hne].
      * rewrite lookup_insert_eq. split; [discriminate|intros H; contradiction].
      * rewrite lookup_insert_ne by congruence. reflexivity.
    + destruct (decide (cs = c :: cs')) as [->|Hne].
      * right. exists state. apply lookup_insert_eq.
      * left. apply lookup_insert_ne. congruence.
Qed.

Ltac files_only :=
  unfold fs_query, tqdm_open, tqdm_close; cbv zeta;
  repeat first
    [ apply files_only_write_record
    | apply (files_only_set_file_name_list (fun _ => []))
    | apply files_only_set_file_name_list
    | apply files_only_progress; reflexivity
    | apply stable_ret; apply files_only_refl
    | apply stable_raise; apply files_only_refl
    | apply stable_get; apply files_only_refl
    | apply stable_for_in; [apply files_only_refl|apply files_only_trans|intros]
    | apply stable_bind; [apply files_only_trans| |intros]
    | match goal with
      | |- stable _ (if ?c then _ else _) => destruct c
      | |- stable _ (match ?x with _ => _ end) => destruct x
      end ].

(** X7: The augmentation pass always ends, normally or with an exception, and
    whichever way it ends the only calls it has made are calls on the
    progress bar (none on the environment, the optimiser, the buffer or the
    metrics sink); it has kept the network, the environment, the random
    generator and the buffer, and has neither created nor removed a
    directory; every file it has written or overwritten is a two-element
    record [[state, q]] in which [q] is the Q-vector of the (unchanged)
    network for [state]. *)
Theorem augmentation_pass_frame (ag : Agent) :
  student (args ag) = false ->
  add_expert_q (args ag) = true ->
  exists ag',
    final_state (train ag) = Some ag'
    /\ (exists evs, trace ag' = trace ag ++ evs
                    /\ Forall (fun e => is_progress e = true) evs)
    /\ learner ag' = learner ag /\ env ag' = env ag
    /\ rng ag' = rng ag /\ memory ag' = memory ag
    /\ (forall cs, fs ag' !! cs = Some Dir <-> fs ag !! cs = Some Dir)
    /\ (forall cs, fs ag' !! cs = fs ag !! cs
                   \/ exists state,
                        fs ag' !! cs
                        = Some (File [Some state;
                                      Some (expert_q (learner ag) state)])).
Proof.
  intros Hs Ha. unfold train. unfold bind at 1. unfold get at 1.
  rewrite Hs, Ha.
  match goal with
  | |- exists ag', final_state (?m ag) = _ /\ _ =>
      assert (H : stable files_only m) by files_only
  end.
  destruct (H ag) as (ag' & E & Ht & Hl & He & Hr & Hm & _ & Hd & Hw).
  exists ag'. repeat (split; [assumption|]). assumption.
Qed.

Ltac same_files :=
  unfold fs_query;
  repeat first
    [ apply same_files_set_file_name_list
    | apply stable_ret; apply same_files_refl
    | apply stable_raise; apply same_files_refl
    | apply stable_get; apply same_files_refl
    | apply stable_for_in; [apply same_files_refl|apply same_files_trans|intros]
    | apply stable_bind; [apply same_files_trans| |intros]
    | match goal with
      | |- stable _ (if ?c then _ else _) => destruct c
      | |- stable _ (match ?x with _ => _ end) => destruct x
      end ].

Lemma listing_fails_raises (p : string) (e : exn) (s0 s : Agent) {A}
  (k : list string -> M A) :
  os_listdir (fs s0) p = inl e -> same_files s0 s ->
  bind (fs_query (fun fs => os_listdir fs p)) k s = Raise e s.
Proof.
  intros Hl (Hfs & _). unfold fs_query, bind, get. rewrite Hfs, Hl. reflexivity.
Qed.

(** X8: The augmentation pass lists every source directory before it writes its
    first record: when a source root cannot be listed, or an entry of a
    source root cannot be listed as a directory, the pass raises and the
    file system is as it was. *)
Theorem augmentation_enumerates_before_writing (ag : Agent) (root : string)
  (e : exn) :
  student (args ag) = false ->
  add_expert_q (args ag) = true ->
  In root (iter_path (hp_buffer_path (hyper_params ag))) ->
  (os_listdir (fs ag) root = inl e
   \/ exists entries entry,
        os_listdir (fs ag) root = inr entries /\ In entry entries
        /\ os_listdir (fs ag) (episode_dir root entry) = inl e) ->
  exists e' ag', train ag = Raise e' ag' /\ fs ag' = fs ag
                 /\ trace ag' = trace ag.
Proof.
  intros Hs Ha Hin Hfail. unfold train. unfold bind at 1. unfold get at 1.
  rewrite Hs, Ha. unfold bind at 1. unfold modify at 1.
  match goal with
  | |- context [bind (for_in ?l ?body) ?K (set_file_name_list [] ag)] =>
      assert (Hr : exists e' s', for_in l body (set_file_name_list [] ag)
                                 = Raise e' s' /\ same_files ag s')
  end.
  { apply (for_in_raises same_files same_files_trans) with (x := root).
    - intros y. same_files.
    - intros y s b s' H. unfold bind in H.
      destruct (fs_query _ s); try discriminate.
      destruct (for_in _ _ _); try discriminate.
      injection H as <- _. reflexivity.
    - exact Hin.
    - intros s Hss. destruct Hfail as [Hl|(entries & entry & Hl & Hie & Hl')].
      + exists e, s. apply (listing_fails_raises _ _ ag); assumption.
      + cbv beta. unfold bind at 1. unfold fs_query at 1.
        unfold bind at 1. unfold get at 1. cbv beta.
        destruct Hss as (Hfs & Hrest). rewrite Hfs, Hl. unfold ret at 1.
        cbv beta iota.
        match goal with
        | |- context [for_in entries ?inner] =>
            assert (exists e' s', for_in entries inner s = Raise e' s'
                                  /\ same_files s s') as (e' & s' & E' & _);
            [apply (for_in_raises same_files same_files_trans)
               with (x := entry)|]
        end.
        * intros y. same_files.
        * intros y s1 b s' H. unfold bind in H.
          destruct (fs_query _ s1); try discriminate.
          injection H as <- _. reflexivity.
        * exact Hie.
        * intros s1 Hs1. exists e, s1.
          apply (listing_fails_raises _ _ s); [|exact Hs1].
          rewrite Hfs. exact Hl'.
        * apply same_files_refl.
        * exists e', s'. unfold bind at 1. rewrite E'. reflexivity.
    - unfold same_files. simpl. repeat split; reflexivity. }
  destruct Hr as (e' & s' & E' & Hfs & Htr & _).
  exists e', s'. unfold bind at 1. rewrite E'. auto.
Qed.

(** ** Directories made by [_initialize] *)

Lemma prefixes_self {A} (l : list A) : l <> [] -> In l (prefixes l).
Proof.
  induction l as [|x l IH]; [congruence|]. intros _. simpl.
  destruct l as [|y l]; [left; reflexivity|right].
  apply in_map. apply IH. discriminate.
Qed.

Lemma makedirs_fold (l : list (list string)) :
  forall m : gmap (list string) node,
    let m' := fold_left (fun m q => match m !! q with
                                    | Some _ => m
                                    | None => <[q := Dir]> m
                                    end) l m in
    (forall k, m' !! k = m !! k \/ (m !! k = None /\ m' !! k = Some Dir))
    /\ (forall q, In q l -> m' !! q <> None).
Proof.
  induction l as [|a l IH]; intros m; simpl.
  - split; [intros k; left; reflexivity|intros q []].
  - set (m1 := match m !! a with Some _ => m | None => <[a := Dir]> m end).
    destruct (IH m1) as [Hk Hq].
    assert (H1 : forall k, m1 !! k = m !! k
                           \/ (m !! k = None /\ m1 !! k = Some Dir)).
    { intros k. unfold m1. destruct (m !! a) eqn:Ea; [left; reflexivity|].
      destruct (decide (k = a)) as [->|Hne].
      - right. rewrite lookup_insert_eq. auto.
      - left. apply lookup_insert_ne. congruence. }
    assert (Ha : m1 !! a <> None).
    { unfold m1. destruct (m !! a) eqn:Ea; [congruence|].
      rewrite lookup_insert_eq. discriminate. }
    split.
    + intros k. destruct (Hk k) as [E|[E1 E2]], (H1 k) as [E'|[E1' E2']].
      * left. congruence.
      * right. split; congruence.
      * right. split; congruence.
      * congruence.
    + intros q [<-|Hin]; [|apply Hq; exact Hin].
      destruct (Hk a) as [E|[E1 E2]]; congruence.
Qed.

Lemma os_makedirs_exists (fs0 : gmap (list string) node) (p : string) :
  path_exists fs0 p = true -> os_makedirs fs0 p false = inl FileExistsError.
Proof. intros H. unfold os_makedirs. rewrite H. reflexivity. Qed.

Lemma os_makedirs_makes (fs0 : gmap (list string) node) (p : string)
  (exist_ok : bool) :
  no_file_on_path fs0 p = true ->
  exist_ok = true \/ path_exists fs0 p = false ->
  exists fs', os_makedirs fs0 p exist_ok = inr fs'
              /\ is_dir fs' (components p) = true
              /\ extends fs0 fs'
              /\ (forall cs, fs' !! cs = fs0 !! cs \/ fs' !! cs = Some Dir).
Proof.
  intros Hnf Hok. unfold os_makedirs.
  destruct (path_exists fs0 p) eqn:Hex.
  - destruct Hok as [->|]; [|discriminate].
    assert (Hd : is_dir fs0 (components p) = true).
    { unfold path_exists in Hex. unfold is_dir.
      destruct (components p) as [|c cs] eqn:Ec; [reflexivity|].
      unfold no_file_on_path in Hnf. rewrite Ec in Hnf.
      rewrite forallb_forall in Hnf.
      specialize (Hnf (c :: cs) (prefixes_self (c :: cs) ltac:(discriminate))).
      destruct (fs0 !! (c :: cs)) as [[|x]|]; congruence. }
    rewrite Hd. simpl. exists fs0. split; [reflexivity|]. split; [exact Hd|].
    split; [intros cs n H; exact H|intros cs; left; reflexivity].
  - unfold no_file_on_path in Hnf. rewrite Hnf.
    eexists. split; [reflexivity|].
    destruct (makedirs_fold (prefixes (components p)) fs0) as [Hk Hq].
    split; [|split].
    + unfold is_dir. destruct (components p) as [|c cs] eqn:Ec; [reflexivity|].
      unfold path_exists in Hex. rewrite Ec in Hex.
      specialize (Hq (c :: cs) (prefixes_self (c :: cs) ltac:(discriminate))).
      destruct (Hk (c :: cs)) as [E|[_ E]].
      * destruct (fs0 !! (c :: cs)); [discriminate|]. congruence.
      * rewrite E. reflexivity.
    + intros cs n H. destruct (Hk cs) as [E|[E _]]; congruence.
    + intros cs. destruct (Hk cs) as [E|[_ E]]; auto.
Qed.

Lemma test_mode_flags (a : Args) :
  mode_sum a = 1 -> test a = true ->
  teacher a = false /\ student a = false /\ add_expert_q a = false.
Proof.
  unfold mode_sum. intros H Ht. rewrite Ht in H.
  destruct (teacher a), (student a), (add_expert_q a); simpl in H;
    try lia; auto.
Qed.

Lemma initialize_collection_spec (ag : Agent) :
  mode_sum (args ag) = 1 ->
  test (args ag) = true ->
  no_file_on_path (fs ag) (collection_buffer_path ag) = true ->
  exists fs',
    os_makedirs (fs ag) (collection_buffer_path ag) true = inr fs'
    /\ is_dir fs' (components (collection_buffer_path ag)) = true
    /\ extends (fs ag) fs'
    /\ _initialize ag
       = Ret tt
           (set_memory
              (Some (new_DistillationBuffer fs' (batch_size (hyper_params ag))
                       (PStr (collection_buffer_path ag))
                       (curr_time (log_cfg ag))))
              (set_fs fs'
                 (set_buffer_path (Some (PStr (collection_buffer_path ag)))
                    (set_learner (build_learner (learner_cfg ag))
                       (set_softmax_tau (Some (float_lit (1 # 100))) ag))))).
Proof.
  intros Hsum Htest Hnf.
  destruct (test_mode_flags _ Hsum Htest) as (Hte & Hst & Had).
  destruct (os_makedirs_makes (fs ag) (collection_buffer_path ag) true Hnf)
    as (fs' & Hmk & Hd & Hext & _); [left; reflexivity|].
  exists fs'. split; [exact Hmk|]. split; [exact Hd|]. split; [exact Hext|].
  unfold _initialize. unfold bind at 1. unfold get at 1. cbv beta.
  unfold py_assert. rewrite (proj2 (Z.eqb_eq _ _) Hsum).
  unfold bind at 1. unfold ret at 1. cbv beta iota.
  rewrite Hst, Htest. cbv beta iota.
  unfold collection_buffer_path in *.
  destruct (truthy (distillation_buffer_path (args ag))) eqn:Et;
    match type of Hmk with
    | os_makedirs _ ?p _ = _ => set (path := p) in *
    end;
    unfold when, modify, attr, fs_update, bind, get, ret, raise; simpl;
    rewrite Hmk; reflexivity.
Qed.

(** X9: In test mode [_initialize] gives the agent the temperature 0.01, a
    freshly built network and an empty buffer, and makes the buffer's
    directory (the one given on the command line or else the default one),
    tolerating that it exists and keeping every file already there; all it
    needs is that no regular file sits on the directory's path. *)
Theorem initialize_prepares_collection (ag : Agent) :
  mode_sum (args ag) = 1 ->
  test (args ag) = true ->
  no_file_on_path (fs ag) (collection_buffer_path ag) = true ->
  exists ag' b,
    _initialize ag = Ret tt ag'
    /\ pure_collection (args ag') = true
    /\ hyper_params ag' = hyper_params ag
    /\ memory ag' = Some b /\ idx b = 0 /\ stored b = []
    /\ db_batch_size b = batch_size (hyper_params ag)
    /\ buffer_path ag' = Some (PStr (collection_buffer_path ag))
    /\ is_dir (fs ag') (components (collection_buffer_path ag)) = true
    /\ extends (fs ag) (fs ag')
    /\ softmax_tau ag' = Some (float_lit (1 # 100))
    /\ learner ag' = build_learner (learner_cfg ag)
    /\ trace ag' = trace ag.
Proof.
  intros Hsum Htest Hnf.
  destruct (test_mode_flags _ Hsum Htest) as (Hte & Hst & Had).
  destruct (initialize_collection_spec ag Hsum Htest Hnf)
    as (fs' & _ & Hd & Hext & Hrun).
  eexists _, _. split; [exact Hrun|]. simpl.
  split; [unfold pure_collection; rewrite Htest, Hte, Hst; reflexivity|].
  repeat (split; [reflexivity || assumption|]). reflexivity.
Qed.

(** X10: A collection pass from scratch: [_initialize] followed by [_test], on an
    agent configured for test mode alone, returns; the buffer then holds
    exactly the Transition Samples appended, as many as the environment
    steps taken and [min(buffer_size, steps taken)] of them, each pairing a
    state with the Q-vector of the network that [_initialize] built. *)
Theorem initialize_then_collect (fuel : nat) (interim_test : bool) (ag : Agent) :
  mode_sum (args ag) = 1 ->
  test (args ag) = true ->
  no_file_on_path (fs ag) (collection_buffer_path ag) = true ->
  0 <= buffer_size (hyper_params ag) ->
  (Z.to_nat (buffer_size (hyper_params ag)) < fuel)%nat ->
  exists ag' b' evs,
    bind _initialize (fun _ => _test fuel interim_test) ag = Ret tt ag'
    /\ memory ag' = Some b'
    /\ trace ag' = trace ag ++ evs
    /\ stored b' = added evs
    /\ Z.of_nat (length (stored b'))
       = Z.min (buffer_size (hyper_params ag)) (Z.of_nat (env_steps evs))
    /\ Forall (fun d : sample =>
                 snd d = Some (q_vector (build_learner (learner_cfg ag)) (fst d)))
              (stored b').
Proof.
  intros Hsum Htest Hnf Hcap Hfuel.
  destruct (test_mode_flags _ Hsum Htest) as (Hte & Hst & Had).
  destruct (initialize_collection_spec ag Hsum Htest Hnf)
    as (fs' & _ & Hd & Hext & Hrun).
  match type of Hrun with _ = Ret tt ?s => set (ag1 := s) in * end.
  set (b := new_DistillationBuffer fs' (batch_size (hyper_params ag))
              (PStr (collection_buffer_path ag)) (curr_time (log_cfg ag))).
  destruct (collect_run_spec fuel (range (test_num interim_test (args ag1)))
              (PStr (collection_buffer_path ag)) ag1 b)
    as (ag' & b' & evs & Hrun2 & Hc & Hle & Htr & _).
  { unfold pure_collection. simpl. rewrite Htest, Hte, Hst. reflexivity. }
  { reflexivity. }
  { reflexivity. }
  { simpl. exact Hcap. }
  { simpl. replace (buffer_size (hyper_params ag) - 0)
      with (buffer_size (hyper_params ag)) by lia. exact Hfuel. }
  destruct Hc as (Hcfg & Hm' & Ht' & Hs' & Hi' & Hq).
  simpl in Hs', Hi', Ht', Hq, Hle, Htr.
  exists ag', b', evs.
  split.
  { unfold bind at 1. rewrite Hrun. unfold _test, bind, get.
    change (teacher (args ag1)) with (teacher (args ag)). rewrite Hte.
    exact Hrun2. }
  split; [exact Hm'|]. split; [exact Ht'|]. split; [exact Hs'|].
  pose proof (run_trace_steps _ _ _ Htr) as Hsteps.
  split; [rewrite Hs', Hsteps; lia|].
  rewrite Hs'. exact Hq.
Qed.

(** X11: In teacher mode and in augmentation mode [_initialize] makes the dump
    directory named after the environment and the clock, after the base
    agent's own initialisation, and does not tolerate that it exists: then
    it raises [FileExistsError], with the record counter left unset and the
    file system as the base initialisation left it.  When nothing is at the
    dump path and no regular file sits on the way, it returns with the
    directory made, the counter at 0 and every earlier file kept. *)
Theorem initialize_dump_dir_must_be_fresh (ag s1 : Agent) :
  mode_sum (args ag) = 1 ->
  student (args ag) = false ->
  test (args ag) = false ->
  DQNAgent__initialize ag = Ret tt s1 ->
  (path_exists (fs s1) (teacher_dump_dir s1) = true ->
   exists ag', _initialize ag = Raise FileExistsError ag'
               /\ fs ag' = fs s1 /\ save_count ag' = save_count s1
               /\ save_distillation_dir ag' = Some (teacher_dump_dir s1))
  /\ (path_exists (fs s1) (teacher_dump_dir s1) = false ->
      no_file_on_path (fs s1) (teacher_dump_dir s1) = true ->
      exists ag', _initialize ag = Ret tt ag'
                  /\ save_distillation_dir ag' = Some (teacher_dump_dir s1)
                  /\ save_count ag' = Some 0
                  /\ is_dir (fs ag') (components (teacher_dump_dir s1)) = true
                  /\ extends (fs s1) (fs ag')).
Proof.
  intros Hsum Hst Hte Hbase.
  assert (Hrun : _initialize ag
                 = bind (fs_update (fun fs => os_makedirs fs (teacher_dump_dir s1) false))
                     (fun _ => modify (set_save_count (Some 0)))
                     (set_save_distillation_dir (Some (teacher_dump_dir s1)) s1)).
  { unfold _initialize. unfold bind at 1. unfold get at 1. cbv beta.
    unfold py_assert. rewrite (proj2 (Z.eqb_eq _ _) Hsum).
    unfold bind at 1. unfold ret at 1. cbv beta iota.
    rewrite Hst, Hte. cbn [orb]. cbv beta iota.
    unfold bind at 1. rewrite Hbase.
    unfold bind at 1. unfold get at 1. cbv beta.
    unfold bind at 1. unfold modify at 1. reflexivity. }
  rewrite Hrun. split.
  - intros Hex. eexists. unfold fs_update, bind, get. simpl.
    rewrite (os_makedirs_exists _ _ Hex). unfold raise.
    split; [reflexivity|]. simpl. auto.
  - intros Hex Hnf.
    destruct (os_makedirs_makes (fs s1) (teacher_dump_dir s1) false Hnf)
      as (fs' & Hmk & Hd & Hext & _); [right; exact Hex|].
    eexists. unfold fs_update, bind, get, modify. simpl. rewrite Hmk.
    split; [reflexivity|]. simpl. auto.
Qed.

(** ** A student run from scratch *)

Lemma student_mode_flags (a : Args) :
  mode_sum a = 1 -> student a = true ->
  teacher a = false /\ add_expert_q a = false /\ test a = false.
Proof.
  unfold mode_sum. intros H Ht. rewrite Ht in H.
  destruct (teacher a), (add_expert_q a), (test a); simpl in H;
    try lia; auto.
Qed.

Lemma initialize_student_spec (ag : Agent) :
  mode_sum (args ag) = 1 ->
  student (args ag) = true ->
  _initialize ag
  = Ret tt
      (set_memory
         (Some (new_DistillationBuffer (fs ag) (batch_size (hyper_params ag))
                  (hp_buffer_path (hyper_params ag)) (curr_time (log_cfg ag))))
         (set_buffer_path (Some (hp_buffer_path (hyper_params ag)))
            (set_learner (build_learner (learner_cfg ag))
               (set_softmax_tau (Some (float_lit (1 # 100))) ag)))).
Proof.
  intros Hsum Hst.
  unfold _initialize. unfold bind at 1. unfold get at 1. cbv beta.
  unfold py_assert. rewrite (proj2 (Z.eqb_eq _ _) Hsum).
  unfold bind at 1. unfold ret at 1. cbv beta iota.
  rewrite Hst. cbn [orb negb]. cbv beta iota.
  unfold when, modify, attr, bind, get, ret. simpl. reflexivity.
Qed.

(** X12: A student run from scratch: [_initialize] followed by [train], on an
    agent configured for student mode alone.  [_initialize] makes no
    directory and takes the buffer's path from the hyper-parameters; when
    the buffer it builds holds at least one batch and one epoch or more is
    asked for, the run returns after [buffer_size // batch_size * epochs]
    optimiser updates, with the temperature at 0.01 and without a
    file-system call of its own (checkpoints are the learner's). *)
Theorem initialize_then_train (ag : Agent) :
  mode_sum (args ag) = 1 ->
  student (args ag) = true ->
  let b := new_DistillationBuffer (fs ag) (batch_size (hyper_params ag))
             (hp_buffer_path (hyper_params ag)) (curr_time (log_cfg ag)) in
  0 < batch_size (hyper_params ag) <= db_buffer_size b ->
  0 < epochs (hyper_params ag) ->
  exists ag' evs,
    bind _initialize (fun _ => train) ag = Ret tt ag'
    /\ trace ag' = trace ag ++ evs
    /\ optimizer_steps evs
       = Z.to_nat (db_buffer_size b / batch_size (hyper_params ag)
                   * epochs (hyper_params ag))
    /\ fs ag' = fs ag
    /\ softmax_tau ag' = Some (float_lit (1 # 100))
    /\ buffer_path ag' = Some (hp_buffer_path (hyper_params ag)).
Proof.
  intros Hsum Hst b Hbs Hep.
  pose proof (initialize_student_spec ag Hsum Hst) as Hinit.
  fold b in Hinit.
  match type of Hinit with _ = Ret tt ?s => set (ag1 := s) in * end.
  destruct (train_student_spec ag1 b (float_lit (1 # 100)))
    as (ag' & evs & Hrun & Ht & _ & _ & Ho & _);
    try assumption; try reflexivity.
  destruct (train_student_untouched ag1 Hst) as (ag2 & E & Hu).
  rewrite Hrun in E. injection E as <-.
  destruct Hu as (Hfs & _ & _ & _ & _ & Htau & Hbp & _).
  exists ag', evs.
  split; [unfold bind at 1; rewrite Hinit; exact Hrun|].
  split; [exact Ht|]. split; [exact Ho|].
  split; [rewrite Hfs; reflexivity|].
  split; [rewrite Htau; reflexivity|].
  rewrite Hbp. reflexivity.
Qed.

(** ** Paths *)

Lemma append_cons (x : ascii) (a b : string) :
  String x a +:+ b = String x (a +:+ b).
Proof. reflexivity. Qed.

Lemma append_nil_l (b : string) : "" +:+ b = b.
Proof. reflexivity. Qed.

Lemma append_assoc (a b c : string) : (a +:+ b) +:+ c = a +:+ (b +:+ c).
Proof.
  induction a as [|x a IH]; [reflexivity|].
  rewrite !append_cons, IH. reflexivity.
Qed.

Lemma append_nil_r (a : string) : a +:+ "" = a.
Proof.
  induction a as [|x a IH]; [reflexivity|]. rewrite append_cons, IH. reflexivity.
Qed.

Lemma no_slash_app (a b : string) :
  no_slash a = true -> no_slash b = true -> no_slash (a +:+ b) = true.
Proof.
  intros Ha Hb. induction a as [|x a IH]; [exact Hb|].
  rewrite append_cons. simpl in *.
  apply andb_true_iff in Ha. destruct Ha as [Hx Ha].
  rewrite Hx, (IH Ha). reflexivity.
Qed.

Lemma split_slash_app (a b : string) :
  forall cur, split_slash (a +:+ String "/" b) cur
              = split_slash a cur ++ split_slash b "".
Proof.
  induction a as [|x a IH]; intros cur; [reflexivity|].
  rewrite append_cons. simpl.
  destruct (Ascii.eqb x "/"); [rewrite IH; reflexivity|apply IH].
Qed.

Lemma split_slash_no_slash (s : string) :
  forall cur, no_slash s = true -> split_slash s cur = [cur +:+ s].
Proof.
  induction s as [|x s IH]; intros cur H; simpl in *.
  - rewrite append_nil_r. reflexivity.
  - apply andb_true_iff in H. destruct H as [Hx Hs].
    destruct (Ascii.eqb x "/"); [discriminate|].
    rewrite (IH _ Hs), append_assoc. reflexivity.
Qed.

Lemma components_app_slash (a b : string) :
  components (a +:+ String "/" b) = components a ++ components b.
Proof. unfold components. rewrite split_slash_app. apply List.filter_app. Qed.

(** A file name: no separator, and a first character other than the dot. *)
Lemma components_name (c : ascii) (rest : string) :
  c <> "/"%char -> c <> "."%char -> no_slash rest = true ->
  components (String c rest) = [String c rest].
Proof.
  intros Hs Hd Hr. unfold components.
  rewrite split_slash_no_slash.
  - simpl. apply Ascii.eqb_neq in Hd. rewrite Hd. reflexivity.
  - simpl. apply Ascii.eqb_neq in Hs. rewrite Hs, Hr. reflexivity.
Qed.

Lemma no_slash_uint (d : Decimal.uint) :
  no_slash (NilEmpty.string_of_uint d) = true.
Proof. induction d; simpl; auto. Qed.

Lemma str_of_Z_head (z : Z) :
  exists c rest, str_of_Z z = String c rest
                 /\ c <> "/"%char /\ c <> "."%char /\ no_slash rest = true.
Proof.
  unfold str_of_Z, NilZero.string_of_int.
  destruct (Z.to_int z) as [d|d].
  - destruct d; simpl; eexists _, _;
      (split; [reflexivity|]); (split; [discriminate|]);
      (split; [discriminate|]); try reflexivity; apply no_slash_uint.
  - eexists _, _. split; [reflexivity|]. split; [discriminate|].
    split; [discriminate|].
    destruct d; simpl; try reflexivity; apply no_slash_uint.
Qed.

Lemma str_of_Z_inj (a b : Z) : str_of_Z a = str_of_Z b -> a = b.
Proof.
  assert (Hnil : forall z, Z.to_int z <> Decimal.Pos Decimal.Nil
                           /\ Z.to_int z <> Decimal.Neg Decimal.Nil).
  { intros z. split; intros E; pose proof (DecimalZ.of_to z) as H;
      rewrite E in H; simpl in H; subst z; vm_compute in E; discriminate. }
  unfold str_of_Z. intros E.
  apply (f_equal NilZero.int_of_string) in E.
  rewrite !NilZero.isi in E by apply Hnil.
  injection E as E. apply DecimalZ.to_int_inj. exact E.
Qed.

Lemma components_episode_path (base : string) (i : Z) :
  components (episode_path (base +:+ "/") i) = components base ++ [str_of_Z i].
Proof.
  unfold episode_path. rewrite append_assoc.
  change ("/" +:+ (str_of_Z i +:+ "/")) with (String "/" (str_of_Z i +:+ "/")).
  rewrite components_app_slash.
  change (str_of_Z i +:+ "/") with (str_of_Z i +:+ String "/" "").
  rewrite components_app_slash.
  destruct (str_of_Z_head i) as (c & rest & -> & Hs & Hd & Hr).
  rewrite (components_name c rest Hs Hd Hr). reflexivity.
Qed.

Lemma components_record_path (base : string) (i n : Z) :
  components (record_path (base +:+ "/") i n)
  = components base ++ [str_of_Z i; str_of_Z n +:+ ".pkl"].
Proof.
  unfold record_path. rewrite append_nil_r, append_assoc.
  change ("/" +:+ ?x) with (String "/" x).
  rewrite components_app_slash.
  change (str_of_Z i +:+ "/" +:+ str_of_Z n +:+ ".pkl")
    with (str_of_Z i +:+ String "/" (str_of_Z n +:+ ".pkl")).
  rewrite components_app_slash.
  destruct (str_of_Z_head i) as (c & rest & -> & Hs & Hd & Hr).
  rewrite (components_name c rest Hs Hd Hr).
  destruct (str_of_Z_head n) as (c' & rest' & -> & Hs' & Hd' & Hr').
  change (String c' rest' +:+ ".pkl") with (String c' (rest' +:+ ".pkl")).
  rewrite (components_name c' (rest' +:+ ".pkl") Hs' Hd').
  - reflexivity.
  - apply no_slash_app; [exact Hr'|reflexivity].
Qed.

(** ** The records a teacher run dumps *)

Lemma path_exists_components (fs0 : gmap (list string) node) (p : string) :
  components p <> [] ->
  path_exists fs0 p = match fs0 !! components p with
                      | Some _ => true
                      | None => false
                      end.
Proof. intros H. unfold path_exists. destruct (components p); congruence. Qed.

Lemma is_dir_lookup (fs0 : gmap (list string) node) (cs : list string) :
  fs0 !! cs = Some Dir -> is_dir fs0 cs = true.
Proof. intros H. unfold is_dir. rewrite H. destruct cs; reflexivity. Qed.

Lemma os_mkdir_fresh (fs0 : gmap (list string) node) (p : string) :
  components p <> [] ->
  fs0 !! components p = None ->
  is_dir fs0 (parent (components p)) = true ->
  os_mkdir fs0 p = inr (<[components p := Dir]> fs0).
Proof.
  intros Hne Hno Hd. unfold os_mkdir.
  rewrite (path_exists_components _ _ Hne), Hno, Hd. reflexivity.
Qed.

Lemma write_pickle_ok (fs0 : gmap (list string) node) (p : string)
  (content : pickled) :
  components p <> [] ->
  fs0 !! components p <> Some Dir ->
  is_dir fs0 (parent (components p)) = true ->
  write_pickle fs0 p content = inr (<[components p := File content]> fs0).
Proof.
  intros Hne Hnd Hd. unfold write_pickle.
  destruct (components p) as [|c cs] eqn:E; [congruence|].
  rewrite Hd. destruct (fs0 !! (c :: cs)) as [[|x]|]; congruence.
Qed.

Lemma read_pickle_written (fs0 : gmap (list string) node) (p : string)
  (content : pickled) :
  components p <> [] ->
  read_pickle (<[components p := File content]> fs0) p = inr content.
Proof.
  intros Hne. unfold read_pickle.
  destruct (components p) as [|c cs] eqn:E; [congruence|].
  rewrite lookup_insert_eq. reflexivity.
Qed.

Lemma read_pickle_same (fs0 fs1 : gmap (list string) node) (p : string) :
  fs1 !! components p = fs0 !! components p ->
  read_pickle fs1 p = read_pickle fs0 p.
Proof.
  intros H. unfold read_pickle. destruct (components p); [reflexivity|].
  rewrite H. reflexivity.
Qed.

Lemma components_dir (base : string) :
  components (base +:+ "/") = components base.
Proof.
  change (base +:+ "/") with (base +:+ String "/" "").
  rewrite components_app_slash. apply app_nil_r.
Qed.

Lemma components_record_episode (base : string) (i n : Z) :
  components (record_path (base +:+ "/") i n)
  = components (episode_path (base +:+ "/") i) ++ [str_of_Z n +:+ ".pkl"].
Proof.
  rewrite components_record_path, components_episode_path, <- app_assoc.
  reflexivity.
Qed.

Lemma record_not_episode (base : string) (i n i' : Z) :
  components (record_path (base +:+ "/") i n)
  <> components (episode_path (base +:+ "/") i').
Proof.
  rewrite components_record_path, components_episode_path.
  intros E. apply (f_equal (@length string)) in E.
  rewrite !length_app in E. simpl in E. lia.
Qed.

Lemma length_append (a b : string) :
  String.length (a +:+ b) = (String.length a + String.length b)%nat.
Proof.
  induction a as [|x a IH]; [reflexivity|].
  rewrite append_cons. simpl. rewrite IH. reflexivity.
Qed.

Lemma append_inj_suffix (s a b : string) : a +:+ s = b +:+ s -> a = b.
Proof.
  revert b. induction a as [|x a IH]; intros [|y b] E.
  - reflexivity.
  - apply (f_equal String.length) in E.
    rewrite append_nil_l, append_cons in E. simpl in E.
    rewrite length_append in E. lia.
  - apply (f_equal String.length) in E.
    rewrite append_nil_l, append_cons in E. simpl in E.
    rewrite length_append in E. lia.
  - rewrite !append_cons in E. injection E as -> E.
    rewrite (IH b E). reflexivity.
Qed.

Lemma record_path_inj (base : string) (i n i' n' : Z) :
  components (record_path (base +:+ "/") i n)
  = components (record_path (base +:+ "/") i' n') ->
  i = i' /\ n = n'.
Proof.
  rewrite !components_record_path. intros E.
  apply app_inv_head in E. injection E as Ei En.
  split; [apply str_of_Z_inj; exact Ei|].
  apply str_of_Z_inj. apply (append_inj_suffix ".pkl"). exact En.
Qed.

Lemma select_action_teacher_spec (state : ndarray) (ag : Agent) (base : string)
  (n : Z) :
  teacher (args ag) = true ->
  save_distillation_dir ag = Some (base +:+ "/") ->
  save_count ag = Some n ->
  is_dir (fs ag) (components (base +:+ "/")) = true ->
  (forall c, fs ag !! components (episode_path (base +:+ "/") (i_episode ag))
             <> Some (File c)) ->
  fs ag !! components (record_path (base +:+ "/") (i_episode ag) n) <> Some Dir ->
  select_action state false ag
  = bind (DQNAgent_select_action state) (fun a => ret (Act a))
      (set_save_count (Some (n + 1))
         (set_fs (with_record (fs ag) (base +:+ "/") (i_episode ag) n state) ag)).
Proof.
  intros Ht Hdir Hn Hbase Hep Hrec.
  assert (Hene : components (episode_path (base +:+ "/") (i_episode ag)) <> []).
  { rewrite components_episode_path. intros E. symmetry in E.
    exact (app_cons_not_nil _ _ _ E). }
  assert (Hrne : components (record_path (base +:+ "/") (i_episode ag) n) <> []).
  { rewrite components_record_episode. intros E. symmetry in E.
    exact (app_cons_not_nil _ _ _ E). }
  assert (Hpar : parent (components (episode_path (base +:+ "/") (i_episode ag)))
                 = components (base +:+ "/")).
  { rewrite components_episode_path, components_dir.
    unfold parent. apply removelast_last. }
  assert (Hpar' : parent (components (record_path (base +:+ "/") (i_episode ag) n))
                  = components (episode_path (base +:+ "/") (i_episode ag))).
  { rewrite components_record_episode. unfold parent. apply removelast_last. }
  pose proof (record_not_episode base (i_episode ag) n (i_episode ag)) as Hdiff.
  unfold select_action. unfold bind at 1. unfold get at 1. cbv beta.
  rewrite Ht. cbv beta iota.
  unfold attr, when, fs_update, modify, bind, get, ret, raise; simpl.
  rewrite Hdir.
  change ((base +:+ "/") +:+ str_of_Z (i_episode ag) +:+ "/")
    with (episode_path (base +:+ "/") (i_episode ag)).
  unfold with_record.
  rewrite (path_exists_components _ _ Hene).
  destruct (fs ag !! components (episode_path (base +:+ "/") (i_episode ag)))
    as [[|c]|] eqn:El; simpl.
  - rewrite Hn.
    change ((base +:+ "/") +:+
            (str_of_Z (i_episode ag) +:+ "/" +:+ str_of_Z n +:+ ".pkl") +:+ "")
      with (record_path (base +:+ "/") (i_episode ag) n).
    rewrite write_pickle_ok; [reflexivity|exact Hrne|exact Hrec|].
    rewrite Hpar'. apply is_dir_lookup. exact El.
  - exfalso. exact (Hep c eq_refl).
  - rewrite os_mkdir_fresh; [|exact Hene|exact El|rewrite Hpar; exact Hbase].
    simpl. rewrite Hn.
    change ((base +:+ "/") +:+
            (str_of_Z (i_episode ag) +:+ "/" +:+ str_of_Z n +:+ ".pkl") +:+ "")
      with (record_path (base +:+ "/") (i_episode ag) n).
    rewrite write_pickle_ok; [reflexivity|exact Hrne| |].
    + simpl. rewrite lookup_insert_ne by congruence. exact Hrec.
    + simpl. rewrite Hpar'. apply is_dir_lookup. apply lookup_insert_eq.
Qed.

(** X13: While the teacher is trained, [select_action] dumps the state it is
    given before it delegates to the base agent: it makes the directory of
    the current episode under the dump directory unless it is there, writes
    the one-element list [[state]] to the file [<save_count>.pkl] in it,
    adds one to [save_count], and only then calls the base [select_action],
    whose action it returns.  The record can be read back, and nothing else
    in the file system has changed. *)
Theorem teacher_select_action_records (state : ndarray) (ag : Agent)
  (base : string) (n : Z) :
  teacher (args ag) = true ->
  save_distillation_dir ag = Some (base +:+ "/") ->
  save_count ag = Some n ->
  is_dir (fs ag) (components (base +:+ "/")) = true ->
  (forall c, fs ag !! components (episode_path (base +:+ "/") (i_episode ag))
             <> Some (File c)) ->
  fs ag !! components (record_path (base +:+ "/") (i_episode ag) n) <> Some Dir ->
  exists fs',
    select_action state false ag
    = bind (DQNAgent_select_action state) (fun a => ret (Act a))
        (set_save_count (Some (n + 1)) (set_fs fs' ag))
    /\ read_pickle fs' (record_path (base +:+ "/") (i_episode ag) n)
       = inr [Some state]
    /\ is_dir fs' (components (episode_path (base +:+ "/") (i_episode ag))) = true
    /\ (forall cs,
          cs <> components (episode_path (base +:+ "/") (i_episode ag)) ->
          cs <> components (record_path (base +:+ "/") (i_episode ag) n) ->
          fs' !! cs = fs ag !! cs).
Proof.
  intros Ht Hdir Hn Hbase Hep Hrec.
  exists (with_record (fs ag) (base +:+ "/") (i_episode ag) n state).
  split; [apply select_action_teacher_spec; assumption|].
  pose proof (record_not_episode base (i_episode ag) n (i_episode ag)) as Hdiff.
  unfold with_record. split; [|split].
  - apply read_pickle_written. rewrite components_record_episode.
    intros E. symmetry in E. exact (app_cons_not_nil _ _ _ E).
  - apply is_dir_lookup. rewrite lookup_insert_ne by congruence.
    destruct (fs ag !! components (episode_path (base +:+ "/") (i_episode ag)))
      as [[|c]|] eqn:El.
    + exact El.
    + exfalso. exact (Hep c eq_refl).
    + apply lookup_insert_eq.
  - intros cs H1 H2. rewrite lookup_insert_ne by congruence.
    destruct (fs ag !! components (episode_path (base +:+ "/") (i_episode ag)));
      [reflexivity|].
    apply lookup_insert_ne. congruence.
Qed.

(** X14: The records of a teacher run do not overwrite each other: a dump under
    the counter [n] leaves the record of every other counter, of whatever
    episode, as it was; and the counter it leaves is [n + 1]. *)
Theorem teacher_records_are_kept (state : ndarray) (ag : Agent)
  (base : string) (n i' n' : Z) :
  teacher (args ag) = true ->
  save_distillation_dir ag = Some (base +:+ "/") ->
  save_count ag = Some n ->
  is_dir (fs ag) (components (base +:+ "/")) = true ->
  (forall c, fs ag !! components (episode_path (base +:+ "/") (i_episode ag))
             <> Some (File c)) ->
  fs ag !! components (record_path (base +:+ "/") (i_episode ag) n) <> Some Dir ->
  n' <> n ->
  exists ag1,
    select_action state false ag
    = bind (DQNAgent_select_action state) (fun a => ret (Act a)) ag1
    /\ save_count ag1 = Some (n + 1)
    /\ read_pickle (fs ag1) (record_path (base +:+ "/") i' n')
       = read_pickle (fs ag) (record_path (base +:+ "/") i' n').
Proof.
  intros Ht Hdir Hn Hbase Hep Hrec Hne.
  eexists. split; [apply select_action_teacher_spec; eassumption|].
  split; [reflexivity|]. simpl.
  apply read_pickle_same. unfold with_record.
  rewrite lookup_insert_ne.
  - destruct (fs ag !! components (episode_path (base +:+ "/") (i_episode ag)));
      [reflexivity|].
    apply lookup_insert_ne. intros E. symmetry in E.
    exact (record_not_episode base i' n' (i_episode ag) E).
  - intros E. apply record_path_inj in E. destruct E as [_ E]. congruence.
Qed.

(** ** [select_action] outside teacher mode *)

(** X15: Outside teacher mode [select_action] never raises and does not look at
    its [is_test] argument: whether it explores is decided by the [test]
    flag of the configuration.  It caches the state, and the Q-vector it
    returns is always the network's, whether the action is the greedy one
    or a random one.  In test mode the action is the greedy one and neither
    the random generator nor the environment is touched; otherwise exactly
    one random number is drawn, and the action space is sampled just when
    [epsilon] exceeds it. *)
Theorem select_action_epsilon_greedy (state : ndarray) (is_test : bool)
  (ag : Agent) :
  teacher (args ag) = false ->
  select_action state is_test ag = select_action state (negb is_test) ag
  /\ exists a ag',
       select_action state is_test ag
       = Ret (ActQ a (q_vector (learner ag) state)) ag'
       /\ curr_state ag' = state /\ learner ag' = learner ag
       /\ memory ag' = memory ag /\ fs ag' = fs ag /\ trace ag' = trace ag
       /\ (test (args ag) = true ->
           a = t_argmax_numpy (dqn (learner ag) (_preprocess_state state))
           /\ rng ag' = rng ag /\ env ag' = env ag)
       /\ (test (args ag) = false ->
           rng ag' = fst (np_random_random (rng ag))
           /\ if float_gt (epsilon ag) (snd (np_random_random (rng ag)))
              then a = snd (action_space_sample (env ag))
                   /\ env ag' = fst (action_space_sample (env ag))
              else a = t_argmax_numpy (dqn (learner ag) (_preprocess_state state))
                   /\ env ag' = env ag).
Proof.
  intros Ht. split.
  { unfold select_action, bind, get. rewrite Ht. reflexivity. }
  unfold select_action. unfold bind at 1. unfold get at 1. cbv beta.
  rewrite Ht. cbv beta iota zeta.
  destruct (test (args ag)) eqn:Etest.
  - eexists _, _. split; [run; reflexivity|]. simpl.
    repeat (split; [reflexivity|]).
    split; [intros _; auto|discriminate].
  - unfold call_np_random_random, call_action_space_sample.
    unfold modify, bind, get, ret. simpl.
    destruct (np_random_random (rng ag)) as [g x] eqn:Er. simpl.
    destruct (float_gt (epsilon ag) x) eqn:Eg; simpl.
    + destruct (action_space_sample (env ag)) as [e a] eqn:Ea. simpl.
      eexists _, _. split; [reflexivity|]. simpl.
      repeat (split; [reflexivity|]).
      split; [discriminate|intros _; auto].
    + eexists _, _. split; [reflexivity|]. simpl.
      repeat (split; [reflexivity|]).
      split; [discriminate|intros _; auto].
Qed.

End Properties.

(** * Facts of real analysis about the loss *)

Section RealFacts.
Import RealTensors.
Open Scope R_scope.

(** *** Facts of real analysis about these functions *)

Lemma sum_exp_pos (v : list R) : v <> [] -> 0 < sum_list (map exp v).
Proof.
  assert (H : forall w, 0 <= sum_list (map exp w)).
  { induction w as [|x w IH]; simpl; [lra|].
    pose proof (exp_pos x). lra. }
  destruct v as [|x v]; [congruence|]. intros _. simpl.
  pose proof (exp_pos x). pose proof (H v). lra.
Qed.

Lemma sum_exp_shift (d : R) (v : list R) :
  sum_list (map exp (map (fun x => x + d) v)) = exp d * sum_list (map exp v).
Proof.
  induction v as [|x v IH]; simpl; [lra|].
  rewrite IH, exp_plus. lra.
Qed.

(** [softmax] does not see a constant added to every entry of a row. *)
Lemma softmax_row_shift (d : R) (v : list R) :
  softmax_row (map (fun x => x + d) v) = softmax_row v.
Proof.
  destruct v as [|x0 v0] eqn:E; [reflexivity|]. rewrite <- E.
  assert (Hpos : 0 < sum_list (map exp v)) by (apply sum_exp_pos; congruence).
  unfold softmax_row. rewrite sum_exp_shift, map_map.
  apply map_ext. intros x. rewrite exp_plus.
  pose proof (exp_pos d). field. split; lra.
Qed.


(** [log_softmax], computed as [x - log(sum exp)], is the logarithm of
    [softmax]. *)
Lemma log_softmax_row_ln (v : list R) :
  log_softmax_row v = map ln (softmax_row v).
Proof.
  destruct v as [|x0 v0] eqn:E; [reflexivity|]. rewrite <- E.
  assert (Hpos : 0 < sum_list (map exp v)) by (apply sum_exp_pos; congruence).
  unfold log_softmax_row, softmax_row. rewrite map_map.
  apply map_ext. intros x.
  unfold Rdiv. rewrite ln_mult, ln_Rinv, ln_exp; try assumption.
  - lra.
  - apply exp_pos.
  - apply Rinv_0_lt_compat. assumption.
Qed.

(** For [0 < y] other than 1, [ln y < y - 1]. *)
Lemma ln_lt_minus_one (y : R) : 0 < y -> y <> 1 -> ln y < y - 1.
Proof.
  intros Hy Hne.
  assert (Hl : ln y <> 0).
  { intros H0. apply Hne. rewrite <- (exp_ln y Hy), H0. apply exp_0. }
  pose proof (exp_ineq1 (ln y) Hl) as H. rewrite (exp_ln y Hy) in H. lra.
Qed.

Lemma ln_quot (a b : R) : 0 < a -> 0 < b -> ln (a / b) = ln a - ln b.
Proof.
  intros Ha Hb. unfold Rdiv.
  rewrite ln_mult, ln_Rinv; try assumption; [lra|].
  apply Rinv_0_lt_compat. assumption.
Qed.

(** Gibbs' inequality for two outcomes, strict. *)
Lemma gibbs_two (a0 a1 b0 b1 : R) :
  0 < a0 -> 0 < a1 -> 0 < b0 -> 0 < b1 ->
  a0 + a1 = 1 -> b0 + b1 = 1 -> a0 <> b0 ->
  0 < b0 * (ln b0 - ln a0) + b1 * (ln b1 - ln a1).
Proof.
  intros Ha0 Ha1 Hb0 Hb1 Ha Hb Hne.
  assert (H0 : ln (a0 / b0) < a0 / b0 - 1).
  { apply ln_lt_minus_one; [apply Rdiv_lt_0_compat; assumption|].
    intros H. apply Hne. apply (Rmult_eq_compat_r b0) in H.
    unfold Rdiv in H. rewrite Rmult_assoc, Rinv_l in H; lra. }
  assert (H1 : ln (a1 / b1) < a1 / b1 - 1).
  { apply ln_lt_minus_one; [apply Rdiv_lt_0_compat; assumption|].
    intros H. apply Hne. apply (Rmult_eq_compat_r b1) in H.
    unfold Rdiv in H. rewrite Rmult_assoc, Rinv_l in H; lra. }
  rewrite ln_quot in H0, H1 by assumption.
  assert (E0 : b0 * (a0 / b0 - 1) = a0 - b0) by (field; lra).
  assert (E1 : b1 * (a1 / b1 - 1) = a1 - b1) by (field; lra).
  assert (M0 : b0 * (ln a0 - ln b0) < b0 * (a0 / b0 - 1))
    by (apply Rmult_lt_compat_l; assumption).
  assert (M1 : b1 * (ln a1 - ln b1) < b1 * (a1 / b1 - 1))
    by (apply Rmult_lt_compat_l; assumption).
  lra.
Qed.

End RealFacts.

(** * The cast to [float32] *)

Section Float32Facts.
Import RealTensors Float32.

Open Scope R_scope.

Lemma ln_2_pos : 0 < ln 2.
Proof. pose proof ln_lt_2. lra. Qed.

Lemma ln_powerRZ_2 (e : Z) : ln (powerRZ 2 e) = IZR e * ln 2.
Proof. rewrite powerRZ_Rpower by lra. apply ln_Rpower. Qed.

Lemma exponent_bounds (x : R) (e : Z) :
  powerRZ 2 e <= Rabs x < powerRZ 2 (e + 1) -> exponent x = e.
Proof.
  intros [Hlo Hhi]. unfold exponent. symmetry. apply Int_part_spec.
  pose proof ln_2_pos as L2.
  assert (P : 0 < powerRZ 2 e) by (apply powerRZ_lt; lra).
  assert (Hx : 0 < Rabs x) by lra.
  assert (H1 : IZR e * ln 2 <= ln (Rabs x)).
  { rewrite <- ln_powerRZ_2. destruct Hlo as [Hlo|Hlo].
    - left. apply ln_increasing; assumption.
    - rewrite Hlo. right. reflexivity. }
  assert (H2 : ln (Rabs x) < (IZR e + 1) * ln 2).
  { rewrite <- plus_IZR, <- ln_powerRZ_2. apply ln_increasing; assumption. }
  split.
  - apply (Rmult_lt_reg_r (ln 2)); [exact L2|].
    unfold Rdiv. replace ((ln (Rabs x) * / ln 2 - 1) * ln 2)
      with (ln (Rabs x) - ln 2) by (field; lra). lra.
  - apply (Rmult_le_reg_r (ln 2)); [exact L2|].
    unfold Rdiv. replace (ln (Rabs x) * / ln 2 * ln 2)
      with (ln (Rabs x)) by (field; lra). lra.
Qed.

Lemma round_half_even_near (y : R) (f : Z) :
  IZR f <= y -> y - IZR f < 1 / 2 -> round_half_even y = f.
Proof.
  intros Hlo Hhi. unfold round_half_even.
  assert (E : Int_part y = f) by (symmetry; apply Int_part_spec; lra).
  rewrite E. destruct (Rlt_dec (y - IZR f) (1 / 2)); [reflexivity|contradiction].
Qed.

Lemma round_f32_near (x : R) (e f : Z) :
  x <> 0 ->
  powerRZ 2 e <= Rabs x < powerRZ 2 (e + 1) ->
  (-126 <= e)%Z ->
  IZR f * powerRZ 2 (e - 23) <= x ->
  x - IZR f * powerRZ 2 (e - 23) < powerRZ 2 (e - 23) / 2 ->
  round_f32 x = IZR f * powerRZ 2 (e - 23).
Proof.
  intros Hx He Hmin Hlo Hhi. unfold round_f32, ulp_f32.
  destruct (Req_dec_T x 0) as [E|_]; [contradiction|].
  rewrite (exponent_bounds x e He), Z.max_l by lia.
  assert (P : 0 < powerRZ 2 (e - 23)) by (apply powerRZ_lt; lra).
  rewrite (round_half_even_near _ f); [reflexivity| |].
  - apply (Rmult_le_reg_r (powerRZ 2 (e - 23))); [exact P|].
    unfold Rdiv. rewrite Rmult_assoc, Rinv_l by lra. lra.
  - apply (Rmult_lt_reg_r (powerRZ 2 (e - 23))); [exact P|].
    unfold Rdiv. rewrite Rmult_minus_distr_r, Rmult_assoc, Rinv_l by lra. lra.
Qed.

Lemma round_f32_0 : round_f32 0 = 0.
Proof. unfold round_f32. destruct (Req_dec_T 0 0); [reflexivity|congruence]. Qed.

Lemma round_f32_1 : round_f32 1 = 1.
Proof.
  rewrite (round_f32_near 1 0 8388608).
  - simpl. lra.
  - lra.
  - rewrite Rabs_R1. simpl. lra.
  - lia.
  - simpl. lra.
  - simpl. lra.
Qed.

Lemma round_f32_1e8 : round_f32 100000000 = 100000000.
Proof.
  rewrite (round_f32_near 100000000 26 12500000).
  - simpl. lra.
  - lra.
  - rewrite Rabs_pos_eq by lra. simpl. lra.
  - lia.
  - simpl. lra.
  - simpl. lra.
Qed.

Lemma round_f32_1e8_1 : round_f32 100000001 = 100000000.
Proof.
  rewrite (round_f32_near 100000001 26 12500000).
  - simpl. lra.
  - lra.
  - rewrite Rabs_pos_eq by lra. simpl. lra.
  - lia.
  - simpl. lra.
  - simpl. lra.
Qed.

(** The loss [update_distillation] returns on a buffer that stores the rows
    [rows], for the student that predicts [0, 0]. *)
Lemma cast_trainee_loss (rows : list (list R)) :
  option_map fst
    (result (@update_distillation Float32Torch CastWorld CastBase
               (cast_trainee rows)))
  = Some (item (kl_div_sum (log_softmax_dim1 (Matrix [[0; 0]]))
                  (softmax_dim1
                     (div_scalar (Matrix (map (map round_f32) rows))
                        (Q2R (1 # 100)))))).
Proof.
  rewrite (@update_distillation_eval Float32Torch CastWorld CastBase
             (Q2R (1 # 100)) (cast_buffer rows) (cast_trainee rows)
             eq_refl eq_refl).
  cbn [result option_map fst]. f_equal.
  unfold distillation_loss, on_device.
  cbn [cuda_is_available CastWorld dqn to_device Float32Torch t_item t_div
       F_kl_div_sum F_log_softmax_dim1 F_softmax_dim1 batch_at CastBase snd].
  unfold stored_rows, cast_buffer. cbn [stored].
  assert (E : omap (fun d : @sample Float32Torch =>
                      match snd d with
                      | Some (Vector v) => Some v
                      | _ => None
                      end)
                   (map (fun r => (Scalar 0, Some (Vector r))) rows) = rows).
  { induction rows as [|r rows IH]; [reflexivity|].
    simpl. f_equal. exact IH. }
  rewrite E. reflexivity.
Qed.

End Float32Facts.

Section RealLoss.
Import RealTensors.
Context {C : @Collaborators RealTorch} {B : @BaseAgent RealTorch C}.

Open Scope R_scope.

(** * The distillation loss over the real numbers *)

Lemma target_shift (tau : R) (q q' : list (list R)) :
  shifted q q' ->
  softmax_dim1 (div_scalar (Matrix q') tau) = softmax_dim1 (div_scalar (Matrix q) tau).
Proof.
  intros H. simpl. f_equal.
  induction H as [|r r' q q' (c & ->) _ IH]; [reflexivity|].
  simpl. rewrite IH. f_equal.
  rewrite map_map.
  rewrite <- (softmax_row_shift (c / tau) (map (fun x => x / tau) r)).
  rewrite map_map. f_equal. apply map_ext. intros x.
  unfold Rdiv. ring.
Qed.

Lemma softmax_two (x y : R) :
  softmax_row [x; y] = [exp x / (exp x + exp y); exp y / (exp x + exp y)].
Proof.
  unfold softmax_row, sum_list. simpl.
  replace (exp x + (exp y + 0)) with (exp x + exp y) by ring. reflexivity.
Qed.

(** The loss of a batch of one row of two actions. *)
Lemma loss_two (x0 x1 y0 y1 : R) :
  kl_div_sum (log_softmax_dim1 (Matrix [[x0; x1]])) (Matrix [softmax_row [y0; y1]])
  = Scalar
      (let a0 := exp x0 / (exp x0 + exp x1) in
       let a1 := exp x1 / (exp x0 + exp x1) in
       let b0 := exp y0 / (exp y0 + exp y1) in
       let b1 := exp y1 / (exp y0 + exp y1) in
       b0 * (ln b0 - ln a0) + b1 * (ln b1 - ln a1)).
Proof.
  simpl. rewrite log_softmax_row_ln, !softmax_two.
  unfold kl_row, kl_pointwise, sum_list. simpl. f_equal. ring.
Qed.

(** The teacher row [0, 1] and the same row shifted by 100000000, through
    the cast to [float32], for a student that predicts [0, 0] at the
    temperature 0.01. *)
Lemma shifted_by_1e8 : shifted [[0; 1]] [[100000000; 100000001]].
Proof.
  constructor; [|constructor]. exists 100000000.
  simpl. repeat f_equal; lra.
Qed.

Lemma cast_loss_row : 
  exists loss : R,
    option_map fst
      (result (@update_distillation Float32.Float32Torch Float32.CastWorld
                 Float32.CastBase (Float32.cast_trainee [[0; 1]])))
    = Some loss
    /\ 0 < loss.
Proof.
  assert (Htau0 : 0 / Q2R (1 # 100) = 0) by (unfold Q2R; simpl; field).
  assert (Htau1 : 1 / Q2R (1 # 100) = 100) by (unfold Q2R; simpl; field).
  eexists. split; [apply cast_trainee_loss|].
  cbn [map]. rewrite round_f32_0, round_f32_1.
  change (softmax_dim1 (div_scalar (Matrix [[0; 1]]) ?t))
    with (Matrix [softmax_row [0 / t; 1 / t]]).
  rewrite loss_two. cbv zeta. rewrite Htau0, Htau1.
  unfold item. cbn [flatten].
  pose proof (exp_pos 0) as P0. pose proof (exp_pos 100) as P1.
  assert (H01 : exp 0 < exp 100) by (apply exp_increasing; lra).
  apply gibbs_two; try (apply Rdiv_lt_0_compat; lra); try (field; lra).
  intros H.
  assert (Hinv : / (exp 0 + exp 100) < / (exp 0 + exp 0)).
  { apply Rinv_lt_contravar; [|lra]. apply Rmult_lt_0_compat; lra. }
  apply (Rmult_lt_compat_l (exp 0)) in Hinv; [|assumption].
  unfold Rdiv in H. lra.
Qed.

Lemma cast_loss_shifted_row :
  option_map fst
    (result (@update_distillation Float32.Float32Torch Float32.CastWorld
               Float32.CastBase
               (Float32.cast_trainee [[100000000; 100000001]])))
  = Some 0.
Proof.
  rewrite cast_trainee_loss.
  cbn [map]. rewrite round_f32_1e8, round_f32_1e8_1.
  change (softmax_dim1 (div_scalar (Matrix [[100000000; 100000000]]) ?t))
    with (Matrix [softmax_row [100000000 / t; 100000000 / t]]).
  rewrite loss_two. cbv zeta. unfold item. cbn [flatten]. f_equal.
  set (y := 100000000 / Q2R (1 # 100)).
  pose proof (exp_pos 0) as P0. pose proof (exp_pos y) as P1.
  replace (exp y / (exp y + exp y)) with (/ 2) by (field; lra).
  replace (exp 0 / (exp 0 + exp 0)) with (/ 2) by (field; lra).
  ring.
Qed.

(** C7, as the code has it: read over the real numbers, without rounding,
    the distillation loss does not change when a constant is added to all
    the teacher Q-values of a row (for any rows, any student and any
    temperature other than 0).  The program casts the batch to [float32]
    before it computes the loss, and through that cast the loss is not the
    same for every shift: there are a batch and a shift of it that give
    different losses.  And there are student predictions and teacher
    Q-values for which two temperatures give different losses. *)
Theorem distillation_loss_shift_and_temperature :
  (forall (tau : R) (states : rtensor) (q q' : list (list R)) (l : Learner),
      tau <> 0 -> shifted q q' ->
      distillation_loss tau states (Matrix q') l
      = distillation_loss tau states (Matrix q) l)
  /\ (exists rows rows' : list (list R),
         shifted rows rows'
         /\ option_map fst
              (result (@update_distillation Float32.Float32Torch
                         Float32.CastWorld Float32.CastBase
                         (Float32.cast_trainee rows')))
            <> option_map fst
                 (result (@update_distillation Float32.Float32Torch
                            Float32.CastWorld Float32.CastBase
                            (Float32.cast_trainee rows))))
  /\ (exists (p q : list (list R)) (tau1 tau2 : R),
         0 < tau1 /\ 0 < tau2
         /\ forall (states : rtensor) (l : Learner),
             dqn l states = Matrix p ->
             distillation_loss tau1 states (Matrix q) l
             <> distillation_loss tau2 states (Matrix q) l).
Proof.
  split; [|split].
  - intros tau states q q' l _ Hs. unfold distillation_loss.
    change (@F_softmax_dim1 RealTorch (@t_div RealTorch (Matrix q') tau))
      with (softmax_dim1 (div_scalar (Matrix q') tau)).
    rewrite (target_shift tau q q' Hs). reflexivity.
  - exists [[0; 1]], [[100000000; 100000001]].
    split; [exact shifted_by_1e8|].
    destruct cast_loss_row as (loss & E & Hpos).
    rewrite cast_loss_shifted_row, E. intros H. injection H as H. lra.
  - exists [[0; 1]], [[0; 1]], 1, (1 / 2).
    split; [lra|]. split; [lra|].
    intros states l Hp. unfold distillation_loss. rewrite Hp.
    change (@F_kl_div_sum RealTorch ?a ?b) with (kl_div_sum a b).
    change (@F_log_softmax_dim1 RealTorch ?a) with (log_softmax_dim1 a).
    change (@F_softmax_dim1 RealTorch (@t_div RealTorch (Matrix [[0; 1]]) ?t))
      with (Matrix [softmax_row [0 / t; 1 / t]]).
    rewrite !loss_two. cbv zeta.
    replace (0 / 1) with 0 by field. replace (1 / 1) with 1 by field.
    replace (0 / (1 / 2)) with 0 by field. replace (1 / (1 / 2)) with 2 by field.
    intros Heq. injection Heq as Heq.
    pose proof (exp_pos 0) as P0. pose proof (exp_pos 1) as P1.
    pose proof (exp_pos 2) as P2.
    assert (H12 : exp 1 < exp 2) by (apply exp_increasing; lra).
    assert (Hg : 0 < exp 0 / (exp 0 + exp 2)
                      * (ln (exp 0 / (exp 0 + exp 2)) - ln (exp 0 / (exp 0 + exp 1)))
                    + exp 2 / (exp 0 + exp 2)
                      * (ln (exp 2 / (exp 0 + exp 2)) - ln (exp 1 / (exp 0 + exp 1)))).
    { apply gibbs_two; try (apply Rdiv_lt_0_compat; lra); try (field; lra).
      intros H.
      assert (Hinv : / (exp 0 + exp 2) < / (exp 0 + exp 1)).
      { apply Rinv_lt_contravar; [|lra].
        apply Rmult_lt_0_compat; lra. }
      apply (Rmult_lt_compat_l (exp 0)) in Hinv; [|assumption].
      unfold Rdiv in H. lra. }
    lra.
Qed.

(** * The training step over the real numbers *)




End RealLoss.

(** * The temperature, over any instance *)

(** C10: in student or test mode [_initialize] ends with [softmax_tau] set
    to the literal 0.01, whatever the configuration holds (over the real
    numbers: the number 0.01), and none of the agent's methods changes the
    temperature afterwards, provided the methods of the base agent do
    not. *)
Theorem softmax_tau_is_constant :
  (forall (T : TorchAPI) (C : Collaborators) (B : BaseAgent),
      (forall ag : Agent,
          exactly_one_mode (args ag) ->
          student (args ag) || test (args ag) = true ->
          exists s', final_state (_initialize ag) = Some s'
                     /\ softmax_tau s' = Some (float_lit (1 # 100)))
      /\ (base_keeps_tau ->
          forall state is_test action q_values fuel interim_test,
            keeps_tau (select_action state is_test)
            /\ keeps_tau (step action q_values)
            /\ keeps_tau (_test fuel interim_test)
            /\ keeps_tau update_distillation
            /\ keeps_tau train))
  /\ @float_lit RealTensors.RealTorch (1 # 100) = 0.01%R.
Proof.
  split.
  - intros T C B. split.
    + intros ag Hone Hst. apply initialize_sets_tau; [|exact Hst].
      apply mode_sum_exactly_one. exact Hone.
    + intros Hbase state is_test action q_values fuel interim_test.
      split; [apply keeps_select_action; exact Hbase|].
      split; [apply keeps_step; exact Hbase|].
      split; [apply keeps_test; exact Hbase|].
      split; [apply keeps_update_distillation|apply keeps_train; exact Hbase].
  - simpl. unfold Q2R. simpl. lra.
Qed.

Import Toy.

(** * The properties on the executable instance *)

Lemma toy_base_keeps_tau : @base_keeps_tau ToyTorch ToyWorld ToyBase.
Proof.
  split; [|split].
  - intros st. apply keeps_ret.
  - intros a. apply keeps_call_env_step.
  - apply keeps_ret.
Qed.

Lemma toy_base_step_keeps_buffer :
  @base_step_keeps_buffer ToyTorch ToyWorld ToyBase.
Proof.
  intros action s s' H.
  destruct (call_env_step_keeps_buffer action s s' H) as [Hm Ht].
  split; [exact Hm|]. exists [EnvStep action]. split; [exact Ht|reflexivity].
Qed.

(** The collection run of the instance: the first episode ends after three
    steps, the second is cut after one, when the buffer holds four samples;
    the third episode is never started. *)
Example collection_run_trace :
  returned trace (_test 5 false collector)
  = Some [EnvReset; EnvStep 0; MemoryAdd (0, Some 0);
          EnvStep 1; MemoryAdd (1, Some 1);
          EnvStep 2; MemoryAdd (2, Some 2);
          PrintCollect 0 3 (3 # 1)%Q 3;
          EnvReset; EnvStep 0; MemoryAdd (0, Some 0);
          PrintCollect 1 1 (1 # 1)%Q 4;
          PrintSaved (PStr "./buffer/")].
Proof. vm_compute. reflexivity. Qed.

(** The student run of the instance: checkpoints, resets and updates. *)
Example train_run_counts :
  returned (fun s => (saved_steps (trace s), dataloader_resets (trace s),
                      optimizer_steps (trace s))) (train trainee)
  = Some ([0; 2; 4; 5], 4%nat, 6%nat).
Proof. vm_compute. reflexivity. Qed.

(** With no epoch the loop body never runs and the final
    [save_params(steps)] reads a variable that was never bound. *)
Example train_no_epochs_raises :
  raised (train trainee_no_epochs) = Some UnboundLocalError.
Proof. vm_compute. reflexivity. Qed.

Lemma collection_run_fills_buffer_witness :
  exists ag' b' evs,
    _test 5 false collector = Ret tt ag'
    /\ memory ag' = Some b'
    /\ trace ag' = trace collector ++ evs
    /\ Z.of_nat (length (stored b')) = Z.min 4 (Z.of_nat (env_steps evs)).
Proof.
  destruct (@collection_run_fills_buffer ToyTorch ToyWorld ToyBase 5 false collector (toy_buffer 0 2)
              (PStr "./buffer/"))
    as (ag' & b' & evs & H1 & H2 & H3 & _ & _ & _ & H7 & _);
    [reflexivity|reflexivity|reflexivity|reflexivity|reflexivity
    |vm_compute; discriminate|vm_compute; lia|].
  exists ag', b', evs. repeat split; assumption.
Defined.

Lemma collection_q_vector_is_fresh_witness :
  exists ag' b' evs,
    _test 5 false collector = Ret tt ag'
    /\ memory ag' = Some b'
    /\ stored b' = stored (toy_buffer 0 2) ++ added evs
    /\ Forall (fun d : sample => snd d = Some (q_vector (learner collector) (fst d)))
              (added evs).
Proof.
  destruct (@collection_q_vector_is_fresh ToyTorch ToyWorld ToyBase 5 false 7 collector (toy_buffer 0 2)
              (PStr "./buffer/"))
    as (_ & ag' & b' & evs & H1 & H2 & _ & H4 & _ & H6);
    [reflexivity|reflexivity|reflexivity|vm_compute; discriminate
    |vm_compute; lia|].
  exists ag', b', evs. repeat split; assumption.
Defined.

Lemma train_checkpoints_witness :
  exists ag' evs,
    train trainee = Ret tt ag'
    /\ optimizer_steps evs = 6%nat
    /\ saved_steps evs = [0; 2; 4; 5].
Proof.
  destruct (@train_checkpoints ToyTorch ToyWorld ToyBase trainee (toy_buffer 4 2) (1 # 100)%Q)
    as (ag' & evs & H1 & _ & _ & _ & H5);
    [reflexivity|reflexivity|reflexivity|vm_compute; split; [reflexivity|discriminate]
    |vm_compute; reflexivity|].
  destruct H5 as (_ & _ & Ho & Hs); [reflexivity|reflexivity|reflexivity|].
  exists ag', evs. repeat split; assumption.
Defined.

Lemma train_dataloader_resets_witness :
  exists ag' rest,
    train trainee = Ret tt ag'
    /\ trace ag' = trace trainee ++ ResetDataloader :: rest
    /\ dataloader_resets (ResetDataloader :: rest) = Z.to_nat (3 + 1).
Proof.
  destruct (@train_dataloader_resets ToyTorch ToyWorld ToyBase trainee (toy_buffer 4 2) (1 # 100)%Q)
    as (ag' & rest & H1 & H2 & _ & _ & H5);
    [reflexivity|reflexivity|reflexivity|vm_compute; split; [reflexivity|discriminate]
    |vm_compute; reflexivity|].
  exists ag', rest. repeat split; assumption.
Defined.

(** C2 as stated fails: with a buffer of 4, batches of 2 and 3 epochs the
    data loader is reset 4 times, not 3. *)
Lemma train_dataloader_resets_counterexample :
  epochs (hyper_params trainee) = 3
  /\ returned (fun s => dataloader_resets (trace s)) (train trainee) = Some 4%nat
  /\ returned (fun s => dataloader_resets (trace s)) (train trainee)
     <> Some (Z.to_nat (epochs (hyper_params trainee))).
Proof.
  split; [reflexivity|]. split; [vm_compute; reflexivity|].
  vm_compute. discriminate.
Qed.

Lemma initialize_requires_exactly_one_mode_witness :
  _initialize two_modes = Raise AssertionError two_modes
  /\ option_map fs (final_state (_initialize two_modes)) = Some (fs two_modes).
Proof.
  destruct (@initialize_requires_exactly_one_mode ToyTorch ToyWorld ToyBase two_modes) as (_ & H & _).
  apply H; reflexivity.
Defined.

Lemma step_collects_or_delegates_witness :
  (exists ag' b',
      step 0 (Some 0) collector = Ret (snd (env_step (env collector) 0)) ag'
      /\ memory ag' = Some b'
      /\ stored b' = stored (toy_buffer 0 2) ++ [(curr_state collector, Some 0)])
  /\ step 0 (Some 0) trainee = DQNAgent_step 0 trainee.
Proof.
  destruct (@step_collects_or_delegates ToyTorch ToyWorld ToyBase 0 (Some 0) collector) as (H & _).
  destruct (H eq_refl (toy_buffer 0 2) eq_refl)
    as (ag' & b' & H1 & _ & H3 & H4 & _).
  destruct (@step_collects_or_delegates ToyTorch ToyWorld ToyBase 0 (Some 0) trainee) as (_ & H').
  destruct (H' eq_refl) as (Hd & Hk).
  pose proof (Hk toy_base_step_keeps_buffer) as _.
  split; [|exact Hd].
  exists ag', b'. repeat split; assumption.
Defined.

Lemma softmax_tau_is_constant_witness :
  (exists s', final_state (_initialize trainee) = Some s'
              /\ softmax_tau s' = Some (1 # 100)%Q)
  /\ keeps_tau (@train ToyTorch ToyWorld ToyBase).
Proof.
  destruct softmax_tau_is_constant as (H & _).
  destruct (H ToyTorch ToyWorld ToyBase) as (Hinit & Hkeep).
  split.
  - apply Hinit; [vm_compute|]; reflexivity.
  - apply (Hkeep toy_base_keeps_tau 0 true 0 None 0%nat false).
Defined.

(** ** The augmentation pass *)

(** C9 fails on the code: two source roots that both hold a record named
    [0.pkl] are enumerated as two input files, and the pass leaves one output
    file, the second input's; the first input's state is in no output. *)
Lemma augmentation_pass_overwrites :
  returned file_name_list (bind _initialize (fun _ => train) augmenter)
  = Some [("./runA/0/", "0.pkl"); ("./runB/0/", "0.pkl")]%string
  /\ returned save_distillation_dir (bind _initialize (fun _ => train) augmenter)
     = Some (Some output_dir)
  /\ returned (fun s => files_under (fs s) output_dir)
       (bind _initialize (fun _ => train) augmenter)
     = Some [("0.pkl"%string, [Some 20; Some 20])].
Proof.
  split; [vm_compute; reflexivity|]. split; vm_compute; reflexivity.
Qed.

(** On the records of a single teacher run, whose names are all different,
    the pass writes one output per input, named like it, with the same
    state. *)
Lemma augmentation_pass_one_run :
  returned (fun s => map snd (file_name_list s))
    (bind _initialize (fun _ => train) augmenter_one_run)
  = Some ["1.pkl"; "0.pkl"]%string
  /\ exists out,
      returned (fun s => files_under (fs s) output_dir)
        (bind _initialize (fun _ => train) augmenter_one_run) = Some out
      /\ out ≡ₚ [("0.pkl"%string, [Some 10; Some 10]);
                 ("1.pkl"%string, [Some 11; Some 11])].
Proof.
  split; [vm_compute; reflexivity|].
  eexists. split; [vm_compute; reflexivity|].
  reflexivity || apply Permutation_swap.
Qed.

(** The calls of an augmentation pass over two records: the progress bar is
    opened over both, advanced after each, and closed. *)
Example augmentation_run_progress :
  returned trace (bind _initialize (fun _ => train) augmenter)
  = Some [ProgressOpen 2; ProgressAdvance; ProgressAdvance; ProgressClose].
Proof. vm_compute. reflexivity. Qed.

Lemma train_rejects_small_buffer_witness :
  train trainee_small_buffer
  = Raise AssertionError
      (set_trace [ResetDataloader]
         (set_memory (Some (db_reset_dataloader (toy_buffer 1 2)))
            trainee_small_buffer)).
Proof.
  apply (@train_rejects_small_buffer ToyTorch ToyWorld ToyBase
           trainee_small_buffer (toy_buffer 1 2));
    [reflexivity|reflexivity|vm_compute; reflexivity].
Defined.

Lemma train_zero_batch_size_witness :
  exists s', train trainee_zero_batch = Raise ZeroDivisionError s'
             /\ trace s' = [ResetDataloader]
             /\ learner s' = 0.
Proof.
  apply (@train_zero_batch_size ToyTorch ToyWorld ToyBase
           trainee_zero_batch (toy_buffer 4 0));
    [reflexivity|reflexivity|reflexivity|vm_compute; discriminate].
Defined.

Lemma train_without_steps_witness :
  exists s' evs, train trainee_no_epochs = Raise UnboundLocalError s'
                 /\ trace s' = evs
                 /\ optimizer_steps evs = 0%nat /\ saved_steps evs = []
                 /\ dataloader_resets evs = 1%nat /\ learner s' = 0.
Proof.
  apply (@train_without_steps ToyTorch ToyWorld ToyBase
           trainee_no_epochs (toy_buffer 4 2));
    [reflexivity|reflexivity|vm_compute; discriminate
    |vm_compute; discriminate|vm_compute; discriminate].
Defined.

Lemma collection_on_full_buffer_witness :
  exists ag' b' reports,
    _test 1 false collector_full = Ret tt ag'
    /\ trace ag' = EnvReset :: reports
    /\ Forall (fun e => is_report e = true) reports
    /\ memory ag' = Some b' /\ stored b' = stored full_buffer
    /\ idx b' = 4.
Proof.
  destruct (@collection_on_full_buffer ToyTorch ToyWorld ToyBase 1 false
              collector_full full_buffer (PStr "./buffer/")) as [_ H];
    [reflexivity|reflexivity|reflexivity|reflexivity|lia|].
  apply H. vm_compute. reflexivity.
Defined.

Lemma collect_episode_reports_fill_witness :
  exists brk ag' b' evs score,
    collect_episode 5 0 collector = Ret brk ag'
    /\ trace ag' = evs /\ memory ag' = Some b'
    /\ idx b' - 0 = Z.of_nat (length (added evs))
    /\ List.filter is_print_collect evs = [PrintCollect 0 (idx b' - 0) score (idx b')].
Proof.
  apply (@collect_episode_reports_fill ToyTorch ToyWorld ToyBase 5 0
           collector (toy_buffer 0 2) (PStr "./buffer/"));
    [reflexivity|reflexivity|reflexivity|vm_compute; discriminate
    |vm_compute; lia].
Defined.

Lemma student_training_frame_witness :
  exists ag', final_state (train trainee) = Some ag'
              /\ fs ag' = fs trainee /\ env ag' = env trainee.
Proof.
  destruct (@student_training_frame ToyTorch ToyWorld ToyBase trainee)
    as (ag' & E & Hfs & Henv & _); [reflexivity|].
  exists ag'. repeat split; assumption.
Defined.

Lemma augmentation_pass_frame_witness :
  exists ag', final_state (train augmenter) = Some ag'
              /\ learner ag' = learner augmenter /\ env ag' = env augmenter.
Proof.
  destruct (@augmentation_pass_frame ToyTorch ToyWorld ToyBase augmenter)
    as (ag' & E & _ & Hl & He & _); [reflexivity|reflexivity|].
  exists ag'. repeat split; assumption.
Defined.

Lemma augmentation_enumerates_before_writing_witness :
  exists e' ag', train augmenter_missing_root = Raise e' ag'
                 /\ fs ag' = raw_dumps /\ trace ag' = [].
Proof.
  apply (@augmentation_enumerates_before_writing ToyTorch ToyWorld ToyBase
           augmenter_missing_root "runC" FileNotFoundError);
    [reflexivity|reflexivity|right; left; reflexivity
    |left; vm_compute; reflexivity].
Defined.

Lemma initialize_prepares_collection_witness :
  exists ag' b,
    _initialize new_collector = Ret tt ag'
    /\ memory ag' = Some b /\ idx b = 0 /\ stored b = []
    /\ is_dir (fs ag') (components (collection_buffer_path new_collector)) = true.
Proof.
  destruct (@initialize_prepares_collection ToyTorch ToyWorld ToyBase new_collector)
    as (ag' & b & H1 & _ & _ & H4 & H5 & H6 & _ & _ & H9 & _);
    [reflexivity|reflexivity|vm_compute; reflexivity|].
  exists ag', b. repeat split; assumption.
Defined.

Lemma initialize_then_collect_witness :
  exists ag' b' evs,
    bind _initialize (fun _ => _test 5 false) new_collector = Ret tt ag'
    /\ memory ag' = Some b'
    /\ stored b' = added evs
    /\ Z.of_nat (length (stored b')) = Z.min 4 (Z.of_nat (env_steps evs)).
Proof.
  destruct (@initialize_then_collect ToyTorch ToyWorld ToyBase 5 false new_collector)
    as (ag' & b' & evs & H1 & H2 & _ & H4 & H5 & _);
    [reflexivity|reflexivity|vm_compute; reflexivity|vm_compute; discriminate
    |vm_compute; lia|].
  exists ag', b', evs. repeat split; assumption.
Defined.

Lemma initialize_dump_dir_must_be_fresh_witness :
  exists ag', _initialize new_teacher = Ret tt ag'
              /\ save_distillation_dir ag' = Some output_dir
              /\ save_count ag' = Some 0.
Proof.
  destruct (@initialize_dump_dir_must_be_fresh ToyTorch ToyWorld ToyBase
              new_teacher new_teacher) as [_ H];
    [reflexivity|reflexivity|reflexivity|reflexivity|].
  destruct H as (ag' & H1 & H2 & H3 & _);
    [vm_compute; reflexivity|vm_compute; reflexivity|].
  exists ag'. repeat split; assumption.
Defined.

Lemma initialize_then_train_witness :
  exists ag' evs,
    bind _initialize (fun _ => train) new_trainee = Ret tt ag'
    /\ optimizer_steps evs = 3%nat
    /\ fs ag' = buffer_on_disk.
Proof.
  destruct (@initialize_then_train ToyTorch ToyWorld ToyBase new_trainee)
    as (ag' & evs & H1 & _ & H3 & H4 & _);
    [reflexivity|reflexivity|vm_compute; split; [reflexivity|discriminate]
    |vm_compute; reflexivity|].
  exists ag', evs. repeat split; assumption.
Defined.

Lemma teacher_select_action_records_witness :
  exists fs',
    select_action 7 false dumping_teacher
    = Ret (Act 7) (set_save_count (Some 1) (set_fs fs' dumping_teacher))
    /\ read_pickle fs' (output_dir +:+ "0/0.pkl") = inr [Some 7].
Proof.
  destruct (@teacher_select_action_records ToyTorch ToyWorld ToyBase 7
              dumping_teacher dump_base 0)
    as (fs' & H1 & H2 & _);
    [reflexivity|reflexivity|reflexivity|vm_compute; reflexivity
    |vm_compute; discriminate|vm_compute; discriminate|].
  exists fs'. split; [exact H1|exact H2].
Defined.

Lemma teacher_records_are_kept_witness :
  exists ag1,
    select_action 7 false dumping_teacher = Ret (Act 7) ag1
    /\ save_count ag1 = Some 1
    /\ read_pickle (fs ag1) (output_dir +:+ "0/5.pkl")
       = read_pickle dump_made (output_dir +:+ "0/5.pkl").
Proof.
  apply (@teacher_records_are_kept ToyTorch ToyWorld ToyBase 7
           dumping_teacher dump_base 0 0 5);
    [reflexivity|reflexivity|reflexivity|vm_compute; reflexivity
    |vm_compute; discriminate|vm_compute; discriminate|lia].
Defined.

Lemma select_action_epsilon_greedy_witness :
  select_action 7 true trainee = select_action 7 false trainee
  /\ exists a ag', select_action 7 true trainee = Ret (ActQ a 7) ag'
                   /\ curr_state ag' = 7.
Proof.
  destruct (@select_action_epsilon_greedy ToyTorch ToyWorld ToyBase 7 true trainee)
    as (H & a & ag' & H1 & H2 & _); [reflexivity|].
  split; [exact H|]. exists a, ag'. split; [exact H1|exact H2].
Defined.

Import RealTensors RealToy.


(** C7 fails on the program as the spec states it: the batch is cast to
    [float32] before the loss is computed, and 100000001 is no [float32]
    number.  At the temperature 0.01, for a student that predicts the same
    value for both actions, the teacher row [0, 1] gives a positive loss;
    shifted by 100000000 the row is cast to [100000000, 100000000], its
    target is [1/2, 1/2] and the loss is 0. *)
Lemma distillation_loss_shift_counterexample :
  shifted [[0; 1]]%R [[100000000; 100000001]]%R
  /\ (exists loss : R,
        option_map fst
          (result (@update_distillation Float32.Float32Torch Float32.CastWorld
                     Float32.CastBase (Float32.cast_trainee [[0; 1]]%R)))
        = Some loss
        /\ (0 < loss)%R)
  /\ option_map fst
       (result (@update_distillation Float32.Float32Torch Float32.CastWorld
                  Float32.CastBase
                  (Float32.cast_trainee [[100000000; 100000001]]%R)))
     = Some 0%R
  /\ option_map fst
       (result (@update_distillation Float32.Float32Torch Float32.CastWorld
                  Float32.CastBase
                  (Float32.cast_trainee [[100000000; 100000001]]%R)))
     <> option_map fst
          (result (@update_distillation Float32.Float32Torch Float32.CastWorld
                     Float32.CastBase (Float32.cast_trainee [[0; 1]]%R))).
Proof.
  split; [exact shifted_by_1e8|].
  split; [exact cast_loss_row|]. split; [exact cast_loss_shifted_row|].
  destruct cast_loss_row as (loss & E & Hpos).
  rewrite cast_loss_shifted_row, E. intros H. injection H as H. lra.
Qed.

Lemma distillation_loss_shift_and_temperature_witness :
  @distillation_loss RealTorch RealWorld (1 / 100)%R (Scalar 0)
    (Matrix [[0 + 5; 1 + 5]]%R) tt
  = @distillation_loss RealTorch RealWorld (1 / 100)%R (Scalar 0)
      (Matrix [[0; 1]]%R) tt.
Proof.
  destruct (@distillation_loss_shift_and_temperature RealWorld) as (H & _ & _).
  apply H.
  - lra.
  - constructor; [|constructor]. exists 5%R. reflexivity.
Defined.
